(** * GlastarJS: the privacy-glass render engine

    A shallow embedding of the [GlastarJS] class of
    [privacy-glass-renderer.ts] (the revision with avatar states and
    shapes) and of the part of [AudioAnalyzer] it relies on.

    Modelling conventions.
    - A JavaScript [number] is an exact rational ([Q]); rounding, [NaN] and
      the infinities of IEEE doubles are not modelled.  [===] on numbers is
      [Qeq_bool].  [Date.now()] is an integer number of milliseconds ([Z]).
    - An optional property of a [Partial<GlasatarConfig>] is an [option];
      [None] is an absent key.  [x || d] falls back on every falsy [x]
      (absent, [0], the empty string, [false]); [x ?? d] only on an absent one.
    - The object is a record, every method a function from the record to
      the record.  The host (clock, WebGL context, 2D context, animation-frame
      scheduler) is part of the record: calls to it are appended to logs.
    - Time passes between calls by a number of milliseconds that is not
      negative: the clock read by [Date.now()] does not go back, and the
      readings inside one frame are one instant.
    - [Math.pow] at the non-integer exponent of the fade curve is a
      parameter of the development, and so is [Math.sqrt] in the analyzer;
      [%], [Math.round] and [toString(16)] are computed. *)

From Stdlib Require Import ZArith QArith Qminmax Qabs Qround Bool List String.
From Stdlib Require Import Lia Lra Psatz.
From Stdlib Require Ascii HexadecimalString Strings.Byte.
Import ListNotations.

Local Open Scope Q_scope.

(** ** JavaScript operators used by the class *)

Module JS.

(** [x < y] on numbers. *)
Definition ltb (x y : Q) : bool := negb (Qle_bool y x).

(** Truthiness of a number and of a string. *)
Definition truthy_num (x : Q) : bool := negb (Qeq_bool x 0).

Definition truthy_str (s : string) : bool :=
  match s with EmptyString => false | String _ _ => true end.

(** [x || d]. *)
Definition or_num (x : option Q) (d : Q) : Q :=
  match x with
  | Some v => if truthy_num v then v else d
  | None => d
  end.

Definition or_str (x : option string) (d : string) : string :=
  match x with
  | Some v => if truthy_str v then v else d
  | None => d
  end.

Definition or_bool (x : option bool) (d : bool) : bool :=
  match x with
  | Some v => if v then v else d
  | None => d
  end.

(** [x || d] where every value of the type is truthy (string enums,
    objects). *)
Definition or_obj {A : Type} (x : option A) (d : A) : A :=
  match x with Some v => v | None => d end.

(** [x ?? d]. *)
Definition nullish {A : Type} (x : option A) (d : A) : A :=
  match x with Some v => v | None => d end.

(** [{...a, ...b}] at one key: the value of [b] when the key is present. *)
Definition spread {A : Type} (prior : A) (patch : option A) : A :=
  match patch with Some v => v | None => prior end.

(** [Object.prototype.hasOwnProperty.call(o, key)] and [o.key !== undefined]. *)
Definition has {A : Type} (x : option A) : bool :=
  match x with Some _ => true | None => false end.

End JS.

(** ** types.ts *)

Inductive TextureType :=
| arctic | cathedral | autumn | flemish | ripple | reeded | vintage | forest.

Inductive AvatarState := speaking | listening | thinking.

Inductive AvatarShape := square | circle.

Inductive BackgroundType := color | radial_gradient | linear_gradient | image.

Definition AvatarState_eqb (a b : AvatarState) : bool :=
  match a, b with
  | speaking, speaking | listening, listening | thinking, thinking => true
  | _, _ => false
  end.

Definition BackgroundType_eqb (a b : BackgroundType) : bool :=
  match a, b with
  | color, color | radial_gradient, radial_gradient
  | linear_gradient, linear_gradient | image, image => true
  | _, _ => false
  end.

(** The gradient sub-object of the stored configuration. *)
Record Gradient := mkGradient {
  centerColor : string;
  edgeColor : string;
  angle : Q
}.

(** [Partial<GlasatarConfig>]: what a caller passes to the constructor and
    to [updateConfig].  [backgroundImage] has type [string | undefined], so
    a present key may carry [undefined] (the explicit clear). *)
Module Partial.

Record Gradient := mkGradient {
  centerColor : option string;
  edgeColor : option string;
  angle : option Q
}.

Record t := mk {
  width : option Q;
  height : option Q;
  texture : option TextureType;
  glassOpacity : option Q;
  refractionStrength : option Q;
  blurAmount : option Q;
  fps : option Q;
  avatarColor : option string;
  avatarSize : option Q;
  avatarSensitivity : option Q;
  avatarExpansion : option Q;
  avatarSmoothing : option Q;
  avatarFadeWithAudio : option bool;
  avatarState : option AvatarState;
  avatarShape : option AvatarShape;
  listeningPulseBase : option Q;
  listeningPulseAmplitude : option Q;
  listeningPulseSpeed : option Q;
  thinkingBorderWidth : option Q;
  thinkingBorderSpeed : option Q;
  thinkingBorderLength : option Q;
  thinkingBorderTrailSegments : option Q;
  backgroundColor : option string;
  backgroundType : option BackgroundType;
  backgroundGradient : option Gradient;
  backgroundImage : option (option string);
  backgroundRotation : option bool;
  backgroundRotationSpeed : option Q;
  backgroundScale : option Q
}.

(** [{}] *)
Definition empty : t :=
  mk None None None None None None None None None None None None None None
     None None None None None None None None None None None None None None
     None.

Definition emptyGradient : Gradient := mkGradient None None None.

End Partial.

(** The stored configuration, [this.config].  The seven listening and
    thinking settings are not part of its declared type and the
    constructor does not copy them; the object spread of [updateConfig]
    does, so they are optional properties of the stored object. *)
Record Config := mkConfig {
  width : Q;
  height : Q;
  texture : TextureType;
  glassOpacity : Q;
  refractionStrength : Q;
  blurAmount : Q;
  fps : Q;
  avatarColor : string;
  avatarSize : Q;
  avatarSensitivity : Q;
  avatarExpansion : Q;
  avatarSmoothing : Q;
  avatarFadeWithAudio : bool;
  avatarState : AvatarState;
  avatarShape : AvatarShape;
  listeningPulseBase : option Q;
  listeningPulseAmplitude : option Q;
  listeningPulseSpeed : option Q;
  thinkingBorderWidth : option Q;
  thinkingBorderSpeed : option Q;
  thinkingBorderLength : option Q;
  thinkingBorderTrailSegments : option Q;
  backgroundColor : string;
  backgroundType : BackgroundType;
  backgroundGradient : Gradient;
  backgroundImage : option string;
  backgroundRotation : bool;
  backgroundRotationSpeed : Q;
  backgroundScale : Q
}.

(** [this.config.width = w; this.config.height = h] *)
Definition set_size (w h : Q) (c : Config) : Config :=
  mkConfig w h (texture c) (glassOpacity c) (refractionStrength c)
    (blurAmount c) (fps c) (avatarColor c) (avatarSize c)
    (avatarSensitivity c) (avatarExpansion c) (avatarSmoothing c)
    (avatarFadeWithAudio c) (avatarState c) (avatarShape c)
    (listeningPulseBase c) (listeningPulseAmplitude c) (listeningPulseSpeed c)
    (thinkingBorderWidth c) (thinkingBorderSpeed c) (thinkingBorderLength c)
    (thinkingBorderTrailSegments c) (backgroundColor c) (backgroundType c)
    (backgroundGradient c) (backgroundImage c) (backgroundRotation c)
    (backgroundRotationSpeed c) (backgroundScale c).

(** ** The constructor's default resolution

    The [width]/[height] constants and the object literal assigned to
    [this.config]. *)

(** [shape === 'circle' || shape === 'square'] *)
Definition circle_or_square (shape : option AvatarShape) : bool :=
  match shape with
  | Some circle => true
  | Some square => true
  | None => false
  end.

Definition resolveConfig (config : Partial.t) : Config :=
  let width := JS.or_num (Partial.width config) 800 in
  let height :=
    if circle_or_square (Partial.avatarShape config)
    then width
    else JS.or_num (Partial.height config) 600 in
  {| width := width;
     height := height;
     texture := JS.or_obj (Partial.texture config) arctic;
     glassOpacity := JS.or_num (Partial.glassOpacity config) 0.95;
     refractionStrength := JS.or_num (Partial.refractionStrength config) 1.0;
     blurAmount := JS.or_num (Partial.blurAmount config) 3.0;
     fps := JS.or_num (Partial.fps config) 60;
     avatarColor := JS.or_str (Partial.avatarColor config) "#4A90E2";
     avatarSize := JS.or_num (Partial.avatarSize config) 80;
     avatarSensitivity := JS.or_num (Partial.avatarSensitivity config) 1.0;
     avatarExpansion := JS.or_num (Partial.avatarExpansion config) 2.0;
     avatarSmoothing := JS.or_num (Partial.avatarSmoothing config) 0.25;
     avatarFadeWithAudio :=
       JS.or_bool (Partial.avatarFadeWithAudio config) false;
     avatarState := JS.or_obj (Partial.avatarState config) speaking;
     avatarShape := JS.or_obj (Partial.avatarShape config) square;
     listeningPulseBase := None;
     listeningPulseAmplitude := None;
     listeningPulseSpeed := None;
     thinkingBorderWidth := None;
     thinkingBorderSpeed := None;
     thinkingBorderLength := None;
     thinkingBorderTrailSegments := None;
     backgroundColor := JS.or_str (Partial.backgroundColor config) "#000000";
     backgroundType := JS.or_obj (Partial.backgroundType config) color;
     backgroundGradient :=
       {| centerColor :=
            JS.or_str
              (match Partial.backgroundGradient config with
               | Some g => Partial.centerColor g
               | None => None
               end) "#4A90E2";
          edgeColor :=
            JS.or_str
              (match Partial.backgroundGradient config with
               | Some g => Partial.edgeColor g
               | None => None
               end) "#1a1a2e";
          angle :=
            JS.nullish
              (match Partial.backgroundGradient config with
               | Some g => Partial.angle g
               | None => None
               end) 45 |};
     backgroundImage :=
       match Partial.backgroundImage config with
       | Some i => i
       | None => None
       end;
     backgroundRotation := JS.nullish (Partial.backgroundRotation config) true;
     backgroundRotationSpeed :=
       match Partial.backgroundRotation config with
       | Some false => 0
       | _ => JS.nullish (Partial.backgroundRotationSpeed config) 10
       end;
     backgroundScale := JS.or_num (Partial.backgroundScale config) 1.0 |}.

(** ** The engine and its host *)

(** The WebGL objects the engine owns. *)
Inductive GLObject :=
| ProgramObject | PositionBufferObject | TexCoordBufferObject | TextureObject.

(** [AudioAnalyzer]: only whether a stream source is connected matters to
    the engine; its samples are inputs of the frames. *)
Record AudioAnalyzer := mkAudioAnalyzer { source : bool }.

(** The [Image] behind [backgroundImageElement]: its [src] and whether the
    [onload] and [onerror] handlers are attached. *)
Record ImageElement := mkImage {
  src : string;
  onload : bool;
  onerror : bool;
  complete : bool
}.

(** The object handed to [JSON.stringify] for the background dirty
    check.  Two such strings are equal exactly when the objects agree on
    every key, numbers compared as numbers; the initial
    [lastBackgroundConfig = ''] is the string of no object ([None]). *)
Record BackgroundSignature := mkSignature {
  sig_type : BackgroundType;
  sig_color : string;
  sig_gradient : Gradient;
  sig_image : option string;
  sig_rotation : bool;
  sig_speed : Q;
  sig_scale : Q;
  sig_state : AvatarState
}.

Definition Gradient_eqb (a b : Gradient) : bool :=
  String.eqb (centerColor a) (centerColor b)
  && String.eqb (edgeColor a) (edgeColor b)
  && Qeq_bool (angle a) (angle b).

Definition image_eqb (a b : option string) : bool :=
  match a, b with
  | Some x, Some y => String.eqb x y
  | None, None => true
  | _, _ => false
  end.

Definition BackgroundSignature_eqb (a b : BackgroundSignature) : bool :=
  BackgroundType_eqb (sig_type a) (sig_type b)
  && String.eqb (sig_color a) (sig_color b)
  && Gradient_eqb (sig_gradient a) (sig_gradient b)
  && image_eqb (sig_image a) (sig_image b)
  && Bool.eqb (sig_rotation a) (sig_rotation b)
  && Qeq_bool (sig_speed a) (sig_speed b)
  && Qeq_bool (sig_scale a) (sig_scale b)
  && AvatarState_eqb (sig_state a) (sig_state b).

(** [this.lastBackgroundConfig !== currentBackgroundConfig] *)
Definition signature_changed (last : option BackgroundSignature)
    (current : BackgroundSignature) : bool :=
  match last with
  | Some s => negb (BackgroundSignature_eqb s current)
  | None => true
  end.

(** Calls on the WebGL context, in the order they are issued. *)
Inductive GLCall :=
| createShader (vertex : bool)
| shaderSource
| compileShader
| getShaderParameter
| getShaderInfoLog
| deleteShader
| createProgram
| attachShader
| linkProgram
| getProgramParameter
| getProgramInfoLog
| createBuffer
| bindBuffer (buffer : option GLObject)
| bufferData
| getUniformLocation (name : string)
| viewport (w h : Q)
| createTexture
| bindTexture (texture : option GLObject)
| texParameteri
| texImage2D (w h : Q)
| clearColor
| clear
| enable
| blendFunc
| useProgram
| uniform1i (name : string) (value : Z)
| uniform2f (name : string) (x y : Q)
| uniform1f (name : string) (value : Q)
| activeTexture
| getAttribLocation (name : string)
| enableVertexAttribArray
| vertexAttribPointer
| drawArrays (count : nat)
| deleteProgram
| deleteBuffer
| deleteTexture.

(** Drawing on the 2D context of the composition canvas.  The canvas
    primitives issued inside [drawBackground], [drawAvatarCircle] and the
    two thinking-border routines are summarised by one entry per routine,
    carrying the arguments the routine was called with. *)
Inductive CtxCall :=
| save
| restore
| globalAlpha (alpha : Q)
| background (type : BackgroundType) (w h : Q)
| avatarCircle (centerX centerY size opacity : Q)
| thinkingBorderCircle (centerX centerY w h transitionOpacity : Q) (time : Z)
| thinkingBorderSquare (w h transitionOpacity : Q) (time : Z).

(** Calls on the animation-frame scheduler. *)
Inductive FrameCall :=
| requestAnimationFrame (id : positive)
| cancelAnimationFrame (id : positive).

(** The fields of the class, followed by the host: the clock read by
    [Date.now()], the calls made on the WebGL context, on the 2D context and
    on the scheduler, and the console. *)
Record Engine := mkEngine {
  config : Config;
  canvas_width : Q;
  canvas_height : Q;
  backgroundCanvas_width : Q;
  backgroundCanvas_height : Q;
  program : option GLObject;
  positionBuffer : option GLObject;
  texCoordBuffer : option GLObject;
  backgroundTexture : option GLObject;
  audioAnalyzer : option AudioAnalyzer;
  animationId : option positive;
  isDisposed : bool;
  smoothedAudioLevel : Q;
  backgroundImageElement : option ImageElement;
  startTime : Z;
  backgroundDirty : bool;
  lastBackgroundConfig : option BackgroundSignature;
  textureNeedsUpdate : bool;
  lastAvatarSize : Q;
  thinkingAnimationTime : Z;
  currentState : AvatarState;
  targetState : AvatarState;
  stateTransitionProgress : Q;
  stateTransitionStartTime : Z;
  clock : Z;
  gl : list GLCall;
  ctx : list CtxCall;
  frames : list FrameCall;
  console : list string
}.

Definition set_config (v : Config) (e : Engine) : Engine :=
  mkEngine
    v (canvas_width e) (canvas_height e) (backgroundCanvas_width e)
    (backgroundCanvas_height e) (program e) (positionBuffer e)
    (texCoordBuffer e) (backgroundTexture e) (audioAnalyzer e)
    (animationId e) (isDisposed e) (smoothedAudioLevel e)
    (backgroundImageElement e) (startTime e) (backgroundDirty e)
    (lastBackgroundConfig e) (textureNeedsUpdate e) (lastAvatarSize e)
    (thinkingAnimationTime e) (currentState e) (targetState e)
    (stateTransitionProgress e) (stateTransitionStartTime e) (clock e) (gl e)
    (ctx e) (frames e) (console e).

Definition set_canvas_width (v : Q) (e : Engine) : Engine :=
  mkEngine
    (config e) v (canvas_height e) (backgroundCanvas_width e)
    (backgroundCanvas_height e) (program e) (positionBuffer e)
    (texCoordBuffer e) (backgroundTexture e) (audioAnalyzer e)
    (animationId e) (isDisposed e) (smoothedAudioLevel e)
    (backgroundImageElement e) (startTime e) (backgroundDirty e)
    (lastBackgroundConfig e) (textureNeedsUpdate e) (lastAvatarSize e)
    (thinkingAnimationTime e) (currentState e) (targetState e)
    (stateTransitionProgress e) (stateTransitionStartTime e) (clock e) (gl e)
    (ctx e) (frames e) (console e).

Definition set_canvas_height (v : Q) (e : Engine) : Engine :=
  mkEngine
    (config e) (canvas_width e) v (backgroundCanvas_width e)
    (backgroundCanvas_height e) (program e) (positionBuffer e)
    (texCoordBuffer e) (backgroundTexture e) (audioAnalyzer e)
    (animationId e) (isDisposed e) (smoothedAudioLevel e)
    (backgroundImageElement e) (startTime e) (backgroundDirty e)
    (lastBackgroundConfig e) (textureNeedsUpdate e) (lastAvatarSize e)
    (thinkingAnimationTime e) (currentState e) (targetState e)
    (stateTransitionProgress e) (stateTransitionStartTime e) (clock e) (gl e)
    (ctx e) (frames e) (console e).

Definition set_backgroundCanvas_width (v : Q) (e : Engine) : Engine :=
  mkEngine
    (config e) (canvas_width e) (canvas_height e) v
    (backgroundCanvas_height e) (program e) (positionBuffer e)
    (texCoordBuffer e) (backgroundTexture e) (audioAnalyzer e)
    (animationId e) (isDisposed e) (smoothedAudioLevel e)
    (backgroundImageElement e) (startTime e) (backgroundDirty e)
    (lastBackgroundConfig e) (textureNeedsUpdate e) (lastAvatarSize e)
    (thinkingAnimationTime e) (currentState e) (targetState e)
    (stateTransitionProgress e) (stateTransitionStartTime e) (clock e) (gl e)
    (ctx e) (frames e) (console e).

Definition set_backgroundCanvas_height (v : Q) (e : Engine) : Engine :=
  mkEngine
    (config e) (canvas_width e) (canvas_height e) (backgroundCanvas_width e)
    v (program e) (positionBuffer e) (texCoordBuffer e) (backgroundTexture e)
    (audioAnalyzer e) (animationId e) (isDisposed e) (smoothedAudioLevel e)
    (backgroundImageElement e) (startTime e) (backgroundDirty e)
    (lastBackgroundConfig e) (textureNeedsUpdate e) (lastAvatarSize e)
    (thinkingAnimationTime e) (currentState e) (targetState e)
    (stateTransitionProgress e) (stateTransitionStartTime e) (clock e) (gl e)
    (ctx e) (frames e) (console e).

Definition set_program (v : option GLObject) (e : Engine) : Engine :=
  mkEngine
    (config e) (canvas_width e) (canvas_height e) (backgroundCanvas_width e)
    (backgroundCanvas_height e) v (positionBuffer e) (texCoordBuffer e)
    (backgroundTexture e) (audioAnalyzer e) (animationId e) (isDisposed e)
    (smoothedAudioLevel e) (backgroundImageElement e) (startTime e)
    (backgroundDirty e) (lastBackgroundConfig e) (textureNeedsUpdate e)
    (lastAvatarSize e) (thinkingAnimationTime e) (currentState e)
    (targetState e) (stateTransitionProgress e) (stateTransitionStartTime e)
    (clock e) (gl e) (ctx e) (frames e) (console e).

Definition set_positionBuffer (v : option GLObject) (e : Engine) : Engine :=
  mkEngine
    (config e) (canvas_width e) (canvas_height e) (backgroundCanvas_width e)
    (backgroundCanvas_height e) (program e) v (texCoordBuffer e)
    (backgroundTexture e) (audioAnalyzer e) (animationId e) (isDisposed e)
    (smoothedAudioLevel e) (backgroundImageElement e) (startTime e)
    (backgroundDirty e) (lastBackgroundConfig e) (textureNeedsUpdate e)
    (lastAvatarSize e) (thinkingAnimationTime e) (currentState e)
    (targetState e) (stateTransitionProgress e) (stateTransitionStartTime e)
    (clock e) (gl e) (ctx e) (frames e) (console e).

Definition set_texCoordBuffer (v : option GLObject) (e : Engine) : Engine :=
  mkEngine
    (config e) (canvas_width e) (canvas_height e) (backgroundCanvas_width e)
    (backgroundCanvas_height e) (program e) (positionBuffer e) v
    (backgroundTexture e) (audioAnalyzer e) (animationId e) (isDisposed e)
    (smoothedAudioLevel e) (backgroundImageElement e) (startTime e)
    (backgroundDirty e) (lastBackgroundConfig e) (textureNeedsUpdate e)
    (lastAvatarSize e) (thinkingAnimationTime e) (currentState e)
    (targetState e) (stateTransitionProgress e) (stateTransitionStartTime e)
    (clock e) (gl e) (ctx e) (frames e) (console e).

Definition set_backgroundTexture (v : option GLObject) (e : Engine) : Engine :=
  mkEngine
    (config e) (canvas_width e) (canvas_height e) (backgroundCanvas_width e)
    (backgroundCanvas_height e) (program e) (positionBuffer e)
    (texCoordBuffer e) v (audioAnalyzer e) (animationId e) (isDisposed e)
    (smoothedAudioLevel e) (backgroundImageElement e) (startTime e)
    (backgroundDirty e) (lastBackgroundConfig e) (textureNeedsUpdate e)
    (lastAvatarSize e) (thinkingAnimationTime e) (currentState e)
    (targetState e) (stateTransitionProgress e) (stateTransitionStartTime e)
    (clock e) (gl e) (ctx e) (frames e) (console e).

Definition set_audioAnalyzer (v : option AudioAnalyzer) (e : Engine) : Engine :=
  mkEngine
    (config e) (canvas_width e) (canvas_height e) (backgroundCanvas_width e)
    (backgroundCanvas_height e) (program e) (positionBuffer e)
    (texCoordBuffer e) (backgroundTexture e) v (animationId e) (isDisposed e)
    (smoothedAudioLevel e) (backgroundImageElement e) (startTime e)
    (backgroundDirty e) (lastBackgroundConfig e) (textureNeedsUpdate e)
    (lastAvatarSize e) (thinkingAnimationTime e) (currentState e)
    (targetState e) (stateTransitionProgress e) (stateTransitionStartTime e)
    (clock e) (gl e) (ctx e) (frames e) (console e).

Definition set_animationId (v : option positive) (e : Engine) : Engine :=
  mkEngine
    (config e) (canvas_width e) (canvas_height e) (backgroundCanvas_width e)
    (backgroundCanvas_height e) (program e) (positionBuffer e)
    (texCoordBuffer e) (backgroundTexture e) (audioAnalyzer e) v
    (isDisposed e) (smoothedAudioLevel e) (backgroundImageElement e)
    (startTime e) (backgroundDirty e) (lastBackgroundConfig e)
    (textureNeedsUpdate e) (lastAvatarSize e) (thinkingAnimationTime e)
    (currentState e) (targetState e) (stateTransitionProgress e)
    (stateTransitionStartTime e) (clock e) (gl e) (ctx e) (frames e)
    (console e).

Definition set_isDisposed (v : bool) (e : Engine) : Engine :=
  mkEngine
    (config e) (canvas_width e) (canvas_height e) (backgroundCanvas_width e)
    (backgroundCanvas_height e) (program e) (positionBuffer e)
    (texCoordBuffer e) (backgroundTexture e) (audioAnalyzer e)
    (animationId e) v (smoothedAudioLevel e) (backgroundImageElement e)
    (startTime e) (backgroundDirty e) (lastBackgroundConfig e)
    (textureNeedsUpdate e) (lastAvatarSize e) (thinkingAnimationTime e)
    (currentState e) (targetState e) (stateTransitionProgress e)
    (stateTransitionStartTime e) (clock e) (gl e) (ctx e) (frames e)
    (console e).

Definition set_smoothedAudioLevel (v : Q) (e : Engine) : Engine :=
  mkEngine
    (config e) (canvas_width e) (canvas_height e) (backgroundCanvas_width e)
    (backgroundCanvas_height e) (program e) (positionBuffer e)
    (texCoordBuffer e) (backgroundTexture e) (audioAnalyzer e)
    (animationId e) (isDisposed e) v (backgroundImageElement e) (startTime e)
    (backgroundDirty e) (lastBackgroundConfig e) (textureNeedsUpdate e)
    (lastAvatarSize e) (thinkingAnimationTime e) (currentState e)
    (targetState e) (stateTransitionProgress e) (stateTransitionStartTime e)
    (clock e) (gl e) (ctx e) (frames e) (console e).

Definition set_backgroundImageElement (v : option ImageElement) (e : Engine) : Engine :=
  mkEngine
    (config e) (canvas_width e) (canvas_height e) (backgroundCanvas_width e)
    (backgroundCanvas_height e) (program e) (positionBuffer e)
    (texCoordBuffer e) (backgroundTexture e) (audioAnalyzer e)
    (animationId e) (isDisposed e) (smoothedAudioLevel e) v (startTime e)
    (backgroundDirty e) (lastBackgroundConfig e) (textureNeedsUpdate e)
    (lastAvatarSize e) (thinkingAnimationTime e) (currentState e)
    (targetState e) (stateTransitionProgress e) (stateTransitionStartTime e)
    (clock e) (gl e) (ctx e) (frames e) (console e).

Definition set_startTime (v : Z) (e : Engine) : Engine :=
  mkEngine
    (config e) (canvas_width e) (canvas_height e) (backgroundCanvas_width e)
    (backgroundCanvas_height e) (program e) (positionBuffer e)
    (texCoordBuffer e) (backgroundTexture e) (audioAnalyzer e)
    (animationId e) (isDisposed e) (smoothedAudioLevel e)
    (backgroundImageElement e) v (backgroundDirty e) (lastBackgroundConfig e)
    (textureNeedsUpdate e) (lastAvatarSize e) (thinkingAnimationTime e)
    (currentState e) (targetState e) (stateTransitionProgress e)
    (stateTransitionStartTime e) (clock e) (gl e) (ctx e) (frames e)
    (console e).

Definition set_backgroundDirty (v : bool) (e : Engine) : Engine :=
  mkEngine
    (config e) (canvas_width e) (canvas_height e) (backgroundCanvas_width e)
    (backgroundCanvas_height e) (program e) (positionBuffer e)
    (texCoordBuffer e) (backgroundTexture e) (audioAnalyzer e)
    (animationId e) (isDisposed e) (smoothedAudioLevel e)
    (backgroundImageElement e) (startTime e) v (lastBackgroundConfig e)
    (textureNeedsUpdate e) (lastAvatarSize e) (thinkingAnimationTime e)
    (currentState e) (targetState e) (stateTransitionProgress e)
    (stateTransitionStartTime e) (clock e) (gl e) (ctx e) (frames e)
    (console e).

Definition set_lastBackgroundConfig (v : option BackgroundSignature) (e : Engine) : Engine :=
  mkEngine
    (config e) (canvas_width e) (canvas_height e) (backgroundCanvas_width e)
    (backgroundCanvas_height e) (program e) (positionBuffer e)
    (texCoordBuffer e) (backgroundTexture e) (audioAnalyzer e)
    (animationId e) (isDisposed e) (smoothedAudioLevel e)
    (backgroundImageElement e) (startTime e) (backgroundDirty e) v
    (textureNeedsUpdate e) (lastAvatarSize e) (thinkingAnimationTime e)
    (currentState e) (targetState e) (stateTransitionProgress e)
    (stateTransitionStartTime e) (clock e) (gl e) (ctx e) (frames e)
    (console e).

Definition set_textureNeedsUpdate (v : bool) (e : Engine) : Engine :=
  mkEngine
    (config e) (canvas_width e) (canvas_height e) (backgroundCanvas_width e)
    (backgroundCanvas_height e) (program e) (positionBuffer e)
    (texCoordBuffer e) (backgroundTexture e) (audioAnalyzer e)
    (animationId e) (isDisposed e) (smoothedAudioLevel e)
    (backgroundImageElement e) (startTime e) (backgroundDirty e)
    (lastBackgroundConfig e) v (lastAvatarSize e) (thinkingAnimationTime e)
    (currentState e) (targetState e) (stateTransitionProgress e)
    (stateTransitionStartTime e) (clock e) (gl e) (ctx e) (frames e)
    (console e).

Definition set_lastAvatarSize (v : Q) (e : Engine) : Engine :=
  mkEngine
    (config e) (canvas_width e) (canvas_height e) (backgroundCanvas_width e)
    (backgroundCanvas_height e) (program e) (positionBuffer e)
    (texCoordBuffer e) (backgroundTexture e) (audioAnalyzer e)
    (animationId e) (isDisposed e) (smoothedAudioLevel e)
    (backgroundImageElement e) (startTime e) (backgroundDirty e)
    (lastBackgroundConfig e) (textureNeedsUpdate e) v
    (thinkingAnimationTime e) (currentState e) (targetState e)
    (stateTransitionProgress e) (stateTransitionStartTime e) (clock e) (gl e)
    (ctx e) (frames e) (console e).

Definition set_thinkingAnimationTime (v : Z) (e : Engine) : Engine :=
  mkEngine
    (config e) (canvas_width e) (canvas_height e) (backgroundCanvas_width e)
    (backgroundCanvas_height e) (program e) (positionBuffer e)
    (texCoordBuffer e) (backgroundTexture e) (audioAnalyzer e)
    (animationId e) (isDisposed e) (smoothedAudioLevel e)
    (backgroundImageElement e) (startTime e) (backgroundDirty e)
    (lastBackgroundConfig e) (textureNeedsUpdate e) (lastAvatarSize e) v
    (currentState e) (targetState e) (stateTransitionProgress e)
    (stateTransitionStartTime e) (clock e) (gl e) (ctx e) (frames e)
    (console e).

Definition set_currentState (v : AvatarState) (e : Engine) : Engine :=
  mkEngine
    (config e) (canvas_width e) (canvas_height e) (backgroundCanvas_width e)
    (backgroundCanvas_height e) (program e) (positionBuffer e)
    (texCoordBuffer e) (backgroundTexture e) (audioAnalyzer e)
    (animationId e) (isDisposed e) (smoothedAudioLevel e)
    (backgroundImageElement e) (startTime e) (backgroundDirty e)
    (lastBackgroundConfig e) (textureNeedsUpdate e) (lastAvatarSize e)
    (thinkingAnimationTime e) v (targetState e) (stateTransitionProgress e)
    (stateTransitionStartTime e) (clock e) (gl e) (ctx e) (frames e)
    (console e).

Definition set_targetState (v : AvatarState) (e : Engine) : Engine :=
  mkEngine
    (config e) (canvas_width e) (canvas_height e) (backgroundCanvas_width e)
    (backgroundCanvas_height e) (program e) (positionBuffer e)
    (texCoordBuffer e) (backgroundTexture e) (audioAnalyzer e)
    (animationId e) (isDisposed e) (smoothedAudioLevel e)
    (backgroundImageElement e) (startTime e) (backgroundDirty e)
    (lastBackgroundConfig e) (textureNeedsUpdate e) (lastAvatarSize e)
    (thinkingAnimationTime e) (currentState e) v (stateTransitionProgress e)
    (stateTransitionStartTime e) (clock e) (gl e) (ctx e) (frames e)
    (console e).

Definition set_stateTransitionProgress (v : Q) (e : Engine) : Engine :=
  mkEngine
    (config e) (canvas_width e) (canvas_height e) (backgroundCanvas_width e)
    (backgroundCanvas_height e) (program e) (positionBuffer e)
    (texCoordBuffer e) (backgroundTexture e) (audioAnalyzer e)
    (animationId e) (isDisposed e) (smoothedAudioLevel e)
    (backgroundImageElement e) (startTime e) (backgroundDirty e)
    (lastBackgroundConfig e) (textureNeedsUpdate e) (lastAvatarSize e)
    (thinkingAnimationTime e) (currentState e) (targetState e) v
    (stateTransitionStartTime e) (clock e) (gl e) (ctx e) (frames e)
    (console e).

Definition set_stateTransitionStartTime (v : Z) (e : Engine) : Engine :=
  mkEngine
    (config e) (canvas_width e) (canvas_height e) (backgroundCanvas_width e)
    (backgroundCanvas_height e) (program e) (positionBuffer e)
    (texCoordBuffer e) (backgroundTexture e) (audioAnalyzer e)
    (animationId e) (isDisposed e) (smoothedAudioLevel e)
    (backgroundImageElement e) (startTime e) (backgroundDirty e)
    (lastBackgroundConfig e) (textureNeedsUpdate e) (lastAvatarSize e)
    (thinkingAnimationTime e) (currentState e) (targetState e)
    (stateTransitionProgress e) v (clock e) (gl e) (ctx e) (frames e)
    (console e).

Definition set_clock (v : Z) (e : Engine) : Engine :=
  mkEngine
    (config e) (canvas_width e) (canvas_height e) (backgroundCanvas_width e)
    (backgroundCanvas_height e) (program e) (positionBuffer e)
    (texCoordBuffer e) (backgroundTexture e) (audioAnalyzer e)
    (animationId e) (isDisposed e) (smoothedAudioLevel e)
    (backgroundImageElement e) (startTime e) (backgroundDirty e)
    (lastBackgroundConfig e) (textureNeedsUpdate e) (lastAvatarSize e)
    (thinkingAnimationTime e) (currentState e) (targetState e)
    (stateTransitionProgress e) (stateTransitionStartTime e) v (gl e) (ctx e)
    (frames e) (console e).

Definition set_gl (v : list GLCall) (e : Engine) : Engine :=
  mkEngine
    (config e) (canvas_width e) (canvas_height e) (backgroundCanvas_width e)
    (backgroundCanvas_height e) (program e) (positionBuffer e)
    (texCoordBuffer e) (backgroundTexture e) (audioAnalyzer e)
    (animationId e) (isDisposed e) (smoothedAudioLevel e)
    (backgroundImageElement e) (startTime e) (backgroundDirty e)
    (lastBackgroundConfig e) (textureNeedsUpdate e) (lastAvatarSize e)
    (thinkingAnimationTime e) (currentState e) (targetState e)
    (stateTransitionProgress e) (stateTransitionStartTime e) (clock e) v
    (ctx e) (frames e) (console e).

Definition set_ctx (v : list CtxCall) (e : Engine) : Engine :=
  mkEngine
    (config e) (canvas_width e) (canvas_height e) (backgroundCanvas_width e)
    (backgroundCanvas_height e) (program e) (positionBuffer e)
    (texCoordBuffer e) (backgroundTexture e) (audioAnalyzer e)
    (animationId e) (isDisposed e) (smoothedAudioLevel e)
    (backgroundImageElement e) (startTime e) (backgroundDirty e)
    (lastBackgroundConfig e) (textureNeedsUpdate e) (lastAvatarSize e)
    (thinkingAnimationTime e) (currentState e) (targetState e)
    (stateTransitionProgress e) (stateTransitionStartTime e) (clock e) (gl e)
    v (frames e) (console e).

Definition set_frames (v : list FrameCall) (e : Engine) : Engine :=
  mkEngine
    (config e) (canvas_width e) (canvas_height e) (backgroundCanvas_width e)
    (backgroundCanvas_height e) (program e) (positionBuffer e)
    (texCoordBuffer e) (backgroundTexture e) (audioAnalyzer e)
    (animationId e) (isDisposed e) (smoothedAudioLevel e)
    (backgroundImageElement e) (startTime e) (backgroundDirty e)
    (lastBackgroundConfig e) (textureNeedsUpdate e) (lastAvatarSize e)
    (thinkingAnimationTime e) (currentState e) (targetState e)
    (stateTransitionProgress e) (stateTransitionStartTime e) (clock e) (gl e)
    (ctx e) v (console e).

Definition set_console (v : list string) (e : Engine) : Engine :=
  mkEngine
    (config e) (canvas_width e) (canvas_height e) (backgroundCanvas_width e)
    (backgroundCanvas_height e) (program e) (positionBuffer e)
    (texCoordBuffer e) (backgroundTexture e) (audioAnalyzer e)
    (animationId e) (isDisposed e) (smoothedAudioLevel e)
    (backgroundImageElement e) (startTime e) (backgroundDirty e)
    (lastBackgroundConfig e) (textureNeedsUpdate e) (lastAvatarSize e)
    (thinkingAnimationTime e) (currentState e) (targetState e)
    (stateTransitionProgress e) (stateTransitionStartTime e) (clock e) (gl e)
    (ctx e) (frames e) v.

Definition stateTransitionDuration : Q := 500.

(** One call on a context, appended to its log. *)
Definition gl_call (c : GLCall) (e : Engine) : Engine :=
  set_gl (gl e ++ [c]) e.

Definition gl_calls (cs : list GLCall) (e : Engine) : Engine :=
  set_gl (gl e ++ cs) e.

Definition ctx_call (c : CtxCall) (e : Engine) : Engine :=
  set_ctx (ctx e ++ [c]) e.

(** ** The class *)

(** What the host answers while an engine is constructed. *)
Inductive ShaderOutcome := shader_null | shader_rejected | shader_compiled.

Record Env := mkEnv {
  now : Z;                       (* Date.now() *)
  canvasWidth : Q;               (* the size of the canvas handed in *)
  canvasHeight : Q;
  getContext : bool;             (* webgl2 or webgl is available *)
  vertexShader : ShaderOutcome;
  fragmentShader : ShaderOutcome;
  programCreated : bool;         (* gl.createProgram() is not null *)
  LINK_STATUS : bool;
  positionBufferCreated : bool;  (* gl.createBuffer() is not null *)
  texCoordBufferCreated : bool;
  textureCreated : bool          (* gl.createTexture() is not null *)
}.

(** The messages of the errors the constructor throws. *)
Inductive Error :=
| WebGL_not_supported
| Failed_to_create_shaders
| Failed_to_create_WebGL_program
| Program_linking_error.

Module GlastarJS.

(** The field initialisers of the class, with the resolved [config]. *)
Definition fields (env : Env) (config : Config) : Engine :=
  {| config := config;
     canvas_width := canvasWidth env;
     canvas_height := canvasHeight env;
     backgroundCanvas_width := 0;
     backgroundCanvas_height := 0;
     program := None;
     positionBuffer := None;
     texCoordBuffer := None;
     backgroundTexture := None;
     audioAnalyzer := None;
     animationId := None;
     isDisposed := false;
     smoothedAudioLevel := 0;
     backgroundImageElement := None;
     startTime := now env;
     backgroundDirty := true;
     lastBackgroundConfig := None;
     textureNeedsUpdate := true;
     lastAvatarSize := 0;
     thinkingAnimationTime := 0%Z;
     currentState := speaking;
     targetState := speaking;
     stateTransitionProgress := 1;
     stateTransitionStartTime := 0%Z;
     clock := now env;
     gl := [];
     ctx := [];
     frames := [];
     console := [] |}.

(** [createShader]: the shader, when one was created and compiled. *)
Definition createShader (vertex : bool) (outcome : ShaderOutcome)
    (e : Engine) : bool * Engine :=
  let e := gl_call (createShader vertex) e in
  match outcome with
  | shader_null => (false, e)
  | shader_rejected =>
      let e := gl_calls [shaderSource; compileShader; getShaderParameter;
                         getShaderInfoLog] e in
      let e := set_console (console e ++ ["Shader compilation error:"%string])
                 e in
      (false, gl_call deleteShader e)
  | shader_compiled =>
      (true, gl_calls [shaderSource; compileShader; getShaderParameter] e)
  end.

(** [resize(width, height?)] *)
Definition resize (width : Q) (height : option Q) (e : Engine) : Engine :=
  let effectiveHeight :=
    if circle_or_square (Some (avatarShape (config e)))
    then width
    else JS.or_num height width in
  let e := set_canvas_width width e in
  let e := set_canvas_height effectiveHeight e in
  let e := set_backgroundCanvas_width width e in
  let e := set_backgroundCanvas_height effectiveHeight e in
  let e := gl_call (viewport width effectiveHeight) e in
  let e := set_config (set_size width effectiveHeight (config e)) e in
  set_backgroundDirty true e.

Definition setupWebGL (env : Env) (e : Engine) : Error + Engine :=
  let '(vertex, e) := createShader true (vertexShader env) e in
  let '(fragment, e) := createShader false (fragmentShader env) e in
  if negb vertex || negb fragment then inl Failed_to_create_shaders else
  let e := gl_call createProgram e in
  if negb (programCreated env) then inl Failed_to_create_WebGL_program else
  let e := set_program (Some ProgramObject) e in
  let e := gl_calls [attachShader; attachShader; linkProgram;
                     getProgramParameter] e in
  if negb (LINK_STATUS env) then inl Program_linking_error else
  let e := gl_calls [deleteShader; deleteShader] e in
  let e := gl_call createBuffer e in
  let e := set_positionBuffer
             (if positionBufferCreated env
              then Some PositionBufferObject else None) e in
  let e := gl_calls [bindBuffer (positionBuffer e); bufferData] e in
  let e := gl_call createBuffer e in
  let e := set_texCoordBuffer
             (if texCoordBufferCreated env
              then Some TexCoordBufferObject else None) e in
  let e := gl_calls [bindBuffer (texCoordBuffer e); bufferData] e in
  let e := gl_calls [getUniformLocation "u_backgroundTexture";
                     getUniformLocation "u_resolution";
                     getUniformLocation "u_opacity";
                     getUniformLocation "u_refraction";
                     getUniformLocation "u_texture";
                     getUniformLocation "u_blurAmount"] e in
  inr (resize (width (config e)) (Some (height (config e))) e).

Definition createBackgroundTexture (env : Env) (e : Engine) : Engine :=
  let e := gl_call createTexture e in
  let e := set_backgroundTexture
             (if textureCreated env then Some TextureObject else None) e in
  gl_calls [bindTexture (backgroundTexture e); texParameteri; texParameteri;
            texParameteri; texParameteri] e.

(** [new GlastarJS(canvas, config)] *)
Definition constructor (env : Env) (options : Partial.t) : Error + Engine :=
  let e := fields env (resolveConfig options) in
  if negb (getContext env) then inl WebGL_not_supported else
  let e := set_backgroundCanvas_width (width (config e)) e in
  let e := set_backgroundCanvas_height (height (config e)) e in
  match setupWebGL env e with
  | inl err => inl err
  | inr e => inr (createBackgroundTexture env e)
  end.

(** [loadBackgroundImage]: an element that is replaced or dropped has its
    handlers and [src] cleared first and can no longer call back, so only
    the current element is kept. *)
Definition loadBackgroundImage (e : Engine) : Engine :=
  match backgroundImage (config e) with
  | Some (String a url) =>
      set_backgroundImageElement
        (Some {| src := String a url; onload := true; onerror := true;
                 complete := false |}) e
  | _ => set_backgroundImageElement None e
  end.

(** The merged gradient of [updateConfig]. *)
Definition mergeGradient (patch : option Partial.Gradient)
    (prior : Gradient) : Gradient :=
  match patch with
  | Some g =>
      {| centerColor := JS.or_str (Partial.centerColor g) (centerColor prior);
         edgeColor := JS.or_str (Partial.edgeColor g) (edgeColor prior);
         angle := JS.nullish (Partial.angle g) (angle prior) |}
  | None => prior
  end.

(** [{...this.config, ...config, backgroundGradient: ...}] *)
Definition mergeConfig (prior : Config) (patch : Partial.t) : Config :=
  {| width := JS.spread (width prior) (Partial.width patch);
     height := JS.spread (height prior) (Partial.height patch);
     texture := JS.spread (texture prior) (Partial.texture patch);
     glassOpacity :=
       JS.spread (glassOpacity prior) (Partial.glassOpacity patch);
     refractionStrength :=
       JS.spread (refractionStrength prior) (Partial.refractionStrength patch);
     blurAmount := JS.spread (blurAmount prior) (Partial.blurAmount patch);
     fps := JS.spread (fps prior) (Partial.fps patch);
     avatarColor := JS.spread (avatarColor prior) (Partial.avatarColor patch);
     avatarSize := JS.spread (avatarSize prior) (Partial.avatarSize patch);
     avatarSensitivity :=
       JS.spread (avatarSensitivity prior) (Partial.avatarSensitivity patch);
     avatarExpansion :=
       JS.spread (avatarExpansion prior) (Partial.avatarExpansion patch);
     avatarSmoothing :=
       JS.spread (avatarSmoothing prior) (Partial.avatarSmoothing patch);
     avatarFadeWithAudio :=
       JS.spread (avatarFadeWithAudio prior)
         (Partial.avatarFadeWithAudio patch);
     avatarState := JS.spread (avatarState prior) (Partial.avatarState patch);
     avatarShape := JS.spread (avatarShape prior) (Partial.avatarShape patch);
     listeningPulseBase :=
       JS.spread (listeningPulseBase prior)
         (option_map Some (Partial.listeningPulseBase patch));
     listeningPulseAmplitude :=
       JS.spread (listeningPulseAmplitude prior)
         (option_map Some (Partial.listeningPulseAmplitude patch));
     listeningPulseSpeed :=
       JS.spread (listeningPulseSpeed prior)
         (option_map Some (Partial.listeningPulseSpeed patch));
     thinkingBorderWidth :=
       JS.spread (thinkingBorderWidth prior)
         (option_map Some (Partial.thinkingBorderWidth patch));
     thinkingBorderSpeed :=
       JS.spread (thinkingBorderSpeed prior)
         (option_map Some (Partial.thinkingBorderSpeed patch));
     thinkingBorderLength :=
       JS.spread (thinkingBorderLength prior)
         (option_map Some (Partial.thinkingBorderLength patch));
     thinkingBorderTrailSegments :=
       JS.spread (thinkingBorderTrailSegments prior)
         (option_map Some (Partial.thinkingBorderTrailSegments patch));
     backgroundColor :=
       JS.spread (backgroundColor prior) (Partial.backgroundColor patch);
     backgroundType :=
       JS.spread (backgroundType prior) (Partial.backgroundType patch);
     backgroundGradient :=
       mergeGradient (Partial.backgroundGradient patch)
         (backgroundGradient prior);
     backgroundImage :=
       JS.spread (backgroundImage prior) (Partial.backgroundImage patch);
     backgroundRotation :=
       JS.spread (backgroundRotation prior) (Partial.backgroundRotation patch);
     backgroundRotationSpeed :=
       JS.spread (backgroundRotationSpeed prior)
         (Partial.backgroundRotationSpeed patch);
     backgroundScale :=
       JS.spread (backgroundScale prior) (Partial.backgroundScale patch) |}.

(** [backgroundKeys.some(key => hasOwnProperty.call(config, key))] *)
Definition hasBackgroundKey (patch : Partial.t) : bool :=
  JS.has (Partial.backgroundColor patch)
  || JS.has (Partial.backgroundType patch)
  || JS.has (Partial.backgroundGradient patch)
  || JS.has (Partial.backgroundImage patch)
  || JS.has (Partial.backgroundRotation patch)
  || JS.has (Partial.backgroundRotationSpeed patch)
  || JS.has (Partial.backgroundScale patch).

(** [updateConfig(config)] *)
Definition updateConfig (patch : Partial.t) (e : Engine) : Engine :=
  let e := set_config (mergeConfig (config e) patch) e in
  let e := if hasBackgroundKey patch then set_backgroundDirty true e else e in
  let e :=
    if JS.has (Partial.width patch) || JS.has (Partial.height patch)
    then set_backgroundDirty true
           (resize (width (config e)) (Some (height (config e))) e)
    else e in
  match Partial.backgroundImage patch with
  | Some (Some _) => loadBackgroundImage e
  | _ => e
  end.

(** [connectAudioStream(stream)] *)
Definition connectAudioStream (e : Engine) : Engine :=
  set_audioAnalyzer (Some {| source := true |}) e.

(** [stop()] *)
Definition stop (e : Engine) : Engine :=
  match animationId e with
  | Some id =>
      set_animationId None
        (set_frames (frames e ++ [cancelAnimationFrame id]) e)
  | None => e
  end.

(** [dispose()] *)
Definition dispose (e : Engine) : Engine :=
  let e := set_isDisposed true e in
  let e := stop e in
  let e := set_audioAnalyzer None e in
  let e := match program e with
           | Some _ => set_program None (gl_call deleteProgram e)
           | None => e
           end in
  let e := match positionBuffer e with
           | Some _ => set_positionBuffer None (gl_call deleteBuffer e)
           | None => e
           end in
  let e := match texCoordBuffer e with
           | Some _ => set_texCoordBuffer None (gl_call deleteBuffer e)
           | None => e
           end in
  let e := match backgroundTexture e with
           | Some _ => set_backgroundTexture None (gl_call deleteTexture e)
           | None => e
           end in
  let e := set_backgroundImageElement None e in
  let e := set_backgroundCanvas_width 0 e in
  set_backgroundCanvas_height 0 e.

(** [easeInOutCubic(t)]; [Math.pow(x, 3)] is the exact cube. *)
Definition easeInOutCubic (t : Q) : Q :=
  if JS.ltb t 0.5 then 4 * t * t * t else 1 - ((-2) * t + 2) ^ 3 / 2.

(** [updateStateTransition()] *)
Definition updateStateTransition (e : Engine) : Engine :=
  let e :=
    if negb (AvatarState_eqb (avatarState (config e)) (targetState e))
    then
      let e := set_currentState (targetState e) e in
      let e := set_targetState (avatarState (config e)) e in
      let e := set_stateTransitionProgress 0 e in
      set_stateTransitionStartTime (clock e) e
    else e in
  if JS.ltb (stateTransitionProgress e) 1
  then
    let elapsed := inject_Z (clock e - stateTransitionStartTime e) in
    let e := set_stateTransitionProgress
               (Qmin 1 (elapsed / stateTransitionDuration)) e in
    let e := set_stateTransitionProgress
               (easeInOutCubic (stateTransitionProgress e)) e in
    let e := set_textureNeedsUpdate true e in
    if Qeq_bool (stateTransitionProgress e) 1
    then set_currentState (targetState e) e
    else e
  else e.

(** *** The frame *)

Section Frame.

(** [Math.pow], used at the exponent [0.3] of the fade curve. *)
Variable Math_pow : Q -> Q -> Q.

(** [drawBackground(ctx, width, height)]: it reads the configuration,
    the clock and the image element and changes none of them. *)
Definition drawBackground (width height : Q) (e : Engine) : Engine :=
  ctx_call (background (backgroundType (config e)) width height) e.

(** [drawAvatarCircle(ctx, centerX, centerY, size, opacity)] *)
Definition drawAvatarCircle (centerX centerY size opacity : Q)
    (e : Engine) : Engine :=
  ctx_call (avatarCircle centerX centerY size opacity) e.

(** [drawSpeakingAvatar(ctx, centerX, centerY, baseSize, transitionOpacity)] *)
Definition drawSpeakingAvatar (centerX centerY baseSize transitionOpacity : Q)
    (e : Engine) : Engine :=
  let maxExpansionSize := baseSize * avatarExpansion (config e) in
  let expandedSize :=
    baseSize + smoothedAudioLevel e * (maxExpansionSize - baseSize) in
  let avatarOpacity :=
    if avatarFadeWithAudio (config e)
    then
      let scaledLevel := smoothedAudioLevel e * 8.0 in
      Qmax 0.0 (Qmin 1.0 (Math_pow scaledLevel 0.3))
    else 1.0 in
  let e := drawAvatarCircle centerX centerY expandedSize
             (avatarOpacity * transitionOpacity) e in
  let e :=
    if JS.ltb 0.5 (Qabs (expandedSize - lastAvatarSize e))
       || JS.ltb 0.01 (Qabs (avatarOpacity - 1.0))
    then set_textureNeedsUpdate true e
    else e in
  set_lastAvatarSize expandedSize e.

(** [drawListeningAvatar(_ctx, _centerX, _centerY, _baseSize)] *)
Definition drawListeningAvatar (_centerX _centerY _baseSize : Q)
    (e : Engine) : Engine :=
  set_textureNeedsUpdate true e.

(** [drawThinkingBorder(ctx, centerX, centerY, _baseSize, width, height,
    transitionOpacity)] with its two shape routines. *)
Definition drawThinkingBorder
    (centerX centerY _baseSize width height transitionOpacity : Q)
    (e : Engine) : Engine :=
  match avatarShape (config e) with
  | circle =>
      ctx_call (thinkingBorderCircle centerX centerY width height
                  transitionOpacity (thinkingAnimationTime e)) e
  | square =>
      ctx_call (thinkingBorderSquare width height transitionOpacity
                  (thinkingAnimationTime e)) e
  end.

(** [drawThinkingAvatar(ctx, centerX, centerY, baseSize, width, height,
    transitionOpacity)] *)
Definition drawThinkingAvatar
    (centerX centerY baseSize width height transitionOpacity : Q)
    (e : Engine) : Engine :=
  let e := drawThinkingBorder centerX centerY baseSize width height
             transitionOpacity e in
  set_textureNeedsUpdate true e.

(** [drawAvatarState(ctx, centerX, centerY, baseSize, width, height,
    state, opacity)] *)
Definition drawAvatarState
    (centerX centerY baseSize width height : Q) (state : AvatarState)
    (opacity : Q) (e : Engine) : Engine :=
  match state with
  | speaking => drawSpeakingAvatar centerX centerY baseSize opacity e
  | listening => drawListeningAvatar centerX centerY baseSize e
  | thinking =>
      drawThinkingAvatar centerX centerY baseSize width height opacity e
  end.

(** The sample that reaches the smoother (the [effectiveAudioLevel] of
    [drawAvatar], read after [updateStateTransition]). *)
Definition effectiveAudioLevel (audioLevel : Q) (e : Engine) : Q :=
  if AvatarState_eqb (targetState e) speaking
  then audioLevel
  else if AvatarState_eqb (currentState e) speaking
          && JS.ltb (stateTransitionProgress e) 1
  then audioLevel * (1 - stateTransitionProgress e)
  else 0.

(** The object stringified into [currentBackgroundConfig]. *)
Definition currentBackgroundConfig (c : Config) : BackgroundSignature :=
  {| sig_type := backgroundType c;
     sig_color := backgroundColor c;
     sig_gradient := backgroundGradient c;
     sig_image := backgroundImage c;
     sig_rotation := backgroundRotation c;
     sig_speed := backgroundRotationSpeed c;
     sig_scale := backgroundScale c;
     sig_state := avatarState c |}.

(** The condition of the background redraw. *)
Definition backgroundNeedsRedraw (e : Engine) : bool :=
  backgroundDirty e
  || signature_changed (lastBackgroundConfig e)
       (currentBackgroundConfig (config e))
  || backgroundRotation (config e)
  || AvatarState_eqb (avatarState (config e)) thinking.

(** [drawAvatar(audioLevel)] *)
Definition drawAvatar (audioLevel : Q) (e : Engine) : Engine :=
  let width := backgroundCanvas_width e in
  let height := backgroundCanvas_height e in
  let e := set_thinkingAnimationTime (thinkingAnimationTime e + 16)%Z e in
  let e := updateStateTransition e in
  let targetLevel :=
    effectiveAudioLevel audioLevel e * avatarSensitivity (config e) in
  let e :=
    set_smoothedAudioLevel
      (smoothedAudioLevel e
       + (targetLevel - smoothedAudioLevel e) * avatarSmoothing (config e))
      e in
  let e :=
    if backgroundNeedsRedraw e
    then
      let current := currentBackgroundConfig (config e) in
      let e := drawBackground width height e in
      let e := set_backgroundDirty false e in
      let e := set_lastBackgroundConfig (Some current) e in
      set_textureNeedsUpdate true e
    else e in
  let centerX := width / 2 in
  let centerY := height / 2 in
  let baseSize := avatarSize (config e) in
  if Qeq_bool (stateTransitionProgress e) 1
  then drawAvatarState centerX centerY baseSize width height
         (targetState e) 1.0 e
  else
    let e := ctx_call save e in
    let e :=
      if negb (AvatarState_eqb (currentState e) (targetState e))
      then
        let currentOpacity := 1 - stateTransitionProgress e in
        let e := ctx_call (globalAlpha currentOpacity) e in
        drawAvatarState centerX centerY baseSize width height
          (currentState e) currentOpacity e
      else e in
    let e := ctx_call (globalAlpha (stateTransitionProgress e)) e in
    let e := drawAvatarState centerX centerY baseSize width height
               (targetState e) (stateTransitionProgress e) e in
    ctx_call restore e.

(** [TEXTURE_MAP] *)
Definition TEXTURE_MAP (t : TextureType) : Z :=
  match t with
  | arctic => 0 | cathedral => 1 | autumn => 2 | flemish => 3
  | ripple => 4 | reeded => 5 | vintage => 6 | forest => 7
  end%Z.

(** The identifier [requestAnimationFrame] returns next. *)
Definition nextFrameId (e : Engine) : positive :=
  Pos.of_succ_nat (List.length (frames e)).

(** [render]: [level] is the [level] of [audioAnalyzer.getAudioData()],
    read only when an analyzer is connected. *)
Definition render (level : Q) (e : Engine) : Engine :=
  if match program e with None => true | Some _ => false end
     || isDisposed e
  then e
  else
    let audioLevel :=
      match audioAnalyzer e with Some _ => level | None => 0 end in
    let e := drawAvatar audioLevel e in
    let e :=
      if textureNeedsUpdate e
      then
        let e := gl_calls
                   [bindTexture (backgroundTexture e);
                    texImage2D (backgroundCanvas_width e)
                      (backgroundCanvas_height e)] e in
        set_textureNeedsUpdate false e
      else e in
    let e :=
      gl_calls
        [clearColor; clear; enable; blendFunc; useProgram;
         uniform1i "u_backgroundTexture" 0;
         uniform2f "u_resolution" (canvas_width e) (canvas_height e);
         uniform1f "u_opacity" (glassOpacity (config e));
         uniform1f "u_refraction" (refractionStrength (config e));
         uniform1i "u_texture" (TEXTURE_MAP (texture (config e)));
         uniform1f "u_blurAmount" (blurAmount (config e));
         activeTexture; bindTexture (backgroundTexture e);
         getAttribLocation "a_position"; getAttribLocation "a_texCoord";
         bindBuffer (positionBuffer e); enableVertexAttribArray;
         vertexAttribPointer;
         bindBuffer (texCoordBuffer e); enableVertexAttribArray;
         vertexAttribPointer;
         drawArrays 4] e in
    if negb (isDisposed e)
    then
      let id := nextFrameId e in
      set_animationId (Some id)
        (set_frames (frames e ++ [requestAnimationFrame id]) e)
    else e.

(** [start()] *)
Definition start (level : Q) (e : Engine) : Engine :=
  match animationId e with
  | None => render level e
  | Some _ => e
  end.

End Frame.

End GlastarJS.

(** ** The engine in its host

    What can happen to a constructed engine: a call of one of its public
    methods, the passing of time, the scheduler firing the frame callback,
    and the two events of the pending image. *)
Inductive Call :=
| call_updateConfig (patch : Partial.t)
| call_resize (width : Q) (height : option Q)
| call_connectAudioStream
| call_start (level : Q)
| call_stop
| call_dispose
| elapse (ms : N)
| tick (level : Q)
| image_onload
| image_onerror.

(** The [onerror] handler installed by [loadBackgroundImage]. *)
Definition onerror_handler (e : Engine) : Engine :=
  match backgroundImageElement e with
  | Some img =>
      if onerror img
      then
        let e := set_console
                   (console e ++ ["Failed to load background image:"%string])
                   e in
        set_backgroundImageElement None e
      else e
  | None => e
  end.

(** The image finishes loading; the [onload] handler has an empty body. *)
Definition onload_handler (e : Engine) : Engine :=
  match backgroundImageElement e with
  | Some img =>
      set_backgroundImageElement
        (Some {| src := src img; onload := onload img; onerror := onerror img;
                 complete := true |}) e
  | None => e
  end.

Section Host.

Variable Math_pow : Q -> Q -> Q.

Definition step (e : Engine) (c : Call) : Engine :=
  match c with
  | call_updateConfig patch => GlastarJS.updateConfig patch e
  | call_resize w h => GlastarJS.resize w h e
  | call_connectAudioStream => GlastarJS.connectAudioStream e
  | call_start level => GlastarJS.start Math_pow level e
  | call_stop => GlastarJS.stop e
  | call_dispose => GlastarJS.dispose e
  | elapse ms => set_clock (clock e + Z.of_N ms) e
  | tick level => GlastarJS.render Math_pow level e
  | image_onload => onload_handler e
  | image_onerror => onerror_handler e
  end.

Definition run (calls : list Call) (e : Engine) : Engine :=
  fold_left step calls e.

(** The engines a host can hold: constructed, then driven by calls. *)
Inductive reachable : Engine -> Prop :=
| reachable_new env options e :
    GlastarJS.constructor env options = inr e -> reachable e
| reachable_step e c : reachable e -> reachable (step e c).

End Host.

(** ** Statements about the stored configuration *)

(** [{...c, avatarColor: v}] *)
Definition set_avatarColor (v : string) (c : Config) : Config :=
  mkConfig (width c) (height c) (texture c) (glassOpacity c)
    (refractionStrength c) (blurAmount c) (fps c) v (avatarSize c)
    (avatarSensitivity c) (avatarExpansion c) (avatarSmoothing c)
    (avatarFadeWithAudio c) (avatarState c) (avatarShape c)
    (listeningPulseBase c) (listeningPulseAmplitude c) (listeningPulseSpeed c)
    (thinkingBorderWidth c) (thinkingBorderSpeed c) (thinkingBorderLength c)
    (thinkingBorderTrailSegments c) (backgroundColor c) (backgroundType c)
    (backgroundGradient c) (backgroundImage c) (backgroundRotation c)
    (backgroundRotationSpeed c) (backgroundScale c).

(** [{...c, backgroundGradient: v}] *)
Definition set_backgroundGradient (v : Gradient) (c : Config) : Config :=
  mkConfig (width c) (height c) (texture c) (glassOpacity c)
    (refractionStrength c) (blurAmount c) (fps c) (avatarColor c)
    (avatarSize c) (avatarSensitivity c) (avatarExpansion c)
    (avatarSmoothing c) (avatarFadeWithAudio c) (avatarState c)
    (avatarShape c) (listeningPulseBase c) (listeningPulseAmplitude c)
    (listeningPulseSpeed c) (thinkingBorderWidth c) (thinkingBorderSpeed c)
    (thinkingBorderLength c) (thinkingBorderTrailSegments c)
    (backgroundColor c) (backgroundType c) v (backgroundImage c)
    (backgroundRotation c) (backgroundRotationSpeed c) (backgroundScale c).

(** The patches [{avatarColor: X}], [{backgroundGradient: {edgeColor: Y}}],
    [{backgroundRotation: b}], [{backgroundRotationSpeed: v}], [{height: h}]
    and [{avatarState: s}]. *)
Definition patch_avatarColor (X : string) : Partial.t :=
  Partial.mk None None None None None None None (Some X) None None None None
    None None None None None None None None None None None None None None
    None None None.

Definition patch_edgeColor (Y : string) : Partial.t :=
  Partial.mk None None None None None None None None None None None None
    None None None None None None None None None None None None
    (Some (Partial.mkGradient None (Some Y) None)) None None None None.

Definition patch_backgroundRotation (b : bool) : Partial.t :=
  Partial.mk None None None None None None None None None None None None
    None None None None None None None None None None None None None None
    (Some b) None None.

Definition patch_backgroundRotationSpeed (v : Q) : Partial.t :=
  Partial.mk None None None None None None None None None None None None
    None None None None None None None None None None None None None None
    None (Some v) None.

Definition patch_height (h : Q) : Partial.t :=
  Partial.mk None (Some h) None None None None None None None None None None
    None None None None None None None None None None None None None None
    None None None.

Definition patch_avatarState (s : AvatarState) : Partial.t :=
  Partial.mk None None None None None None None None None None None None
    None (Some s) None None None None None None None None None None None None
    None None None.

(** The surface is square: the stored configuration and both canvases. *)
Definition is_square (e : Engine) : Prop :=
  height (config e) = width (config e)
  /\ canvas_height e = canvas_width e
  /\ backgroundCanvas_height e = backgroundCanvas_width e.

(** A falsy number supplied for a field is replaced by the default. *)
Definition zero_defaulted (supplied : option Q) (stored default : Q) : Prop :=
  forall v, supplied = Some v -> v == 0 -> stored = default.

(** An empty string supplied for a field is replaced by the default. *)
Definition empty_defaulted (supplied : option string)
    (stored default : string) : Prop :=
  supplied = Some EmptyString -> stored = default.

(** A supplied value is stored as it is, falsy or not. *)
Definition preserved {A : Type} (supplied : option A) (stored : A) : Prop :=
  forall v, supplied = Some v -> stored = v.

(** The rotation-speed rule of the data model. *)
Definition rotation_speed_forced (c : Config) : Prop :=
  backgroundRotation c = false -> backgroundRotationSpeed c == 0.

(** A host in which construction succeeds, and the engine it then holds. *)
Module Demo.

Definition host : Env :=
  {| now := 1000;
     canvasWidth := 300;
     canvasHeight := 150;
     getContext := true;
     vertexShader := shader_compiled;
     fragmentShader := shader_compiled;
     programCreated := true;
     LINK_STATUS := true;
     positionBufferCreated := true;
     texCoordBufferCreated := true;
     textureCreated := true |}.

Definition engine (options : Partial.t) : Engine :=
  match GlastarJS.constructor host options with
  | inr e => e
  | inl _ => GlastarJS.fields host (resolveConfig options)
  end.

(** [{glassOpacity: 0, avatarSize: 0, blurAmount: 0, avatarSensitivity: 0,
     backgroundScale: 0, backgroundGradient: {angle: 0},
     backgroundRotation: false}] *)
Definition zeros : Partial.t :=
  Partial.mk None None None (Some 0) None (Some 0) None None (Some 0)
    (Some 0) None None None None None None None None None None None None
    None None (Some (Partial.mkGradient None None (Some 0))) None
    (Some false) None (Some 0).

(** [{avatarShape: 'circle', width: 400, height: 300}] *)
Definition round : Partial.t :=
  Partial.mk (Some 400) (Some 300) None None None None None None None None
    None None None None (Some circle) None None None None None None None
    None None None None None None None.

(** [{backgroundRotation: false, backgroundRotationSpeed: 10}] *)
Definition stopped : Partial.t :=
  Partial.mk None None None None None None None None None None None None
    None None None None None None None None None None None None None None
    (Some false) (Some 10) None.

(** [{backgroundRotation: false, backgroundType: 'color',
     avatarState: 'speaking'}] *)
Definition still : Partial.t :=
  Partial.mk None None None None None None None None None None None None
    None (Some speaking) None None None None None None None None None
    (Some color) None None (Some false) None None.

(** A stand-in for [Math.pow] in the examples, rounding the exponent
    down; the properties below hold for every function. *)
Definition Math_pow (x y : Q) : Q := x ^ Qfloor y.

(** A session: audio connected, two speaking frames, then the state is set
    to listening, one frame begins the transition and 100 ms pass. *)
Definition session : list Call :=
  [call_connectAudioStream; call_start 0.5; elapse 16; tick 1;
   call_updateConfig (patch_avatarState listening); elapse 16; tick 0.75;
   elapse 100].

(** The engine in the middle of the transition from speaking to
    listening. *)
Definition fading : Engine := run Math_pow session (engine still).

(** [{backgroundImage: 'a.png'}] and [{backgroundImage: undefined}] *)
Definition picture : Partial.t :=
  Partial.mk None None None None None None None None None None None None
    None None None None None None None None None None None None None
    (Some (Some "a.png"%string)) None None None.

Definition cleared : Partial.t :=
  Partial.mk None None None None None None None None None None None None
    None None None None None None None None None None None None None
    (Some None) None None None.

(** [{listeningPulseBase: 50, listeningPulseAmplitude: 35,
     listeningPulseSpeed: 0.002, avatarState: 'listening'}] *)
Definition pulse : Partial.t :=
  Partial.mk None None None None None None None None None None None None
    None (Some listening) None (Some 50) (Some 35) (Some 0.002) None None
    None None None None None None None None None.

(** The engine settled in the listening state, the pulse configured: the
    transition began in one frame and completed in the next. *)
Definition listener : Engine :=
  run Math_pow
    [call_start 0; call_updateConfig pulse; elapse 16; tick 0; elapse 600;
     tick 0; elapse 16]
    (engine still).

End Demo.

(** ** Statements about the frame *)

(** The number of background redraws recorded on the composition canvas. *)
Fixpoint backgrounds (log : list CtxCall) : nat :=
  match log with
  | [] => 0
  | background _ _ _ :: log => S (backgrounds log)
  | _ :: log => backgrounds log
  end.

(** The number of avatar circles recorded on the composition canvas. *)
Fixpoint avatarCircles (log : list CtxCall) : nat :=
  match log with
  | [] => 0
  | avatarCircle _ _ _ _ :: log => S (avatarCircles log)
  | _ :: log => avatarCircles log
  end.

(** The raw progress of a transition started at [start], read at [t]. *)
Definition rawProgress (start t : Z) : Q :=
  Qmin 1 (inject_Z (t - start) / stateTransitionDuration).

(** The stored progress is [1], or the eased raw progress at some reading
    of the clock between the start of the transition and now. *)
Definition transition_inv (e : Engine) : Prop :=
  stateTransitionProgress e == 1
  \/ exists t : Z,
       (stateTransitionStartTime e <= t <= clock e)%Z
       /\ stateTransitionProgress e
          == GlastarJS.easeInOutCubic
               (rawProgress (stateTransitionStartTime e) t).

(** The calls of a run in which the samples are in [[0,1]] and the
    sensitivity and the smoothing factor are left as configured. *)
Definition sample_ok (c : Call) : Prop :=
  match c with
  | tick level | call_start level => 0 <= level <= 1
  | call_updateConfig patch =>
      Partial.avatarSensitivity patch = None
      /\ Partial.avatarSmoothing patch = None
  | _ => True
  end.

(** What the transition and the smoother read and write. *)
Definition core (e : Engine) :=
  (config e, smoothedAudioLevel e, clock e,
   (currentState e, targetState e, stateTransitionProgress e,
    stateTransitionStartTime e), isDisposed e).

(** What the background redraw decision reads. *)
Definition dirt (e : Engine) := (backgroundDirty e, lastBackgroundConfig e).

(** The fields the transition and the smoother keep between frames. *)
Definition anim (e : Engine) :=
  (smoothedAudioLevel e, stateTransitionProgress e,
   stateTransitionStartTime e, clock e).


(** The phases of [drawAvatar], named for the proofs. *)
Section Phases.

Variable Math_pow : Q -> Q -> Q.

Definition advanceThinking (e : Engine) : Engine :=
  set_thinkingAnimationTime (thinkingAnimationTime e + 16)%Z e.

Definition smooth (audioLevel : Q) (e : Engine) : Engine :=
  set_smoothedAudioLevel
    (smoothedAudioLevel e
     + (GlastarJS.effectiveAudioLevel audioLevel e
        * avatarSensitivity (config e)
        - smoothedAudioLevel e) * avatarSmoothing (config e))
    e.

Definition redrawBackground (width height : Q) (e : Engine) : Engine :=
  if GlastarJS.backgroundNeedsRedraw e
  then
    set_textureNeedsUpdate true
      (set_lastBackgroundConfig
         (Some (GlastarJS.currentBackgroundConfig (config e)))
         (set_backgroundDirty false (GlastarJS.drawBackground width height e)))
  else e.

Definition drawLayers (width height : Q) (e : Engine) : Engine :=
  let centerX := width / 2 in
  let centerY := height / 2 in
  let baseSize := avatarSize (config e) in
  if Qeq_bool (stateTransitionProgress e) 1
  then GlastarJS.drawAvatarState Math_pow centerX centerY baseSize width height
         (targetState e) 1.0 e
  else
    let e := ctx_call save e in
    let e :=
      if negb (AvatarState_eqb (currentState e) (targetState e))
      then
        let currentOpacity := 1 - stateTransitionProgress e in
        let e := ctx_call (globalAlpha currentOpacity) e in
        GlastarJS.drawAvatarState Math_pow centerX centerY baseSize width
          height (currentState e) currentOpacity e
      else e in
    let e := ctx_call (globalAlpha (stateTransitionProgress e)) e in
    let e := GlastarJS.drawAvatarState Math_pow centerX centerY baseSize width
               height (targetState e) (stateTransitionProgress e) e in
    ctx_call restore e.

(** The part of [render] after [drawAvatar]: texture upload, the draw
    through the shader program, the request of the next frame. *)
Definition present (e : Engine) : Engine :=
  let e :=
    if textureNeedsUpdate e
    then
      let e := gl_calls
                 [bindTexture (backgroundTexture e);
                  texImage2D (backgroundCanvas_width e)
                    (backgroundCanvas_height e)] e in
      set_textureNeedsUpdate false e
    else e in
  let e :=
    gl_calls
      [clearColor; clear; enable; blendFunc; useProgram;
       uniform1i "u_backgroundTexture" 0;
       uniform2f "u_resolution" (canvas_width e) (canvas_height e);
       uniform1f "u_opacity" (glassOpacity (config e));
       uniform1f "u_refraction" (refractionStrength (config e));
       uniform1i "u_texture" (GlastarJS.TEXTURE_MAP (texture (config e)));
       uniform1f "u_blurAmount" (blurAmount (config e));
       activeTexture; bindTexture (backgroundTexture e);
       getAttribLocation "a_position"; getAttribLocation "a_texCoord";
       bindBuffer (positionBuffer e); enableVertexAttribArray;
       vertexAttribPointer;
       bindBuffer (texCoordBuffer e); enableVertexAttribArray;
       vertexAttribPointer;
       drawArrays 4] e in
  if negb (isDisposed e)
  then
    let id := GlastarJS.nextFrameId e in
    set_animationId (Some id)
      (set_frames (frames e ++ [requestAnimationFrame id]) e)
  else e.

End Phases.

(** ** Statements about the life cycle *)

(** The error of the first step of the construction the host fails, in the
    order the constructor takes them. *)
Definition firstFailure (env : Env) : option Error :=
  if negb (getContext env) then Some WebGL_not_supported
  else
    match vertexShader env, fragmentShader env with
    | shader_compiled, shader_compiled =>
        if negb (programCreated env) then Some Failed_to_create_WebGL_program
        else if negb (LINK_STATUS env) then Some Program_linking_error
        else None
    | _, _ => Some Failed_to_create_shaders
    end.

(** The engine can run a frame: it has its program and is not disposed. *)
Definition live (e : Engine) : Prop :=
  program e <> None /\ isDisposed e = false.

(** Every resource [dispose] releases is released. *)
Definition released (e : Engine) : Prop :=
  isDisposed e = true
  /\ animationId e = None
  /\ audioAnalyzer e = None
  /\ program e = None
  /\ positionBuffer e = None
  /\ texCoordBuffer e = None
  /\ backgroundTexture e = None
  /\ backgroundImageElement e = None
  /\ backgroundCanvas_width e = 0
  /\ backgroundCanvas_height e = 0.

(** What stays released whatever is called on a disposed engine. *)
Definition disposed_state (e : Engine) : Prop :=
  isDisposed e = true
  /\ animationId e = None
  /\ program e = None
  /\ positionBuffer e = None
  /\ texCoordBuffer e = None
  /\ backgroundTexture e = None.

(** What no call changes on a disposed engine. *)
Definition husk (e : Engine) :=
  (isDisposed e, animationId e, program e, positionBuffer e,
   texCoordBuffer e, backgroundTexture e, ctx e, frames e).

Definition is_viewport (c : GLCall) : Prop :=
  match c with viewport _ _ => True | _ => False end.

(** The draw calls and the texture uploads among the WebGL calls. *)
Fixpoint draws (log : list GLCall) : nat :=
  match log with
  | [] => 0
  | drawArrays _ :: log => S (draws log)
  | _ :: log => draws log
  end.

Fixpoint uploads (log : list GLCall) : nat :=
  match log with
  | [] => 0
  | texImage2D _ _ :: log => S (uploads log)
  | _ :: log => uploads log
  end.

(** What a frame leaves alone apart from the animation state and the
    composition canvas. *)
Definition shell (e : Engine) :=
  (gl e, frames e, animationId e,
   (program e, positionBuffer e, texCoordBuffer e, backgroundTexture e),
   (audioAnalyzer e, backgroundImageElement e, console e),
   (canvas_width e, canvas_height e, backgroundCanvas_width e,
    backgroundCanvas_height e),
   thinkingAnimationTime e).



(** ** Statements about the states *)

(** No transition in progress means the current state is the target. *)
Definition settled_inv (e : Engine) : Prop :=
  stateTransitionProgress e == 1 -> currentState e = targetState e.

(** The states and the progress. *)
Definition states (e : Engine) :=
  (currentState e, targetState e, stateTransitionProgress e).

(** ** Statements about the drawing *)


(** ** Statements about updateConfig *)

(** The image element [loadBackgroundImage] leaves for a stored URL. *)
Definition imageFor (url : option string) : option ImageElement :=
  match url with
  | Some (String a u) =>
      Some {| src := String a u; onload := true; onerror := true;
              complete := false |}
  | _ => None
  end.

(** What [updateConfig] reads and writes besides the WebGL viewport. *)
Definition settings (e : Engine) :=
  (config e, backgroundDirty e, backgroundImageElement e,
   (canvas_width e, canvas_height e, backgroundCanvas_width e,
    backgroundCanvas_height e)).

(** The patch has a [width] or a [height]. *)
Definition resizes (patch : Partial.t) : bool :=
  JS.has (Partial.width patch) || JS.has (Partial.height patch).

(** ** The strokes on the composition canvas

    What [drawAvatarCircle] and [drawThinkingBorderSquare] call on the 2D
    context, entry by entry. *)

Module Num.

(** [Math.trunc]. *)
Definition trunc (x : Q) : Z :=
  if JS.ltb x 0 then Qceiling x else Qfloor x.

(** [x % y]: the remainder has the sign of the dividend.  (For [y] zero
    JavaScript gives [NaN]; the callers below divide by a perimeter.) *)
Definition rem (x y : Q) : Q := x - y * inject_Z (trunc (x / y)).

(** [Math.round(x)]: to the nearest integer, halves upwards. *)
Definition round (x : Q) : Z := Qfloor (x + 0.5).

(** [n.toString(16)] of an integer. *)
Definition toString16 (n : Z) : string :=
  HexadecimalString.NilZero.string_of_int (Z.to_hex_int n).

(** [s.padStart(2, '0')] *)
Definition padStart2 (s : string) : string :=
  match String.length s with
  | O => "00"
  | S O => "0" ++ s
  | _ => s
  end.

End Num.

Module Canvas.

Inductive Op :=
| createRadialGradient (x0 y0 r0 x1 y1 r1 : Q)
| addColorStop (offset : Q) (color : string)
| fillStyle_gradient
| fillStyle (color : string)
| strokeStyle (color : string)
| lineWidth (w : Q)
| lineCap_round
| lineJoin_round
| beginPath
| moveTo (x y : Q)
| lineTo (x y : Q)
| arc_full (x y radius : Q)
| stroke
| fill
| shadowBlur (blur : Q)
| shadowColor (color : string).

(** [Math.round(opacity * scale).toString(16).padStart(2, '0')] *)
Definition alpha (opacity scale : Q) : string :=
  Num.padStart2 (Num.toString16 (Num.round (opacity * scale))).

(** [drawAvatarCircle(ctx, centerX, centerY, size, opacity)] with the
    avatar colour of the configuration. *)
Definition drawAvatarCircle (color : string) (centerX centerY size opacity : Q)
    : list Op :=
  let centerOpacity := alpha opacity 255 in
  let edgeOpacity := alpha opacity 128 in
  [createRadialGradient centerX centerY 0 centerX centerY size;
   addColorStop 0 (color ++ centerOpacity);
   addColorStop 0.7 (color ++ edgeOpacity);
   addColorStop 1 (color ++ "00");
   fillStyle_gradient;
   beginPath;
   arc_full centerX centerY size;
   fill].

(** The closure [getPositionOnRect] of [drawThinkingBorderSquare]. *)
Definition getPositionOnRect (width height pos : Q) : Q * Q :=
  let padding := 10 in
  let rectWidth := width - padding * 2 in
  let rectHeight := height - padding * 2 in
  let perimeter := (rectWidth + rectHeight) * 2 in
  let p := Num.rem pos perimeter in
  let p := if JS.ltb p 0 then p + perimeter else p in
  let left := padding in
  let right := width - padding in
  let top := padding in
  let bottom := height - padding in
  if JS.ltb p rectWidth then (left + p, top)
  else
    let p := p - rectWidth in
    if JS.ltb p rectHeight then (right, top + p)
    else
      let p := p - rectHeight in
      if JS.ltb p rectWidth then (right - p, bottom)
      else
        let p := p - rectWidth in
        (left, bottom - p).

(** The indices of [for (let i = n; i >= 0; i--)] and of
    [for (let j = 1; j <= n; j++)]. *)
Definition downto0 (n : nat) : list Q :=
  map (fun i => inject_Z (Z.of_nat i)) (rev (seq 0 (S n))).

Definition from1 (n : nat) : list Q :=
  map (fun j => inject_Z (Z.of_nat j)) (seq 1 n).

(** [drawThinkingBorderSquare(ctx, width, height, transitionOpacity)] with
    the avatar colour of the configuration, at the animation time
    [time]. *)
Definition drawThinkingBorderSquare (color : string)
    (width height transitionOpacity : Q) (time : Z) : list Op :=
  let borderWidth := 6 in
  let padding := 10 in
  let rectWidth := width - padding * 2 in
  let rectHeight := height - padding * 2 in
  let perimeter := (rectWidth + rectHeight) * 2 in
  let segmentLength := perimeter * 0.15 in
  let speed := 0.8 in
  let currentPosition := Num.rem (inject_Z time * speed) perimeter in
  let trailSegments := 10 in
  let segmentStep := segmentLength / trailSegments in
  let segment (i : Q) : list Op :=
    let segmentStart := currentPosition - i * segmentStep in
    let segmentEnd := currentPosition - (i - 1) * segmentStep in
    let opacity := 1.0 - (i / trailSegments) * 0.7 in
    let start := getPositionOnRect width height segmentStart in
    let steps := 5 in
    [strokeStyle (color ++ alpha (opacity * transitionOpacity) 255);
     lineWidth (borderWidth * (1 + (1 - i / trailSegments) * 0.3));
     beginPath;
     moveTo (fst start) (snd start)]
    ++ map (fun j =>
              let pos :=
                segmentStart + (segmentEnd - segmentStart) * (j / steps) in
              let point := getPositionOnRect width height pos in
              lineTo (fst point) (snd point))
         (from1 5)
    ++ [stroke] in
  let headPos := getPositionOnRect width height currentPosition in
  [lineCap_round; lineJoin_round]
  ++ flat_map segment (downto0 10)
  ++ [shadowBlur 15;
      shadowColor color;
      fillStyle color;
      beginPath;
      arc_full (fst headPos) (snd headPos) (borderWidth / 2);
      fill;
      shadowBlur 0].

End Canvas.

(** ** Statements about the strokes *)

(** The point is on the rectangle 10 pixels inside a [width] by [height]
    canvas. *)
Definition on_border (width height : Q) (pt : Q * Q) : Prop :=
  let (x, y) := pt in
  (10 <= x <= width - 10 /\ (y == 10 \/ y == height - 10))
  \/ ((x == 10 \/ x == width - 10) /\ 10 <= y <= height - 10).

(** The points a call moves, draws or centres on are on the border. *)
Definition follows_border (width height : Q) (c : Canvas.Op) : Prop :=
  match c with
  | Canvas.moveTo x y | Canvas.lineTo x y | Canvas.arc_full x y _ =>
      on_border width height (x, y)
  | _ => True
  end.

Definition hex_digit (c : Ascii.ascii) : bool :=
  existsb (Ascii.eqb c) (list_ascii_of_string "0123456789abcdef").

(** Two hexadecimal digits: the alpha channel of [#rrggbbaa]. *)
Definition hex2 (s : string) : bool :=
  match s with
  | String a (String b EmptyString) => hex_digit a && hex_digit b
  | _ => false
  end.

(** The colour is [color] followed by two hexadecimal digits. *)
Definition with_alpha (color : string) (c : string) : Prop :=
  exists a : string, c = (color ++ a)%string /\ hex2 a = true.

Definition styled (color : string) (c : Canvas.Op) : Prop :=
  match c with
  | Canvas.addColorStop _ s | Canvas.strokeStyle s => with_alpha color s
  | _ => True
  end.

Fixpoint strokes (l : list Canvas.Op) : nat :=
  match l with
  | [] => 0
  | Canvas.stroke :: l => S (strokes l)
  | _ :: l => strokes l
  end.

(** ** The audio analyzer ([audio-analyzer.ts])

    [getAudioData] on the bytes [getByteTimeDomainData] wrote to
    [dataArray].  [Math.sqrt] is a parameter. *)
Module Analyzer.

Record AudioData := mkAudioData {
  level : Q;
  frequency : Q;
  frequencyData : list Byte.byte;
  timeDomainData : list Byte.byte
}.

Section Sqrt.

Variable Math_sqrt : Q -> Q.

Definition amplitude (b : Byte.byte) : Q :=
  (inject_Z (Z.of_N (Byte.to_N b)) - 128) / 128.

Definition getAudioData (dataArray : list Byte.byte) : AudioData :=
  let samples := Nat.min (List.length dataArray) 1024 in
  let sum :=
    fold_left (fun sum b => sum + amplitude b * amplitude b)
      (firstn samples dataArray) 0 in
  let rms := Math_sqrt (sum / inject_Z (Z.of_nat samples)) in
  let audioLevel := Qmin (rms * 2) 1 in
  {| level := audioLevel;
     frequency := 0;
     frequencyData := [];
     timeDomainData := dataArray |}.

End Sqrt.

End Analyzer.

(** The mean of the squared amplitudes of the samples [getAudioData]
    reads. *)
Definition meanSquare (data : list Byte.byte) : Q :=
  fold_left (fun sum b => sum + Analyzer.amplitude b * Analyzer.amplitude b)
    (firstn (Nat.min (List.length data) 1024) data) 0
  / inject_Z (Z.of_nat (Nat.min (List.length data) 1024)).

(** ** Properties *)

(** *** Comparisons *)

Lemma ltb_lt (x y : Q) : JS.ltb x y = true <-> x < y.
Proof.
  unfold JS.ltb. rewrite negb_true_iff. split; intro H.
  - apply Qnot_le_lt. intro C. apply Qle_bool_iff in C. congruence.
  - destruct (Qle_bool y x) eqn:E; [|reflexivity].
    apply Qle_bool_iff in E. exfalso. apply (Qlt_not_le _ _ H E).
Qed.

Lemma ltb_ge (x y : Q) : JS.ltb x y = false <-> y <= x.
Proof.
  unfold JS.ltb. rewrite negb_false_iff. apply Qle_bool_iff.
Qed.

Lemma AvatarState_eqb_eq (a b : AvatarState) :
  AvatarState_eqb a b = true <-> a = b.
Proof. destruct a, b; simpl; split; congruence. Qed.

Lemma AvatarState_eqb_refl (a : AvatarState) : AvatarState_eqb a a = true.
Proof. destruct a; reflexivity. Qed.

Lemma AvatarState_eqb_neq (a b : AvatarState) :
  AvatarState_eqb a b = false <-> a <> b.
Proof. destruct a, b; simpl; split; congruence. Qed.

(** Case analysis on every test of a method body. *)
Ltac split_tests :=
  repeat match goal with
         | |- context [if ?c then _ else _] => destruct c eqn:?
         | |- context [match ?x with _ => _ end] => destruct x eqn:?
         end.

(** Reading a field of an engine built by field updates. *)
Ltac read_fields :=
  cbv beta iota zeta delta
   [
    config canvas_width canvas_height backgroundCanvas_width
    backgroundCanvas_height program positionBuffer texCoordBuffer
    backgroundTexture audioAnalyzer animationId isDisposed
    smoothedAudioLevel backgroundImageElement startTime backgroundDirty
    lastBackgroundConfig textureNeedsUpdate lastAvatarSize
    thinkingAnimationTime currentState targetState stateTransitionProgress
    stateTransitionStartTime clock gl ctx frames console set_config
    set_canvas_width set_canvas_height set_backgroundCanvas_width
    set_backgroundCanvas_height set_program set_positionBuffer
    set_texCoordBuffer set_backgroundTexture set_audioAnalyzer
    set_animationId set_isDisposed set_smoothedAudioLevel
    set_backgroundImageElement set_startTime set_backgroundDirty
    set_lastBackgroundConfig set_textureNeedsUpdate set_lastAvatarSize
    set_thinkingAnimationTime set_currentState set_targetState
    set_stateTransitionProgress set_stateTransitionStartTime set_clock
    set_gl set_ctx set_frames set_console gl_call gl_calls ctx_call].

Ltac read_fields_in H :=
  cbv beta iota zeta delta
   [
    config canvas_width canvas_height backgroundCanvas_width
    backgroundCanvas_height program positionBuffer texCoordBuffer
    backgroundTexture audioAnalyzer animationId isDisposed
    smoothedAudioLevel backgroundImageElement startTime backgroundDirty
    lastBackgroundConfig textureNeedsUpdate lastAvatarSize
    thinkingAnimationTime currentState targetState stateTransitionProgress
    stateTransitionStartTime clock gl ctx frames console set_config
    set_canvas_width set_canvas_height set_backgroundCanvas_width
    set_backgroundCanvas_height set_program set_positionBuffer
    set_texCoordBuffer set_backgroundTexture set_audioAnalyzer
    set_animationId set_isDisposed set_smoothedAudioLevel
    set_backgroundImageElement set_startTime set_backgroundDirty
    set_lastBackgroundConfig set_textureNeedsUpdate set_lastAvatarSize
    set_thinkingAnimationTime set_currentState set_targetState
    set_stateTransitionProgress set_stateTransitionStartTime set_clock
    set_gl set_ctx set_frames set_console gl_call gl_calls ctx_call] in H.

(** The same, leaving the fields of an engine that is a variable folded. *)
Ltac project :=
  cbn beta iota zeta delta
   [
    config canvas_width canvas_height backgroundCanvas_width
    backgroundCanvas_height program positionBuffer texCoordBuffer
    backgroundTexture audioAnalyzer animationId isDisposed
    smoothedAudioLevel backgroundImageElement startTime backgroundDirty
    lastBackgroundConfig textureNeedsUpdate lastAvatarSize
    thinkingAnimationTime currentState targetState stateTransitionProgress
    stateTransitionStartTime clock gl ctx frames console set_config
    set_canvas_width set_canvas_height set_backgroundCanvas_width
    set_backgroundCanvas_height set_program set_positionBuffer
    set_texCoordBuffer set_backgroundTexture set_audioAnalyzer
    set_animationId set_isDisposed set_smoothedAudioLevel
    set_backgroundImageElement set_startTime set_backgroundDirty
    set_lastBackgroundConfig set_textureNeedsUpdate set_lastAvatarSize
    set_thinkingAnimationTime set_currentState set_targetState
    set_stateTransitionProgress set_stateTransitionStartTime set_clock
    set_gl set_ctx set_frames set_console gl_call gl_calls ctx_call].

(** *** Disposal *)

Section Disposal.

Variable Math_pow : Q -> Q -> Q.

Local Abbreviation render := (GlastarJS.render Math_pow).

Lemma render_guard (level : Q) (e : Engine) :
  program e = None \/ isDisposed e = true -> render level e = e.
Proof.
  intros [H | H]; unfold GlastarJS.render; rewrite H.
  - reflexivity.
  - now rewrite orb_true_r.
Qed.

Lemma dispose_isDisposed (e : Engine) :
  isDisposed (GlastarJS.dispose e) = true.
Proof. unfold GlastarJS.dispose, GlastarJS.stop. split_tests; reflexivity. Qed.

Lemma step_isDisposed (e : Engine) (c : Call) :
  isDisposed e = true -> isDisposed (step Math_pow e c) = true.
Proof.
  intro H. destruct c; simpl.
  - unfold GlastarJS.updateConfig, GlastarJS.loadBackgroundImage.
    split_tests; exact H.
  - exact H.
  - exact H.
  - unfold GlastarJS.start. destruct (animationId e); [exact H|].
    now rewrite render_guard by (now right).
  - unfold GlastarJS.stop. destruct (animationId e); exact H.
  - apply dispose_isDisposed.
  - exact H.
  - now rewrite render_guard by (now right).
  - unfold onload_handler. split_tests; exact H.
  - unfold onerror_handler. split_tests; exact H.
Qed.

Lemma run_isDisposed (calls : list Call) (e : Engine) :
  isDisposed e = true -> isDisposed (run Math_pow calls e) = true.
Proof.
  revert e. induction calls as [|c calls IH]; intros e H; simpl.
  - exact H.
  - apply IH, step_isDisposed, H.
Qed.

(** C1. Once [dispose()] has been called, whatever calls and events follow,
    a firing of the frame callback returns at its guard: the engine and its
    host are left as they were, so nothing is added to the calls on the
    WebGL context, nothing is drawn on the composition canvas and no
    animation frame is requested. *)
Theorem C1_no_ticks_after_dispose :
  forall (e : Engine) (calls : list Call) (level : Q),
    let disposed := run Math_pow calls (GlastarJS.dispose e) in
    render level disposed = disposed
    /\ gl (render level disposed) = gl disposed
    /\ ctx (render level disposed) = ctx disposed
    /\ frames (render level disposed) = frames disposed
    /\ animationId (render level disposed) = animationId disposed.
Proof.
  intros e calls level disposed.
  assert (G : render level disposed = disposed).
  { apply render_guard. right. apply run_isDisposed, dispose_isDisposed. }
  rewrite G. repeat split.
Qed.

End Disposal.

Section Configuration.

(** *** Construction *)

(** What the constructor leaves in [this.config]: the resolved defaults,
    made square by the [resize] of [setupWebGL]. *)
Lemma constructor_config (env : Env) (options : Partial.t) (e : Engine) :
  GlastarJS.constructor env options = inr e ->
  config e =
    set_size (width (resolveConfig options)) (width (resolveConfig options))
      (resolveConfig options).
Proof.
  unfold GlastarJS.constructor, GlastarJS.setupWebGL, GlastarJS.createShader.
  destruct (getContext env), (vertexShader env), (fragmentShader env),
    (programCreated env), (LINK_STATUS env); simpl; try discriminate.
  all: intro H; injection H as <-.
  all: unfold resolveConfig;
    destruct (Partial.avatarShape options) as [[]|]; reflexivity.
Qed.

Lemma constructor_surface (env : Env) (options : Partial.t) (e : Engine) :
  GlastarJS.constructor env options = inr e ->
  canvas_width e = width (resolveConfig options)
  /\ canvas_height e = width (resolveConfig options)
  /\ backgroundCanvas_width e = width (resolveConfig options)
  /\ backgroundCanvas_height e = width (resolveConfig options).
Proof.
  unfold GlastarJS.constructor, GlastarJS.setupWebGL, GlastarJS.createShader.
  destruct (getContext env), (vertexShader env), (fragmentShader env),
    (programCreated env), (LINK_STATUS env); simpl; try discriminate.
  all: intro H; injection H as <-.
  all: unfold resolveConfig;
    destruct (Partial.avatarShape options) as [[]|]; repeat split.
Qed.

Lemma demo_constructed (options : Partial.t) :
  GlastarJS.constructor Demo.host options = inr (Demo.engine options).
Proof. reflexivity. Qed.

Lemma or_num_zero (v d : Q) : v == 0 -> JS.or_num (Some v) d = d.
Proof.
  intro H. unfold JS.or_num, JS.truthy_num.
  apply Qeq_bool_iff in H. now rewrite H.
Qed.

Lemma constructor_rotation_speed_forced
    (env : Env) (options : Partial.t) (e : Engine) :
  GlastarJS.constructor env options = inr e ->
  rotation_speed_forced (config e).
Proof.
  intro H. rewrite (constructor_config _ _ _ H).
  unfold rotation_speed_forced, resolveConfig; simpl.
  destruct (Partial.backgroundRotation options) as [[]|]; simpl;
    intro R; try discriminate R. reflexivity.
Qed.

(** C10 (amended). At construction a falsy value supplied for a field that
    is defaulted with [||] is replaced by the documented default: [0] for
    [width], [glassOpacity], [refractionStrength], [blurAmount], [fps],
    [avatarSize], [avatarSensitivity], [avatarExpansion], [avatarSmoothing]
    and [backgroundScale], the empty string for the four colours.  The
    fields defaulted with [??] keep what is supplied, falsy or not:
    [backgroundGradient.angle], [backgroundRotation], and
    [backgroundRotationSpeed] unless [backgroundRotation] is [false]. *)
Theorem C10_falsy_values_defaulted :
  forall (env : Env) (options : Partial.t) (e : Engine),
    GlastarJS.constructor env options = inr e ->
    let c := config e in
    zero_defaulted (Partial.width options) (width c) 800
    /\ zero_defaulted (Partial.glassOpacity options) (glassOpacity c) 0.95
    /\ zero_defaulted (Partial.refractionStrength options)
         (refractionStrength c) 1.0
    /\ zero_defaulted (Partial.blurAmount options) (blurAmount c) 3.0
    /\ zero_defaulted (Partial.fps options) (fps c) 60
    /\ zero_defaulted (Partial.avatarSize options) (avatarSize c) 80
    /\ zero_defaulted (Partial.avatarSensitivity options)
         (avatarSensitivity c) 1.0
    /\ zero_defaulted (Partial.avatarExpansion options) (avatarExpansion c) 2.0
    /\ zero_defaulted (Partial.avatarSmoothing options)
         (avatarSmoothing c) 0.25
    /\ zero_defaulted (Partial.backgroundScale options) (backgroundScale c) 1.0
    /\ empty_defaulted (Partial.avatarColor options) (avatarColor c) "#4A90E2"
    /\ empty_defaulted (Partial.backgroundColor options)
         (backgroundColor c) "#000000"
    /\ (forall g, Partial.backgroundGradient options = Some g ->
        empty_defaulted (Partial.centerColor g)
          (centerColor (backgroundGradient c)) "#4A90E2"
        /\ empty_defaulted (Partial.edgeColor g)
             (edgeColor (backgroundGradient c)) "#1a1a2e"
        /\ preserved (Partial.angle g) (angle (backgroundGradient c)))
    /\ preserved (Partial.backgroundRotation options) (backgroundRotation c)
    /\ (Partial.backgroundRotation options <> Some false ->
        preserved (Partial.backgroundRotationSpeed options)
          (backgroundRotationSpeed c)).
Proof.
  intros env options e H c. subst c. rewrite (constructor_config _ _ _ H).
  unfold zero_defaulted, empty_defaulted, preserved, resolveConfig; simpl.
  repeat match goal with |- _ /\ _ => split end;
    try (intros v Hv Hz; rewrite Hv; now apply or_num_zero).
  - intro Hv. now rewrite Hv.
  - intro Hv. now rewrite Hv.
  - intros g Hg. rewrite Hg.
    repeat split; intros; simpl;
      match goal with Hv : _ = Some _ |- _ => now rewrite Hv end.
  - intros v Hv. now rewrite Hv.
  - intros R v Hv. rewrite Hv.
    destruct (Partial.backgroundRotation options) as [[]|];
      try reflexivity. now elim R.
Qed.

Lemma C10_falsy_values_defaulted_witness :
  glassOpacity (config (Demo.engine Demo.zeros)) = 0.95
  /\ blurAmount (config (Demo.engine Demo.zeros)) = 3.0
  /\ avatarSize (config (Demo.engine Demo.zeros)) = 80
  /\ avatarSensitivity (config (Demo.engine Demo.zeros)) = 1.0
  /\ backgroundScale (config (Demo.engine Demo.zeros)) = 1.0
  /\ angle (backgroundGradient (config (Demo.engine Demo.zeros))) = 0
  /\ backgroundRotation (config (Demo.engine Demo.zeros)) = false.
Proof.
  pose proof (C10_falsy_values_defaulted Demo.host Demo.zeros
                (Demo.engine Demo.zeros) (demo_constructed Demo.zeros))
    as (_ & Hopacity & _ & Hblur & _ & Hsize & Hsens & _ & _ & Hscale
        & _ & _ & Hgradient & Hrotation & _).
  destruct (Hgradient _ eq_refl) as (_ & _ & Hangle).
  exact (conj (Hopacity 0 eq_refl (Qeq_refl 0))
        (conj (Hblur 0 eq_refl (Qeq_refl 0))
        (conj (Hsize 0 eq_refl (Qeq_refl 0))
        (conj (Hsens 0 eq_refl (Qeq_refl 0))
        (conj (Hscale 0 eq_refl (Qeq_refl 0))
        (conj (Hangle 0 eq_refl) (Hrotation false eq_refl))))))).
Defined.

(** The claim as written fails at [backgroundRotationSpeed]: it is a third
    field defaulted with [??], so a supplied [0] is stored and not replaced by
    the default [10]; and at [height], where a supplied [0] ends as the
    width, not as the documented [600]. *)
Lemma C10_counterexample :
  backgroundRotationSpeed
    (config (Demo.engine (patch_backgroundRotationSpeed 0))) = 0
  /\ ~ backgroundRotationSpeed
         (config (Demo.engine (patch_backgroundRotationSpeed 0))) == 10
  /\ height (config (Demo.engine (patch_height 0))) = 800
  /\ ~ height (config (Demo.engine (patch_height 0))) == 600.
Proof. repeat split; try reflexivity; intro H; discriminate H. Qed.

(** *** updateConfig *)

(** C9 (the code departs from the claim). An engine built from [{}] stores
    [backgroundRotation = true] and the speed [10];
    [updateConfig({backgroundRotation: false})] then stores
    [backgroundRotation = false] and leaves the speed at [10].  An engine
    built from [{backgroundRotation: false, backgroundRotationSpeed: 10}]
    stores the speed [0]; [updateConfig] with the same object stores the
    speed [10].  The rule the constructor enforces is not enforced by
    [updateConfig]. *)
Theorem C9_updateConfig_keeps_rotation_speed :
  let e0 := Demo.engine Partial.empty in
  let e1 := GlastarJS.updateConfig (patch_backgroundRotation false) e0 in
  let f0 := Demo.engine Demo.stopped in
  let f1 := GlastarJS.updateConfig Demo.stopped f0 in
  (backgroundRotation (config e0) = true
   /\ backgroundRotationSpeed (config e0) = 10)
  /\ (backgroundRotation (config e1) = false
      /\ backgroundRotationSpeed (config e1) = 10
      /\ ~ rotation_speed_forced (config e1))
  /\ (backgroundRotation (config f0) = false
      /\ backgroundRotationSpeed (config f0) = 0
      /\ rotation_speed_forced (config f0))
  /\ (backgroundRotation (config f1) = false
      /\ backgroundRotationSpeed (config f1) = 10
      /\ ~ rotation_speed_forced (config f1)).
Proof.
  cbv zeta. repeat split.
  - intro H. specialize (H eq_refl). discriminate H.
  - intro H. specialize (H eq_refl). discriminate H.
Qed.

(** C2 (amended). [updateConfig({avatarColor: X})] changes [avatarColor] and
    no other field of the stored configuration; for a non-empty [Y],
    [updateConfig({backgroundGradient: {edgeColor: Y}})] sets [edgeColor] to
    [Y], keeps the prior [centerColor] and [angle] and changes no other
    field. *)
Theorem C2_updateConfig_merges :
  forall (e : Engine) (X Y : string),
    Y <> EmptyString ->
    config (GlastarJS.updateConfig (patch_avatarColor X) e)
    = set_avatarColor X (config e)
    /\ config (GlastarJS.updateConfig (patch_edgeColor Y) e)
       = set_backgroundGradient
           {| centerColor := centerColor (backgroundGradient (config e));
              edgeColor := Y;
              angle := angle (backgroundGradient (config e)) |}
           (config e).
Proof.
  intros e X Y HY. split.
  - reflexivity.
  - destruct Y as [|a Y]; [now elim HY | reflexivity].
Qed.

Lemma C2_updateConfig_merges_witness :
  avatarColor
    (config (GlastarJS.updateConfig (patch_avatarColor "#ff0000")
               (Demo.engine Partial.empty))) = "#ff0000"%string
  /\ backgroundGradient
       (config (GlastarJS.updateConfig (patch_edgeColor "#00ff00")
                  (Demo.engine Partial.empty)))
     = {| centerColor := "#4A90E2"; edgeColor := "#00ff00"; angle := 45 |}.
Proof.
  destruct (C2_updateConfig_merges (Demo.engine Partial.empty)
              "#ff0000" "#00ff00") as [HX HY].
  - discriminate.
  - rewrite HX, HY. split; reflexivity.
Defined.

(** The claim as written fails at the empty string: [edgeColor || prior]
    falls back on the prior colour. *)
Lemma C2_counterexample :
  edgeColor
    (backgroundGradient
       (config (GlastarJS.updateConfig (patch_edgeColor EmptyString)
                  (Demo.engine Partial.empty))))
  <> EmptyString.
Proof. discriminate. Qed.

(** *** The square surface *)

Lemma resize_square (e : Engine) (w : Q) (h : option Q) :
  is_square (GlastarJS.resize w h e).
Proof.
  unfold is_square, GlastarJS.resize.
  destruct (avatarShape (config e)); repeat split.
Qed.

Lemma loadBackgroundImage_square (e : Engine) :
  is_square e -> is_square (GlastarJS.loadBackgroundImage e).
Proof.
  unfold GlastarJS.loadBackgroundImage.
  destruct (backgroundImage (config e)) as [[|a url]|]; intro S; exact S.
Qed.

Lemma updateConfig_resized_square (e : Engine) (patch : Partial.t) :
  JS.has (Partial.width patch) || JS.has (Partial.height patch) = true ->
  is_square (GlastarJS.updateConfig patch e).
Proof.
  intro H. unfold GlastarJS.updateConfig. rewrite H.
  destruct (Partial.backgroundImage patch) as [[i|]|];
    [apply loadBackgroundImage_square| |];
    apply (resize_square _ _ _).
Qed.

(** C4. An engine constructed with [avatarShape] ['circle'] or ['square'] is
    square, whatever width and height were supplied: the stored height equals
    the stored width, and so do those of the canvas and of the composition
    canvas.  Every [resize] leaves the engine square, and so does every
    [updateConfig] whose patch has a width or a height. *)
Theorem C4_shape_forces_square :
  forall (env : Env) (options : Partial.t) (shape : AvatarShape) (e : Engine),
    Partial.avatarShape options = Some shape ->
    GlastarJS.constructor env options = inr e ->
    is_square e
    /\ (forall e' w h, is_square (GlastarJS.resize w h e'))
    /\ (forall e' patch,
          JS.has (Partial.width patch) || JS.has (Partial.height patch) = true
          -> is_square (GlastarJS.updateConfig patch e')).
Proof.
  intros env options shape e _ H. split; [|split].
  - destruct (constructor_surface _ _ _ H) as (W & Hh & BW & BH).
    unfold is_square. rewrite (constructor_config _ _ _ H), W, Hh, BW, BH.
    repeat split.
  - intros. apply resize_square.
  - intros. now apply updateConfig_resized_square.
Qed.

Lemma C4_shape_forces_square_witness :
  is_square (Demo.engine Demo.round)
  /\ is_square (GlastarJS.resize 640 (Some 480) (Demo.engine Demo.round))
  /\ is_square (GlastarJS.updateConfig (patch_height 200)
                  (Demo.engine Demo.round)).
Proof.
  destruct (C4_shape_forces_square Demo.host Demo.round circle
              (Demo.engine Demo.round) eq_refl (demo_constructed Demo.round))
    as (Hnew & Hresize & Hupdate).
  split; [exact Hnew | split].
  - apply Hresize.
  - apply Hupdate. reflexivity.
Defined.

End Configuration.

(** *** The easing curve *)

Lemma cube_le (a b : Q) : 0 <= a -> a <= b -> a * a * a <= b * b * b.
Proof.
  intros Ha Hab.
  assert (Hb : 0 <= b) by lra.
  assert (H1 : a * a <= b * b) by nra.
  assert (H2 : 0 <= a * a) by nra.
  nra.
Qed.

Lemma easeInOutCubic_low (t : Q) :
  t < 0.5 -> GlastarJS.easeInOutCubic t == 4 * t * t * t.
Proof.
  intro H. unfold GlastarJS.easeInOutCubic.
  apply ltb_lt in H. now rewrite H.
Qed.

Lemma easeInOutCubic_high (t : Q) :
  0.5 <= t ->
  GlastarJS.easeInOutCubic t
  == 1 - (1 # 2) * ((2 - 2 * t) * (2 - 2 * t) * (2 - 2 * t)).
Proof.
  intro H. unfold GlastarJS.easeInOutCubic.
  apply ltb_ge in H. rewrite H. simpl. field.
Qed.

Lemma easeInOutCubic_mono (t1 t2 : Q) :
  0 <= t1 -> t1 <= t2 -> t2 <= 1 ->
  GlastarJS.easeInOutCubic t1 <= GlastarJS.easeInOutCubic t2.
Proof.
  intros H0 H12 H1.
  destruct (Qlt_le_dec t1 0.5) as [L1 | L1];
    destruct (Qlt_le_dec t2 0.5) as [L2 | L2].
  - rewrite (easeInOutCubic_low _ L1), (easeInOutCubic_low _ L2).
    pose proof (cube_le t1 t2 H0 H12). lra.
  - rewrite (easeInOutCubic_low _ L1), (easeInOutCubic_high _ L2).
    assert (A : t1 * t1 * t1 <= 0.5 * 0.5 * 0.5) by (apply cube_le; lra).
    assert (B : (2 - 2 * t2) * (2 - 2 * t2) * (2 - 2 * t2) <= 1 * 1 * 1)
      by (apply cube_le; lra).
    lra.
  - lra.
  - rewrite (easeInOutCubic_high _ L1), (easeInOutCubic_high _ L2).
    assert (A : (2 - 2 * t2) * (2 - 2 * t2) * (2 - 2 * t2)
                <= (2 - 2 * t1) * (2 - 2 * t1) * (2 - 2 * t1))
      by (apply cube_le; lra).
    lra.
Qed.

Lemma easeInOutCubic_0 : GlastarJS.easeInOutCubic 0 == 0.
Proof. reflexivity. Qed.

Lemma easeInOutCubic_1 : GlastarJS.easeInOutCubic 1 == 1.
Proof. reflexivity. Qed.

Lemma easeInOutCubic_range (t : Q) :
  0 <= t -> t <= 1 ->
  0 <= GlastarJS.easeInOutCubic t /\ GlastarJS.easeInOutCubic t <= 1.
Proof.
  intros H0 H1. split.
  - apply Qle_trans with (GlastarJS.easeInOutCubic 0).
    + rewrite easeInOutCubic_0. apply Qle_refl.
    + apply easeInOutCubic_mono; lra.
  - apply Qle_trans with (GlastarJS.easeInOutCubic 1).
    + apply easeInOutCubic_mono; lra.
    + rewrite easeInOutCubic_1. apply Qle_refl.
Qed.

Lemma rawProgress_range (start t : Z) :
  (start <= t)%Z -> 0 <= rawProgress start t /\ rawProgress start t <= 1.
Proof.
  intro H. unfold rawProgress, stateTransitionDuration. split.
  - apply Q.min_glb; [lra|].
    apply Qle_shift_div_l; [reflexivity|].
    rewrite Qmult_0_l. rewrite <- (Zle_Qle 0). lia.
  - apply Q.le_min_l.
Qed.

Lemma rawProgress_mono (start t t' : Z) :
  (t <= t')%Z -> rawProgress start t <= rawProgress start t'.
Proof.
  intro H. unfold rawProgress, stateTransitionDuration.
  apply Q.min_le_compat_l.
  apply Qmult_le_compat_r; [|discriminate].
  rewrite <- Zle_Qle. lia.
Qed.

(** *** The frame *)

Section FrameProperties.

Variable Math_pow : Q -> Q -> Q.

Local Abbreviation render := (GlastarJS.render Math_pow).
Local Abbreviation drawAvatar := (GlastarJS.drawAvatar Math_pow).

Lemma drawAvatar_phases (level : Q) (e : Engine) :
  drawAvatar level e
  = drawLayers Math_pow (backgroundCanvas_width e) (backgroundCanvas_height e)
      (redrawBackground (backgroundCanvas_width e) (backgroundCanvas_height e)
         (smooth level
            (GlastarJS.updateStateTransition (advanceThinking e)))).
Proof.
  unfold GlastarJS.drawAvatar, drawLayers, redrawBackground, smooth,
    advanceThinking.
  cbv beta zeta. reflexivity.
Qed.

Lemma render_phases (level : Q) (e : Engine) :
  render level e
  = if match program e with None => true | Some _ => false end
       || isDisposed e
    then e
    else present
           (drawAvatar
              (match audioAnalyzer e with Some _ => level | None => 0 end) e).
Proof.
  unfold GlastarJS.render, present. cbv beta zeta. reflexivity.
Qed.

Lemma core_ctx_call (c : CtxCall) (e : Engine) :
  core (ctx_call c e) = core e.
Proof. reflexivity. Qed.

Lemma dirt_ctx_call (c : CtxCall) (e : Engine) :
  dirt (ctx_call c e) = dirt e.
Proof. reflexivity. Qed.

Lemma core_drawAvatarState cx cy size w h state opacity (e : Engine) :
  core (GlastarJS.drawAvatarState Math_pow cx cy size w h state opacity e)
  = core e.
Proof.
  unfold GlastarJS.drawAvatarState, GlastarJS.drawSpeakingAvatar,
    GlastarJS.drawListeningAvatar, GlastarJS.drawThinkingAvatar,
    GlastarJS.drawThinkingBorder.
  split_tests; reflexivity.
Qed.

Lemma dirt_drawAvatarState cx cy size w h state opacity (e : Engine) :
  dirt (GlastarJS.drawAvatarState Math_pow cx cy size w h state opacity e)
  = dirt e.
Proof.
  unfold GlastarJS.drawAvatarState, GlastarJS.drawSpeakingAvatar,
    GlastarJS.drawListeningAvatar, GlastarJS.drawThinkingAvatar,
    GlastarJS.drawThinkingBorder.
  split_tests; reflexivity.
Qed.

(** Peeling the drawing calls off an engine under [core] or [dirt]. *)
Ltac peel :=
  repeat first
    [ rewrite core_ctx_call | rewrite dirt_ctx_call
    | rewrite core_drawAvatarState | rewrite dirt_drawAvatarState ].

Lemma core_drawLayers (w h : Q) (e : Engine) :
  core (drawLayers Math_pow w h e) = core e.
Proof.
  unfold drawLayers. cbv zeta.
  destruct (Qeq_bool (stateTransitionProgress e) 1).
  - apply core_drawAvatarState.
  - destruct (negb _); peel; reflexivity.
Qed.

Lemma dirt_drawLayers (w h : Q) (e : Engine) :
  dirt (drawLayers Math_pow w h e) = dirt e.
Proof.
  unfold drawLayers. cbv zeta.
  destruct (Qeq_bool (stateTransitionProgress e) 1).
  - apply dirt_drawAvatarState.
  - destruct (negb _); peel; reflexivity.
Qed.

Lemma core_redrawBackground (w h : Q) (e : Engine) :
  core (redrawBackground w h e) = core e.
Proof.
  unfold redrawBackground.
  destruct (GlastarJS.backgroundNeedsRedraw e); reflexivity.
Qed.

Lemma updateStateTransition_advanceThinking (e : Engine) :
  GlastarJS.updateStateTransition (advanceThinking e)
  = advanceThinking (GlastarJS.updateStateTransition e).
Proof.
  unfold GlastarJS.updateStateTransition, advanceThinking.
  destruct e. read_fields. split_tests; try reflexivity; discriminate.
Qed.

Lemma dirt_updateStateTransition (e : Engine) :
  dirt (GlastarJS.updateStateTransition e) = dirt e.
Proof.
  unfold GlastarJS.updateStateTransition. cbv zeta.
  split_tests; reflexivity.
Qed.

Lemma present_core (e : Engine) : core (present e) = core e.
Proof.
  unfold present. cbv zeta. split_tests; reflexivity.
Qed.

(** What a frame leaves of the configuration, the clock and the flag. *)
Lemma updateStateTransition_frame (e : Engine) :
  config (GlastarJS.updateStateTransition e) = config e
  /\ smoothedAudioLevel (GlastarJS.updateStateTransition e)
     = smoothedAudioLevel e
  /\ clock (GlastarJS.updateStateTransition e) = clock e
  /\ isDisposed (GlastarJS.updateStateTransition e) = isDisposed e.
Proof.
  unfold GlastarJS.updateStateTransition. cbv zeta.
  split_tests; repeat split.
Qed.

Lemma core_smooth_advanceThinking (level : Q) (e : Engine) :
  core (smooth level (advanceThinking e)) = core (smooth level e).
Proof. reflexivity. Qed.

Lemma core_drawAvatar (level : Q) (e : Engine) :
  core (drawAvatar level e)
  = core (smooth level (GlastarJS.updateStateTransition e)).
Proof.
  rewrite drawAvatar_phases, core_drawLayers, core_redrawBackground.
  rewrite updateStateTransition_advanceThinking.
  apply core_smooth_advanceThinking.
Qed.

Lemma core_render (level : Q) (e : Engine) :
  core (render level e) = core e
  \/ exists audioLevel,
       (audioLevel = level \/ audioLevel = 0)
       /\ core (render level e)
          = core (smooth audioLevel (GlastarJS.updateStateTransition e)).
Proof.
  rewrite render_phases.
  destruct (_ || _); [now left | right].
  exists (match audioAnalyzer e with Some _ => level | None => 0 end).
  split.
  - destruct (audioAnalyzer e); [now left | now right].
  - rewrite present_core. apply core_drawAvatar.
Qed.

(** The fields of [core], one by one. *)
Lemma core_fields (e e' : Engine) :
  core e = core e' ->
  config e = config e'
  /\ smoothedAudioLevel e = smoothedAudioLevel e'
  /\ clock e = clock e'
  /\ currentState e = currentState e'
  /\ targetState e = targetState e'
  /\ stateTransitionProgress e = stateTransitionProgress e'
  /\ stateTransitionStartTime e = stateTransitionStartTime e'
  /\ isDisposed e = isDisposed e'.
Proof.
  unfold core. intro H. injection H as -> -> -> -> -> -> -> ->.
  repeat split.
Qed.

(** *** The transition *)

Lemma transition_inv_range (e : Engine) :
  transition_inv e ->
  0 <= stateTransitionProgress e /\ stateTransitionProgress e <= 1.
Proof.
  intros [H | (t & Ht & H)]; rewrite H.
  - split; discriminate.
  - apply easeInOutCubic_range; apply rawProgress_range; lia.
Qed.

Lemma transition_inv_ext (e e' : Engine) :
  stateTransitionProgress e' = stateTransitionProgress e ->
  stateTransitionStartTime e' = stateTransitionStartTime e ->
  (clock e <= clock e')%Z ->
  transition_inv e -> transition_inv e'.
Proof.
  unfold transition_inv. intros -> -> Hc [H | (t & Ht & H)].
  - now left.
  - right. exists t. split; [lia | exact H].
Qed.

(** The three tests of [updateStateTransition], decided. *)
Lemma updateStateTransition_cases (e : Engine) :
  let e1 := GlastarJS.updateStateTransition e in
  (avatarState (config e) <> targetState e
   /\ stateTransitionStartTime e1 = clock e
   /\ stateTransitionProgress e1
      = GlastarJS.easeInOutCubic (rawProgress (clock e) (clock e)))
  \/ (avatarState (config e) = targetState e
      /\ stateTransitionProgress e < 1
      /\ stateTransitionStartTime e1 = stateTransitionStartTime e
      /\ stateTransitionProgress e1
         = GlastarJS.easeInOutCubic
             (rawProgress (stateTransitionStartTime e) (clock e)))
  \/ (avatarState (config e) = targetState e
      /\ 1 <= stateTransitionProgress e
      /\ stateTransitionStartTime e1 = stateTransitionStartTime e
      /\ stateTransitionProgress e1 = stateTransitionProgress e).
Proof.
  unfold GlastarJS.updateStateTransition, rawProgress. cbv zeta.
  destruct (AvatarState_eqb (avatarState (config e)) (targetState e)) eqn:S;
    cbn [negb].
  - apply AvatarState_eqb_eq in S. right.
    destruct (JS.ltb (stateTransitionProgress e) 1) eqn:L.
    + left. apply ltb_lt in L.
      split_tests; repeat split; assumption.
    + right. apply ltb_ge in L. repeat split; assumption.
  - apply AvatarState_eqb_neq in S. left.
    destruct e. read_fields. read_fields_in S.
    change (JS.ltb 0 1) with true. cbv iota.
    split_tests; repeat split; assumption.
Qed.

Lemma updateStateTransition_inv (e : Engine) :
  transition_inv e -> transition_inv (GlastarJS.updateStateTransition e).
Proof.
  intro I.
  destruct (updateStateTransition_frame e) as (_ & _ & Hc & _).
  destruct (updateStateTransition_cases e)
    as [(_ & Hs & Hp) | [(_ & L & Hs & Hp) | (_ & _ & Hs & Hp)]].
  - right. exists (clock e). rewrite Hs, Hp, Hc.
    split; [lia | reflexivity].
  - destruct I as [I | (t & Ht & _)]; [rewrite I in L; discriminate L|].
    right. exists (clock e). rewrite Hs, Hp, Hc.
    split; [lia | reflexivity].
  - apply (transition_inv_ext e); try assumption. rewrite Hc. lia.
Qed.

Lemma updateStateTransition_mono (e : Engine) :
  transition_inv e ->
  avatarState (config e) = targetState e ->
  stateTransitionProgress e
  <= stateTransitionProgress (GlastarJS.updateStateTransition e).
Proof.
  intros I S.
  destruct (updateStateTransition_cases e)
    as [(N & _) | [(_ & L & Hs & Hp) | (_ & _ & Hs & Hp)]].
  - now elim N.
  - destruct I as [I | (t & Ht & I)]; [rewrite I in L; discriminate L|].
    rewrite Hp, I.
    apply easeInOutCubic_mono.
    + apply rawProgress_range; lia.
    + apply rawProgress_mono; lia.
    + apply rawProgress_range; lia.
  - rewrite Hp. apply Qle_refl.
Qed.

(** *** What the calls other than a frame leave unchanged *)

Lemma anim_updateConfig (patch : Partial.t) (e : Engine) :
  anim (GlastarJS.updateConfig patch e) = anim e.
Proof.
  unfold GlastarJS.updateConfig, GlastarJS.resize,
    GlastarJS.loadBackgroundImage.
  cbv zeta. split_tests; reflexivity.
Qed.

Lemma anim_dispose (e : Engine) : anim (GlastarJS.dispose e) = anim e.
Proof.
  unfold GlastarJS.dispose, GlastarJS.stop. cbv zeta.
  split_tests; reflexivity.
Qed.

Lemma anim_step (e : Engine) (c : Call) :
  match c with
  | tick _ | call_start _ | elapse _ => True
  | _ => anim (step Math_pow e c) = anim e
  end.
Proof.
  destruct c; try exact I; cbn [step].
  - apply anim_updateConfig.
  - reflexivity.
  - reflexivity.
  - unfold GlastarJS.stop. destruct (animationId e); reflexivity.
  - apply anim_dispose.
  - unfold onload_handler. split_tests; reflexivity.
  - unfold onerror_handler. split_tests; reflexivity.
Qed.




Lemma clock_render (level : Q) (e : Engine) :
  clock (render level e) = clock e.
Proof.
  destruct (core_render level e) as [H | (a & _ & H)];
    apply core_fields in H; destruct H as (_ & _ & H & _); rewrite H.
  - reflexivity.
  - apply updateStateTransition_frame.
Qed.

Lemma render_inv (level : Q) (e : Engine) :
  transition_inv e -> transition_inv (render level e).
Proof.
  intro I. pose proof (clock_render level e) as Hc.
  destruct (core_render level e) as [H | (a & _ & H)];
    apply core_fields in H;
    destruct H as (_ & _ & _ & _ & _ & Hp & Hs & _).
  - apply (transition_inv_ext e); try assumption. rewrite Hc. lia.
  - apply (transition_inv_ext (GlastarJS.updateStateTransition e)).
    + exact Hp.
    + exact Hs.
    + rewrite Hc.
      destruct (updateStateTransition_frame e) as (_ & _ & -> & _). lia.
    + now apply updateStateTransition_inv.
Qed.

Lemma anim_inv (e e' : Engine) :
  anim e' = anim e -> transition_inv e -> transition_inv e'.
Proof.
  unfold anim. intros A I. injection A as _ Hp Hs Hc.
  apply (transition_inv_ext e); try assumption. rewrite Hc. lia.
Qed.

Lemma step_inv (e : Engine) (c : Call) :
  transition_inv e -> transition_inv (step Math_pow e c).
Proof.
  intro I. pose proof (anim_step e c) as A.
  destruct c; try (now apply (anim_inv e)).
  - cbn [step]. unfold GlastarJS.start.
    destruct (animationId e); [exact I | now apply render_inv].
  - cbn [step]. apply (transition_inv_ext e); try reflexivity; [|exact I].
    cbn. lia.
  - cbn [step]. now apply render_inv.
Qed.

Lemma constructor_anim (env : Env) (options : Partial.t) (e : Engine) :
  GlastarJS.constructor env options = inr e ->
  smoothedAudioLevel e = 0 /\ stateTransitionProgress e = 1.
Proof.
  unfold GlastarJS.constructor, GlastarJS.setupWebGL, GlastarJS.createShader.
  destruct (getContext env), (vertexShader env), (fragmentShader env),
    (programCreated env), (LINK_STATUS env); simpl; try discriminate.
  intro H; injection H as <-. split; reflexivity.
Qed.

Lemma reachable_inv (e : Engine) :
  reachable Math_pow e -> transition_inv e.
Proof.
  induction 1 as [env options e H | e c _ IH].
  - left. destruct (constructor_anim _ _ _ H) as [_ ->]. reflexivity.
  - now apply step_inv.
Qed.

Lemma run_inv (calls : list Call) (e : Engine) :
  transition_inv e -> transition_inv (run Math_pow calls e).
Proof.
  revert e. induction calls as [|c calls IH]; intros e I; cbn.
  - exact I.
  - apply IH, step_inv, I.
Qed.

(** The stored progress after a frame: unchanged at the guard, advanced by
    [updateStateTransition] otherwise. *)
Lemma progress_render (level : Q) (e : Engine) :
  stateTransitionProgress (render level e) = stateTransitionProgress e
  \/ stateTransitionProgress (render level e)
     = stateTransitionProgress (GlastarJS.updateStateTransition e).
Proof.
  destruct (core_render level e) as [H | (a & _ & H)];
    apply core_fields in H;
    destruct H as (_ & _ & _ & _ & _ & Hp & _); [left | right]; exact Hp.
Qed.

Lemma progress_drawAvatar (level : Q) (e : Engine) :
  stateTransitionProgress (drawAvatar level e)
  = stateTransitionProgress (GlastarJS.updateStateTransition e).
Proof.
  pose proof (core_drawAvatar level e) as H. apply core_fields in H.
  destruct H as (_ & _ & _ & _ & _ & Hp & _). exact Hp.
Qed.

(** C7. In an engine a host can hold, a frame that begins no new transition
    (the configured state is the target state) does not lower the stored
    progress, in [drawAvatar] and in the whole [render]; after every frame
    the progress is between [0] and [1]; the easing curve does not decrease
    on [[0,1]], is [0] at [0] and [1] at [1]; the raw progress does not
    decrease as the clock advances. *)
Theorem C7_transition_monotone :
  forall (e : Engine) (level t1 t2 : Q),
    reachable Math_pow e ->
    0 <= t1 -> t1 <= t2 -> t2 <= 1 ->
    (avatarState (config e) = targetState e ->
     stateTransitionProgress e <= stateTransitionProgress (drawAvatar level e)
     /\ stateTransitionProgress e
        <= stateTransitionProgress (render level e))
    /\ 0 <= stateTransitionProgress (render level e)
    /\ stateTransitionProgress (render level e) <= 1
    /\ GlastarJS.easeInOutCubic t1 <= GlastarJS.easeInOutCubic t2
    /\ GlastarJS.easeInOutCubic 0 == 0
    /\ GlastarJS.easeInOutCubic 1 == 1
    /\ (forall start a b : Z,
          (a <= b)%Z -> rawProgress start a <= rawProgress start b).
Proof.
  intros e level t1 t2 R H0 H12 H1.
  pose proof (reachable_inv e R) as I.
  split; [|split; [|split; [|split; [|split; [|split]]]]].
  - intro S. pose proof (updateStateTransition_mono e I S) as M. split.
    + now rewrite progress_drawAvatar.
    + destruct (progress_render level e) as [-> | ->];
        [apply Qle_refl | exact M].
  - apply (transition_inv_range _ (render_inv level e I)).
  - apply (transition_inv_range _ (render_inv level e I)).
  - now apply easeInOutCubic_mono.
  - exact easeInOutCubic_0.
  - exact easeInOutCubic_1.
  - intros start a b. apply rawProgress_mono.
Qed.

(** *** The smoothed audio level *)









(** *** The audio gate *)

(** C6. The sample a frame feeds into the smoother is decided by the
    transition as [updateStateTransition] leaves it: the full sample when the
    target state is speaking; otherwise the sample scaled by one minus the
    progress when the current state is speaking and the progress is below
    [1]; otherwise [0]. *)
Theorem C6_effective_audio_level :
  forall (e : Engine) (audioLevel : Q),
    let e1 := GlastarJS.updateStateTransition e in
    let effective := GlastarJS.effectiveAudioLevel audioLevel e1 in
    smoothedAudioLevel (drawAvatar audioLevel e)
    = smoothedAudioLevel e
      + (effective * avatarSensitivity (config e) - smoothedAudioLevel e)
        * avatarSmoothing (config e)
    /\ (targetState e1 = speaking -> effective = audioLevel)
    /\ (targetState e1 <> speaking ->
        currentState e1 = speaking ->
        stateTransitionProgress e1 < 1 ->
        effective = audioLevel * (1 - stateTransitionProgress e1))
    /\ (targetState e1 <> speaking ->
        ~ (currentState e1 = speaking /\ stateTransitionProgress e1 < 1) ->
        effective = 0).
Proof.
  intros e audioLevel e1 effective. subst effective. split; [|split; [|split]].
  - pose proof (core_drawAvatar audioLevel e) as H.
    apply core_fields in H. destruct H as (_ & -> & _).
    destruct (updateStateTransition_frame e) as (Hc & Hl & _).
    unfold smooth. cbn [smoothedAudioLevel set_smoothedAudioLevel].
    fold e1. subst e1. now rewrite Hc, Hl.
  - intro T. unfold GlastarJS.effectiveAudioLevel. rewrite T. reflexivity.
  - intros T C P. unfold GlastarJS.effectiveAudioLevel.
    apply AvatarState_eqb_neq in T. rewrite T, C.
    apply ltb_lt in P. rewrite P. reflexivity.
  - intros T N. unfold GlastarJS.effectiveAudioLevel.
    apply AvatarState_eqb_neq in T. rewrite T.
    destruct (AvatarState_eqb (currentState e1) speaking) eqn:C;
      [|reflexivity].
    destruct (JS.ltb (stateTransitionProgress e1) 1) eqn:P; [|reflexivity].
    elim N. split; [now apply AvatarState_eqb_eq | now apply ltb_lt].
Qed.

(** *** The background redraw *)

Lemma backgrounds_app (l l' : list CtxCall) :
  backgrounds (l ++ l') = (backgrounds l + backgrounds l')%nat.
Proof.
  induction l as [|c l IH]; [reflexivity|].
  destruct c; cbn; rewrite IH; reflexivity.
Qed.

Lemma backgrounds_ctx_call (c : CtxCall) (e : Engine) :
  backgrounds (ctx (ctx_call c e))
  = (backgrounds (ctx e) + backgrounds [c])%nat.
Proof. unfold ctx_call. cbn [ctx set_ctx]. apply backgrounds_app. Qed.

Lemma backgrounds_drawAvatarState cx cy size w h state opacity (e : Engine) :
  backgrounds
    (ctx (GlastarJS.drawAvatarState Math_pow cx cy size w h state opacity e))
  = backgrounds (ctx e).
Proof.
  unfold GlastarJS.drawAvatarState, GlastarJS.drawSpeakingAvatar,
    GlastarJS.drawListeningAvatar, GlastarJS.drawThinkingAvatar,
    GlastarJS.drawThinkingBorder, GlastarJS.drawAvatarCircle.
  cbv zeta. split_tests; read_fields; rewrite ?backgrounds_app; cbn; lia.
Qed.

Lemma backgrounds_drawLayers (w h : Q) (e : Engine) :
  backgrounds (ctx (drawLayers Math_pow w h e)) = backgrounds (ctx e).
Proof.
  unfold drawLayers. cbv zeta.
  destruct (Qeq_bool (stateTransitionProgress e) 1).
  - apply backgrounds_drawAvatarState.
  - destruct (negb _);
      repeat first [ rewrite backgrounds_ctx_call
                   | rewrite backgrounds_drawAvatarState ];
      cbn; lia.
Qed.

Lemma texture_drawAvatarState cx cy size w h state opacity (e : Engine) :
  textureNeedsUpdate e = true ->
  textureNeedsUpdate
    (GlastarJS.drawAvatarState Math_pow cx cy size w h state opacity e) = true.
Proof.
  unfold GlastarJS.drawAvatarState, GlastarJS.drawSpeakingAvatar,
    GlastarJS.drawListeningAvatar, GlastarJS.drawThinkingAvatar,
    GlastarJS.drawThinkingBorder, GlastarJS.drawAvatarCircle.
  cbv zeta. intro H. split_tests; try reflexivity; exact H.
Qed.

Lemma texture_drawLayers (w h : Q) (e : Engine) :
  textureNeedsUpdate e = true ->
  textureNeedsUpdate (drawLayers Math_pow w h e) = true.
Proof.
  intro H. unfold drawLayers. cbv zeta.
  destruct (Qeq_bool (stateTransitionProgress e) 1).
  - now apply texture_drawAvatarState.
  - destruct (negb _); cbn [textureNeedsUpdate ctx_call set_ctx];
      repeat (apply texture_drawAvatarState); exact H.
Qed.

Lemma ctx_updateStateTransition (e : Engine) :
  ctx (GlastarJS.updateStateTransition e) = ctx e.
Proof.
  unfold GlastarJS.updateStateTransition. cbv zeta.
  split_tests; reflexivity.
Qed.

(** The engine at the redraw decision of a frame. *)
Lemma before_redraw (level : Q) (e : Engine) :
  let e2 := smooth level
              (GlastarJS.updateStateTransition (advanceThinking e)) in
  dirt e2 = dirt e /\ config e2 = config e /\ ctx e2 = ctx e.
Proof.
  intro e2. subst e2. rewrite updateStateTransition_advanceThinking.
  split; [|split].
  - change (dirt (GlastarJS.updateStateTransition e) = dirt e).
    apply dirt_updateStateTransition.
  - change (config (GlastarJS.updateStateTransition e) = config e).
    apply updateStateTransition_frame.
  - change (ctx (GlastarJS.updateStateTransition e) = ctx e).
    apply ctx_updateStateTransition.
Qed.

Lemma backgroundNeedsRedraw_ext (e e' : Engine) :
  dirt e' = dirt e -> config e' = config e ->
  GlastarJS.backgroundNeedsRedraw e' = GlastarJS.backgroundNeedsRedraw e.
Proof.
  unfold dirt, GlastarJS.backgroundNeedsRedraw. intros D ->.
  injection D as -> ->. reflexivity.
Qed.

Lemma drawAvatar_background (level : Q) (e : Engine) :
  config (drawAvatar level e) = config e
  /\ if GlastarJS.backgroundNeedsRedraw e
     then backgrounds (ctx (drawAvatar level e)) = S (backgrounds (ctx e))
          /\ dirt (drawAvatar level e)
             = (false, Some (GlastarJS.currentBackgroundConfig (config e)))
          /\ textureNeedsUpdate (drawAvatar level e) = true
     else backgrounds (ctx (drawAvatar level e)) = backgrounds (ctx e)
          /\ dirt (drawAvatar level e) = dirt e.
Proof.
  split.
  { pose proof (core_drawAvatar level e) as H. apply core_fields in H.
    destruct H as (-> & _). apply updateStateTransition_frame. }
  rewrite drawAvatar_phases.
  destruct (before_redraw level e) as (D & C & X).
  pose proof (backgroundNeedsRedraw_ext _ _ D C) as N.
  set (e2 := smooth level _) in *.
  rewrite backgrounds_drawLayers, dirt_drawLayers.
  unfold redrawBackground. rewrite N.
  destruct (GlastarJS.backgroundNeedsRedraw e).
  - split; [|split].
    + unfold GlastarJS.drawBackground. project.
      rewrite backgrounds_app, X. cbn. lia.
    + unfold dirt. project. now rewrite C.
    + apply texture_drawLayers. reflexivity.
  - split; [now rewrite X | exact D].
Qed.

Lemma backgroundNeedsRedraw_iff (e : Engine) :
  GlastarJS.backgroundNeedsRedraw e = true
  <-> (backgroundDirty e = true
       \/ signature_changed (lastBackgroundConfig e)
            (GlastarJS.currentBackgroundConfig (config e)) = true
       \/ backgroundRotation (config e) = true
       \/ avatarState (config e) = thinking).
Proof.
  unfold GlastarJS.backgroundNeedsRedraw.
  rewrite !orb_true_iff, AvatarState_eqb_eq. tauto.
Qed.

Lemma BackgroundSignature_eqb_refl (s : BackgroundSignature) :
  BackgroundSignature_eqb s s = true.
Proof.
  unfold BackgroundSignature_eqb, Gradient_eqb, image_eqb.
  rewrite !String.eqb_refl, AvatarState_eqb_refl, Bool.eqb_reflx.
  rewrite !(proj2 (Qeq_bool_iff _ _) (Qeq_refl _)).
  destruct (sig_type s), (sig_image s); cbn; rewrite ?String.eqb_refl;
    reflexivity.
Qed.

(** C5. A frame redraws the background exactly when the dirty flag is set, or
    the signature of the background settings and the avatar state differs
    from the stored one, or the rotation is enabled, or the avatar state is
    thinking; it redraws it at most once.  A redraw clears the dirty flag,
    stores the signature and marks the texture for upload.  With a static
    configuration (colour background, no rotation, speaking) the frame after
    any frame redraws nothing, and the first frame of a dirty engine does
    redraw. *)
Theorem C5_background_redraw :
  forall (e : Engine) (level level' : Q),
    let e' := drawAvatar level e in
    (backgrounds (ctx e') = S (backgrounds (ctx e))
     <-> (backgroundDirty e = true
          \/ signature_changed (lastBackgroundConfig e)
               (GlastarJS.currentBackgroundConfig (config e)) = true
          \/ backgroundRotation (config e) = true
          \/ avatarState (config e) = thinking))
    /\ (backgrounds (ctx e') = S (backgrounds (ctx e))
        \/ backgrounds (ctx e') = backgrounds (ctx e))
    /\ (backgrounds (ctx e') = S (backgrounds (ctx e)) ->
        backgroundDirty e' = false
        /\ lastBackgroundConfig e'
           = Some (GlastarJS.currentBackgroundConfig (config e))
        /\ textureNeedsUpdate e' = true)
    /\ (backgroundType (config e) = color ->
        backgroundRotation (config e) = false ->
        avatarState (config e) = speaking ->
        backgrounds (ctx (drawAvatar level' e')) = backgrounds (ctx e')
        /\ (backgroundDirty e = true ->
            backgrounds (ctx e') = S (backgrounds (ctx e)))).
Proof.
  intros e level level' e'. subst e'.
  destruct (drawAvatar_background level e) as [C B].
  pose proof (backgroundNeedsRedraw_iff e) as N.
  destruct (GlastarJS.backgroundNeedsRedraw e) eqn:R.
  - destruct B as (B & D & T). unfold dirt in D. injection D as Dd Dl.
    split; [|split; [|split]].
    + split; [intros _; now apply N | intros _; exact B].
    + now left.
    + intros _. now repeat split.
    + intros _ Hr Hs. split; [|intros _; exact B].
      destruct (drawAvatar_background level' (drawAvatar level e)) as [_ B'].
      replace (GlastarJS.backgroundNeedsRedraw (drawAvatar level e))
        with false in B'; [apply B'|].
      unfold GlastarJS.backgroundNeedsRedraw.
      rewrite Dd, Dl, C, Hr, Hs. cbn.
      now rewrite BackgroundSignature_eqb_refl.
  - destruct B as (B & D). unfold dirt in D. injection D as Dd Dl.
    assert (F : ~ (backgroundDirty e = true
                   \/ signature_changed (lastBackgroundConfig e)
                        (GlastarJS.currentBackgroundConfig (config e)) = true
                   \/ backgroundRotation (config e) = true
                   \/ avatarState (config e) = thinking)).
    { intro H. apply N in H. discriminate H. }
    split; [|split; [|split]].
    + split; [intro H; rewrite B in H; lia | intro H; now elim F].
    + now right.
    + intro H. rewrite B in H. lia.
    + intros _ Hr Hs. split.
      * destruct (drawAvatar_background level' (drawAvatar level e))
          as [_ B'].
        replace (GlastarJS.backgroundNeedsRedraw (drawAvatar level e))
          with false in B'; [apply B'|].
        symmetry. rewrite <- R.
        unfold GlastarJS.backgroundNeedsRedraw. now rewrite Dd, Dl, C.
      * intro H. elim F. now left.
Qed.

(** *** The listening state *)

Lemma updateStateTransition_settled (e : Engine) :
  avatarState (config e) = targetState e ->
  stateTransitionProgress e == 1 ->
  GlastarJS.updateStateTransition e = e.
Proof.
  intros S P. unfold GlastarJS.updateStateTransition. cbv zeta.
  rewrite S, AvatarState_eqb_refl. cbn [negb].
  replace (JS.ltb (stateTransitionProgress e) 1) with false; [reflexivity|].
  symmetry. apply ltb_ge. rewrite P. apply Qle_refl.
Qed.

(** The frame of an engine settled in the listening state. *)
Lemma drawAvatar_listening (level : Q) (e : Engine) :
  avatarState (config e) = listening ->
  targetState e = listening ->
  stateTransitionProgress e == 1 ->
  drawAvatar level e
  = set_textureNeedsUpdate true
      (redrawBackground (backgroundCanvas_width e) (backgroundCanvas_height e)
         (smooth level (advanceThinking e))).
Proof.
  intros S T P.
  rewrite drawAvatar_phases, updateStateTransition_advanceThinking.
  rewrite updateStateTransition_settled by (rewrite ?T; assumption).
  set (x := redrawBackground _ _ _).
  assert (C : core x = core (smooth level (advanceThinking e)))
    by apply core_redrawBackground.
  apply core_fields in C. destruct C as (_ & _ & _ & _ & Ct & Cp & _).
  change (targetState x = targetState e) in Ct.
  change (stateTransitionProgress x = stateTransitionProgress e) in Cp.
  unfold drawLayers. cbv zeta. rewrite Cp, Ct, T.
  apply Qeq_bool_iff in P. rewrite P. reflexivity.
Qed.

(** C8 (the code departs from the claim). [drawListeningAvatar] sets
    [textureNeedsUpdate] and does nothing else, whatever pulse settings the
    engine stores.  So a frame of an engine settled in the listening state
    adds to the composition canvas the background, when it is due, and
    nothing more: no avatar is drawn, the texture is marked for upload, and
    no glow is rendered. *)
Theorem C8_listening_draws_no_glow :
  forall (e : Engine) (level : Q),
    avatarState (config e) = listening ->
    targetState e = listening ->
    stateTransitionProgress e == 1 ->
    (forall centerX centerY baseSize : Q,
        GlastarJS.drawListeningAvatar centerX centerY baseSize e
        = set_textureNeedsUpdate true e)
    /\ ctx (drawAvatar level e)
       = ctx e
         ++ (if GlastarJS.backgroundNeedsRedraw e
             then [background (backgroundType (config e))
                     (backgroundCanvas_width e) (backgroundCanvas_height e)]
             else [])
    /\ avatarCircles (ctx (drawAvatar level e)) = avatarCircles (ctx e)
    /\ textureNeedsUpdate (drawAvatar level e) = true.
Proof.
  intros e level S T P.
  rewrite (drawAvatar_listening level e S T P).
  unfold redrawBackground.
  change (GlastarJS.backgroundNeedsRedraw (smooth level (advanceThinking e)))
    with (GlastarJS.backgroundNeedsRedraw e).
  split; [reflexivity|].
  destruct (GlastarJS.backgroundNeedsRedraw e).
  - unfold GlastarJS.drawBackground, smooth, advanceThinking. project.
    repeat split.
    induction (ctx e) as [|c l IH]; [reflexivity|].
    destruct c; cbn; rewrite ?IH; reflexivity.
  - unfold smooth, advanceThinking. project.
    rewrite app_nil_r. repeat split.
Qed.

Lemma reachable_run (calls : list Call) (e : Engine) :
  reachable Math_pow e -> reachable Math_pow (run Math_pow calls e).
Proof.
  revert e. induction calls as [|c calls IH]; intros e R; cbn.
  - exact R.
  - apply IH. now constructor.
Qed.

End FrameProperties.

(** *** The properties at work *)

Lemma demo_reachable (options : Partial.t) (calls : list Call) :
  reachable Demo.Math_pow (run Demo.Math_pow calls (Demo.engine options)).
Proof.
  apply reachable_run.
  apply (reachable_new _ Demo.host options), demo_constructed.
Qed.



(** The first frame of a freshly constructed static engine redraws the
    background, the second does not. *)
Lemma C5_background_redraw_witness :
  backgrounds
    (ctx (GlastarJS.drawAvatar Demo.Math_pow 0 (Demo.engine Demo.still)))
  = S (backgrounds (ctx (Demo.engine Demo.still)))
  /\ backgrounds
       (ctx (GlastarJS.drawAvatar Demo.Math_pow 0
               (GlastarJS.drawAvatar Demo.Math_pow 0
                  (Demo.engine Demo.still))))
     = backgrounds
         (ctx (GlastarJS.drawAvatar Demo.Math_pow 0 (Demo.engine Demo.still))).
Proof.
  destruct (C5_background_redraw Demo.Math_pow (Demo.engine Demo.still) 0 0)
    as (_ & _ & _ & H).
  destruct H as [Hsecond Hfirst]; try reflexivity.
  split; [apply Hfirst; reflexivity | exact Hsecond].
Defined.

(** Fading out of speaking at raw progress [0.2], a full sample is scaled
    by one minus the eased progress. *)
Lemma C6_effective_audio_level_witness :
  GlastarJS.effectiveAudioLevel 1
    (GlastarJS.updateStateTransition Demo.fading)
  = 1 * (1 - stateTransitionProgress
               (GlastarJS.updateStateTransition Demo.fading)).
Proof.
  destruct (C6_effective_audio_level Demo.Math_pow Demo.fading 1)
    as (_ & _ & H & _).
  apply H.
  - vm_compute. discriminate.
  - vm_compute. reflexivity.
  - vm_compute. reflexivity.
Defined.

(** In the middle of the transition a further frame does not lower the
    progress. *)
Lemma C7_transition_monotone_witness :
  stateTransitionProgress Demo.fading
  <= stateTransitionProgress (GlastarJS.render Demo.Math_pow 1 Demo.fading)
  /\ GlastarJS.easeInOutCubic 0.2 <= GlastarJS.easeInOutCubic 0.5.
Proof.
  destruct (C7_transition_monotone Demo.Math_pow Demo.fading 1 0.2 0.5)
    as (Hm & _ & _ & He & _).
  - apply demo_reachable.
  - discriminate.
  - discriminate.
  - discriminate.
  - split; [apply Hm; vm_compute; reflexivity | exact He].
Defined.

(** A frame of the settled listening engine, the pulse settings stored:
    nothing is drawn on the composition canvas. *)
Lemma C8_listening_draws_no_glow_witness :
  listeningPulseBase (config Demo.listener) = Some 50
  /\ listeningPulseAmplitude (config Demo.listener) = Some 35
  /\ ctx (GlastarJS.drawAvatar Demo.Math_pow 0 Demo.listener)
     = ctx Demo.listener ++ []
  /\ avatarCircles (ctx (GlastarJS.drawAvatar Demo.Math_pow 0 Demo.listener))
     = avatarCircles (ctx Demo.listener).
Proof.
  destruct (C8_listening_draws_no_glow Demo.Math_pow Demo.listener 0)
    as (_ & Hctx & Hcircles & _).
  - vm_compute. reflexivity.
  - vm_compute. reflexivity.
  - vm_compute. reflexivity.
  - split; [vm_compute; reflexivity | split; [vm_compute; reflexivity|]].
    split; [|exact Hcircles].
    rewrite Hctx.
    replace (GlastarJS.backgroundNeedsRedraw Demo.listener) with false
      by (vm_compute; reflexivity).
    reflexivity.
Defined.

(** ** The rest of the class *)

(** *** Construction *)

Lemma constructor_firstFailure (env : Env) (options : Partial.t) :
  match GlastarJS.constructor env options with
  | inl err => firstFailure env = Some err
  | inr _ => firstFailure env = None
  end.
Proof.
  unfold GlastarJS.constructor, GlastarJS.setupWebGL, GlastarJS.createShader,
    firstFailure.
  destruct (getContext env), (vertexShader env), (fragmentShader env),
    (programCreated env), (LINK_STATUS env); reflexivity.
Qed.

(** X1. Construction succeeds exactly when the host gives a WebGL context,
    compiles both shaders, creates the program and links it; otherwise it
    throws the error of the first step that failed, whatever the options.
    A buffer or a texture the host fails to create does not stop it. *)
Theorem constructor_outcome :
  forall (env : Env) (options : Partial.t),
    (forall err,
        GlastarJS.constructor env options = inl err
        <-> firstFailure env = Some err)
    /\ ((exists e, GlastarJS.constructor env options = inr e)
        <-> getContext env = true
            /\ vertexShader env = shader_compiled
            /\ fragmentShader env = shader_compiled
            /\ programCreated env = true
            /\ LINK_STATUS env = true)
    /\ (firstFailure env = Some WebGL_not_supported
        <-> getContext env = false)
    /\ (firstFailure env = Some Program_linking_error
        <-> getContext env = true
            /\ vertexShader env = shader_compiled
            /\ fragmentShader env = shader_compiled
            /\ programCreated env = true
            /\ LINK_STATUS env = false).
Proof.
  intros env options.
  pose proof (constructor_firstFailure env options) as F.
  split; [|split; [|split]].
  - intro err. destruct (GlastarJS.constructor env options) as [err' | e].
    + rewrite F. split; congruence.
    + rewrite F. split; discriminate.
  - destruct (GlastarJS.constructor env options) as [err' | e].
    + split; [intros [e H]; discriminate H|].
      intros (G & V & Fr & P & L). unfold firstFailure in F.
      rewrite G, V, Fr, P, L in F. discriminate F.
    + split; [intros _ | intros _; now exists e].
      unfold firstFailure in F.
      destruct (getContext env), (vertexShader env), (fragmentShader env),
        (programCreated env), (LINK_STATUS env);
        try discriminate F; repeat split.
  - unfold firstFailure.
    destruct (getContext env), (vertexShader env), (fragmentShader env),
      (programCreated env), (LINK_STATUS env);
      split; intros; try discriminate; reflexivity.
  - unfold firstFailure.
    destruct (getContext env), (vertexShader env), (fragmentShader env),
      (programCreated env), (LINK_STATUS env);
      split; intros; try discriminate; try reflexivity;
      repeat match goal with H : _ /\ _ |- _ => destruct H end;
      try discriminate; repeat split.
Qed.

(** What a constructed engine starts with. *)
Lemma constructor_state (env : Env) (options : Partial.t) (e : Engine) :
  GlastarJS.constructor env options = inr e ->
  program e = Some ProgramObject
  /\ isDisposed e = false
  /\ animationId e = None
  /\ currentState e = speaking
  /\ targetState e = speaking
  /\ backgroundDirty e = true
  /\ clock e = now env
  /\ ctx e = [].
Proof.
  unfold GlastarJS.constructor, GlastarJS.setupWebGL, GlastarJS.createShader.
  destruct (getContext env), (vertexShader env), (fragmentShader env),
    (programCreated env), (LINK_STATUS env); simpl; try discriminate.
  intro H; injection H as <-. repeat split.
Qed.

(** *** Disposal *)

Lemma dispose_released (e : Engine) : released (GlastarJS.dispose e).
Proof.
  destruct e as [? ? ? ? ? p pb tb bt ? a ? ? ? ? ? ? ? ? ? ? ? ? ? ? ? ? ? ?].
  destruct a, p, pb, tb, bt; vm_compute; repeat split.
Qed.

(** X2. [dispose] releases everything it owns, and a second [dispose] changes
    nothing: no call on the WebGL context, none on the scheduler. *)
Theorem dispose_idempotent :
  forall e : Engine,
    released (GlastarJS.dispose e)
    /\ GlastarJS.dispose (GlastarJS.dispose e) = GlastarJS.dispose e.
Proof.
  intro e.
  destruct e as [? ? ? ? ? p pb tb bt ? a ? ? ? ? ? ? ? ? ? ? ? ? ? ? ? ? ? ?].
  destruct a, p, pb, tb, bt; vm_compute; repeat split.
Qed.

Lemma dispose_disposed_state (e : Engine) :
  disposed_state (GlastarJS.dispose e).
Proof.
  destruct (dispose_released e) as (D & A & _ & P & PB & TB & BT & _).
  unfold disposed_state. repeat split; assumption.
Qed.

Section LifeCycle.

Variable Math_pow : Q -> Q -> Q.

Local Abbreviation render := (GlastarJS.render Math_pow).
Local Abbreviation start := (GlastarJS.start Math_pow).
Local Abbreviation drawAvatar := (GlastarJS.drawAvatar Math_pow).

Lemma husk_loadBackgroundImage (e : Engine) :
  husk (GlastarJS.loadBackgroundImage e) = husk e
  /\ gl (GlastarJS.loadBackgroundImage e) = gl e.
Proof.
  unfold GlastarJS.loadBackgroundImage.
  destruct (backgroundImage (config e)) as [[|a url]|]; split; reflexivity.
Qed.

Lemma husk_resize (w : Q) (h : option Q) (e : Engine) :
  husk (GlastarJS.resize w h e) = husk e
  /\ gl (GlastarJS.resize w h e) = gl e ++ [viewport w w].
Proof.
  unfold GlastarJS.resize.
  destruct (avatarShape (config e)); split; reflexivity.
Qed.

Lemma husk_updateConfig (patch : Partial.t) (e : Engine) :
  husk (GlastarJS.updateConfig patch e) = husk e
  /\ exists l, gl (GlastarJS.updateConfig patch e) = gl e ++ l
               /\ Forall is_viewport l.
Proof.
  unfold GlastarJS.updateConfig. cbv zeta.
  set (e2 := if GlastarJS.hasBackgroundKey patch then _ else _).
  assert (H2 : husk e2 = husk e /\ gl e2 = gl e).
  { unfold e2. destruct (GlastarJS.hasBackgroundKey patch);
      split; reflexivity. }
  destruct H2 as [H2 G2].
  set (e3 := if JS.has (Partial.width patch) || JS.has (Partial.height patch)
             then _ else e2).
  assert (H3 : husk e3 = husk e
               /\ exists l, gl e3 = gl e ++ l /\ Forall is_viewport l).
  { unfold e3.
    destruct (JS.has (Partial.width patch) || JS.has (Partial.height patch)).
    - destruct (husk_resize (width (config e2)) (Some (height (config e2))) e2)
        as [H G].
      split.
      + change (husk (GlastarJS.resize (width (config e2))
                        (Some (height (config e2))) e2) = husk e).
        now rewrite H.
      + exists [viewport (width (config e2)) (width (config e2))]. split.
        * change (gl (GlastarJS.resize (width (config e2))
                        (Some (height (config e2))) e2)
                  = gl e ++ [viewport (width (config e2))
                               (width (config e2))]).
          rewrite G, G2. reflexivity.
        * repeat constructor.
    - split; [exact H2|]. exists []. rewrite G2.
      split; [symmetry; apply app_nil_r | constructor]. }
  destruct H3 as [H3 G3].
  destruct (husk_loadBackgroundImage e3) as [H4 G4].
  destruct (Partial.backgroundImage patch) as [[i|]|].
  - rewrite H4, G4. now split.
  - now split.
  - now split.
Qed.

Lemma husk_disposed (e e' : Engine) :
  husk e' = husk e ->
  disposed_state e ->
  disposed_state e' /\ ctx e' = ctx e /\ frames e' = frames e.
Proof.
  unfold husk, disposed_state. intros H D.
  injection H as -> -> -> -> -> -> -> ->. now repeat split.
Qed.

Lemma step_disposed (e : Engine) (c : Call) :
  disposed_state e ->
  husk (step Math_pow e c) = husk e
  /\ exists l, gl (step Math_pow e c) = gl e ++ l /\ Forall is_viewport l.
Proof.
  intro D.
  assert (Same : forall x, husk x = husk e -> gl x = gl e ->
            husk x = husk e
            /\ exists l, gl x = gl e ++ l /\ Forall is_viewport l).
  { intros x H G. split; [exact H|]. exists []. rewrite G.
    split; [symmetry; apply app_nil_r | constructor]. }
  pose proof D as (Hd & Ha & Hp & Hpb & Htb & Hbt).
  destruct c; cbn [step].
  - apply husk_updateConfig.
  - destruct (husk_resize width0 height0 e) as [H G].
    split; [exact H|]. eexists. split; [exact G | repeat constructor].
  - now apply Same.
  - unfold GlastarJS.start. rewrite Ha.
    rewrite render_guard by (now right). now apply Same.
  - unfold GlastarJS.stop. rewrite Ha. now apply Same.
  - unfold GlastarJS.dispose, GlastarJS.stop. cbv zeta.
    cbn [animationId set_isDisposed]. rewrite Ha.
    cbn [program set_audioAnalyzer set_isDisposed]. rewrite Hp.
    cbn [positionBuffer set_audioAnalyzer set_isDisposed]. rewrite Hpb.
    cbn [texCoordBuffer set_audioAnalyzer set_isDisposed]. rewrite Htb.
    cbn [backgroundTexture set_audioAnalyzer set_isDisposed]. rewrite Hbt.
    apply Same; [|reflexivity].
    unfold husk. cbn. now rewrite Hd.
  - now apply Same.
  - rewrite render_guard by (now right). now apply Same.
  - unfold onload_handler. destruct (backgroundImageElement e);
      now apply Same.
  - unfold onerror_handler. destruct (backgroundImageElement e) as [i|];
      [destruct (onerror i)|]; now apply Same.
Qed.

Lemma run_disposed (calls : list Call) (d : Engine) :
  disposed_state d ->
  disposed_state (run Math_pow calls d)
  /\ ctx (run Math_pow calls d) = ctx d
  /\ frames (run Math_pow calls d) = frames d
  /\ exists l, gl (run Math_pow calls d) = gl d ++ l /\ Forall is_viewport l.
Proof.
  revert d. induction calls as [|c calls IH]; intros d D.
  - repeat split; try apply D.
    exists []. split; [symmetry; apply app_nil_r | constructor].
  - change (run Math_pow (c :: calls) d)
      with (run Math_pow calls (step Math_pow d c)).
    destruct (step_disposed d c D) as (H & l & G & V).
    destruct (husk_disposed _ _ H D) as (D' & C & F).
    destruct (IH _ D') as (D'' & C' & F' & l' & G' & V').
    split; [exact D''|]. split; [now rewrite C', C|].
    split; [now rewrite F', F|].
    exists (l ++ l'). split.
    + rewrite G', G. now rewrite app_assoc.
    + apply Forall_app. now split.
Qed.

(** X3. After [dispose], whatever is called and whatever event arrives, the
    engine draws nothing on the composition canvas, requests and cancels no
    animation frame, keeps its WebGL objects released, and calls the WebGL
    context only to set the viewport (in [resize]). *)
Theorem disposed_engine_is_inert :
  forall (e : Engine) (calls : list Call),
    let d := GlastarJS.dispose e in
    let r := run Math_pow calls d in
    disposed_state r
    /\ ctx r = ctx d
    /\ frames r = frames d
    /\ exists l, gl r = gl d ++ l /\ Forall is_viewport l.
Proof.
  intros e calls d r. apply run_disposed, dispose_disposed_state.
Qed.

(** *** resize *)


(** *** The frame, start and stop *)

Lemma shell_ctx_call (c : CtxCall) (e : Engine) :
  shell (ctx_call c e) = shell e.
Proof. reflexivity. Qed.

Lemma shell_drawAvatarState cx cy size w h state opacity (e : Engine) :
  shell (GlastarJS.drawAvatarState Math_pow cx cy size w h state opacity e)
  = shell e.
Proof.
  unfold GlastarJS.drawAvatarState, GlastarJS.drawSpeakingAvatar,
    GlastarJS.drawListeningAvatar, GlastarJS.drawThinkingAvatar,
    GlastarJS.drawThinkingBorder.
  split_tests; reflexivity.
Qed.

Lemma shell_drawLayers (w h : Q) (e : Engine) :
  shell (drawLayers Math_pow w h e) = shell e.
Proof.
  unfold drawLayers. cbv zeta.
  destruct (Qeq_bool (stateTransitionProgress e) 1).
  - apply shell_drawAvatarState.
  - destruct (negb _);
      repeat first [rewrite shell_ctx_call | rewrite shell_drawAvatarState];
      reflexivity.
Qed.

Lemma shell_redrawBackground (w h : Q) (e : Engine) :
  shell (redrawBackground w h e) = shell e.
Proof.
  unfold redrawBackground.
  destruct (GlastarJS.backgroundNeedsRedraw e); reflexivity.
Qed.

Lemma shell_updateStateTransition (e : Engine) :
  shell (GlastarJS.updateStateTransition e) = shell e.
Proof.
  unfold GlastarJS.updateStateTransition. cbv zeta.
  split_tests; reflexivity.
Qed.

Lemma shell_fields (e e' : Engine) :
  shell e = shell e' ->
  gl e = gl e'
  /\ frames e = frames e'
  /\ animationId e = animationId e'
  /\ program e = program e'
  /\ audioAnalyzer e = audioAnalyzer e'
  /\ thinkingAnimationTime e = thinkingAnimationTime e'.
Proof.
  unfold shell. intro H. injection H. intros. repeat split; assumption.
Qed.

(** A frame's drawing touches the composition canvas only: no call on the
    WebGL context or on the scheduler, and the animation clock advances by
    the nominal 16 ms. *)
Lemma shell_drawAvatar (level : Q) (e : Engine) :
  shell (drawAvatar level e) = shell (advanceThinking e).
Proof.
  rewrite drawAvatar_phases, shell_drawLayers, shell_redrawBackground.
  change (shell (GlastarJS.updateStateTransition (advanceThinking e))
          = shell (advanceThinking e)).
  apply shell_updateStateTransition.
Qed.

Lemma draws_app (l l' : list GLCall) :
  draws (l ++ l') = (draws l + draws l')%nat.
Proof.
  induction l as [|c l IH]; [reflexivity|].
  destruct c; cbn; rewrite IH; reflexivity.
Qed.

Lemma uploads_app (l l' : list GLCall) :
  uploads (l ++ l') = (uploads l + uploads l')%nat.
Proof.
  induction l as [|c l IH]; [reflexivity|].
  destruct c; cbn; rewrite IH; reflexivity.
Qed.

(** The part of [render] after the drawing, on an engine not disposed. *)
Lemma present_live (e : Engine) :
  isDisposed e = false ->
  frames (present e)
  = frames e ++ [requestAnimationFrame (GlastarJS.nextFrameId e)]
  /\ animationId (present e) = Some (GlastarJS.nextFrameId e)
  /\ textureNeedsUpdate (present e) = false
  /\ draws (gl (present e)) = S (draws (gl e))
  /\ uploads (gl (present e))
     = (uploads (gl e) + if textureNeedsUpdate e then 1 else 0)%nat
  /\ ctx (present e) = ctx e
  /\ thinkingAnimationTime (present e) = thinkingAnimationTime e
  /\ program (present e) = program e
  /\ isDisposed (present e) = false.
Proof.
  intro D. unfold present, GlastarJS.nextFrameId. cbv zeta.
  destruct (textureNeedsUpdate e) eqn:T; project; rewrite D; cbn [negb];
    project; rewrite ?T;
    (repeat split; try assumption;
     rewrite ?draws_app, ?uploads_app; cbn; lia).
Qed.

Lemma drawAvatar_shell (level : Q) (e : Engine) :
  gl (drawAvatar level e) = gl e
  /\ frames (drawAvatar level e) = frames e
  /\ program (drawAvatar level e) = program e
  /\ thinkingAnimationTime (drawAvatar level e)
     = (thinkingAnimationTime e + 16)%Z.
Proof.
  pose proof (shell_drawAvatar level e) as S. apply shell_fields in S.
  destruct S as (Sg & Sf & _ & Sp & _ & St).
  rewrite Sg, Sf, Sp, St. repeat split.
Qed.

Lemma drawAvatar_config (level : Q) (e : Engine) :
  config (drawAvatar level e) = config e
  /\ isDisposed (drawAvatar level e) = isDisposed e.
Proof.
  pose proof (core_drawAvatar Math_pow level e) as C.
  apply core_fields in C. destruct C as (Cc & _ & _ & _ & _ & _ & _ & Cd).
  destruct (updateStateTransition_frame e) as (Uc & _ & _ & Ud).
  rewrite Cc, Cd. split; [exact Uc | exact Ud].
Qed.

Lemma nextFrameId_frames (e e' : Engine) :
  frames e = frames e' -> GlastarJS.nextFrameId e = GlastarJS.nextFrameId e'.
Proof. unfold GlastarJS.nextFrameId. now intros ->. Qed.

Lemma render_requests (level : Q) (e : Engine) :
  live e ->
  frames (render level e)
  = frames e ++ [requestAnimationFrame (GlastarJS.nextFrameId e)]
  /\ animationId (render level e) = Some (GlastarJS.nextFrameId e).
Proof.
  intros [P D]. rewrite (render_phases Math_pow).
  destruct (program e) as [p|] eqn:Pe; [|now elim P]. rewrite D. cbn [orb].
  generalize (match audioAnalyzer e with Some _ => level | None => 0 end).
  intro a.
  destruct (drawAvatar_shell a e) as (_ & Sf & _).
  destruct (drawAvatar_config a e) as (_ & Cd).
  rewrite D in Cd.
  destruct (present_live _ Cd) as (F & A & _).
  rewrite (nextFrameId_frames _ _ Sf) in F, A.
  rewrite Sf in F. now split.
Qed.

(** X5. A frame of a live engine: it requests exactly one animation frame and
    stores its identifier, issues exactly one draw call and at most one
    texture upload, leaves [textureNeedsUpdate] cleared, advances the
    animation clock by 16, and sets the uniforms from the stored
    configuration. *)
Theorem live_frame :
  forall (e : Engine) (level : Q),
    live e ->
    let r := render level e in
    frames r = frames e ++ [requestAnimationFrame (GlastarJS.nextFrameId e)]
    /\ animationId r = Some (GlastarJS.nextFrameId e)
    /\ textureNeedsUpdate r = false
    /\ draws (gl r) = S (draws (gl e))
    /\ (uploads (gl r) = uploads (gl e)
        \/ uploads (gl r) = S (uploads (gl e)))
    /\ thinkingAnimationTime r = (thinkingAnimationTime e + 16)%Z
    /\ config r = config e
    /\ live r.
Proof.
  intros e level [P D] r. subst r.
  rewrite (render_phases Math_pow).
  destruct (program e) as [p|] eqn:Pe; [|now elim P]. rewrite D. cbn [orb].
  generalize (match audioAnalyzer e with Some _ => level | None => 0 end).
  intro a.
  destruct (drawAvatar_shell a e) as (Sg & Sf & Sp & St).
  destruct (drawAvatar_config a e) as (Cc & Cd).
  rewrite D in Cd.
  destruct (present_live _ Cd) as (F & A & T & Dr & Up & _ & Ti & Pr & Di).
  rewrite (nextFrameId_frames _ _ Sf) in F, A.
  rewrite Sf in F. rewrite Sg in Dr, Up. rewrite St in Ti.
  split; [exact F|]. split; [exact A|]. split; [exact T|].
  split; [exact Dr|].
  split; [destruct (textureNeedsUpdate (drawAvatar a e)); rewrite Up;
          [right | left]; lia|].
  split; [exact Ti|].
  split.
  - pose proof (present_core (drawAvatar a e)) as PC.
    apply core_fields in PC. destruct PC as (-> & _). exact Cc.
  - split; [rewrite Pr, Sp, Pe; discriminate | exact Di].
Qed.

Lemma stop_idempotent (e : Engine) :
  GlastarJS.stop (GlastarJS.stop e) = GlastarJS.stop e
  /\ animationId (GlastarJS.stop e) = None.
Proof.
  unfold GlastarJS.stop. destruct (animationId e) eqn:A.
  - split; reflexivity.
  - rewrite A. now split.
Qed.

(** X6. [start] while a frame is pending does nothing, so a second [start]
    changes nothing; [stop] is idempotent and leaves no frame pending; on a
    live idle engine [start] runs one frame and requests the next, and
    [stop] then cancels exactly that request. *)
Theorem start_stop :
  forall (e : Engine) (level level' : Q),
    start level' (start level e) = start level e
    /\ GlastarJS.stop (GlastarJS.stop e) = GlastarJS.stop e
    /\ animationId (GlastarJS.stop e) = None
    /\ (live e -> animationId e = None ->
        animationId (start level e) = Some (GlastarJS.nextFrameId e)
        /\ frames (GlastarJS.stop (start level e))
           = frames e
             ++ [requestAnimationFrame (GlastarJS.nextFrameId e);
                 cancelAnimationFrame (GlastarJS.nextFrameId e)]
        /\ animationId (GlastarJS.stop (start level e)) = None).
Proof.
  intros e level level'.
  split; [|split; [apply stop_idempotent | split; [apply stop_idempotent|]]].
  - unfold GlastarJS.start. destruct (animationId e) eqn:A.
    + now rewrite A.
    + destruct (program e) as [p|] eqn:P; [destruct (isDisposed e) eqn:D|].
      * rewrite (render_guard Math_pow level e) by (now right).
        rewrite A. apply render_guard. now right.
      * assert (L : live e) by (split; [rewrite P; discriminate | exact D]).
        destruct (render_requests level e L) as (_ & ->). reflexivity.
      * rewrite (render_guard Math_pow level e) by (now left).
        rewrite A. apply render_guard. now left.
  - intros L A. unfold GlastarJS.start. rewrite A.
    destruct (render_requests level e L) as (F & Ai).
    split; [exact Ai|].
    unfold GlastarJS.stop. rewrite Ai. cbn [frames animationId set_frames
      set_animationId]. rewrite F, <- app_assoc. split; reflexivity.
Qed.

End LifeCycle.

Lemma live_demo : live (Demo.engine Demo.still).
Proof. split; [discriminate | reflexivity]. Qed.

(** The first frame of the demo engine. *)
Lemma live_frame_witness :
  frames (GlastarJS.render Demo.Math_pow 1 (Demo.engine Demo.still))
  = [requestAnimationFrame 1]
  /\ draws (gl (GlastarJS.render Demo.Math_pow 1 (Demo.engine Demo.still)))
     = 1%nat.
Proof.
  destruct (live_frame Demo.Math_pow (Demo.engine Demo.still) 1 live_demo)
    as (F & _ & _ & D & _).
  split; [exact F | exact D].
Defined.

Lemma start_stop_witness :
  frames (GlastarJS.stop
            (GlastarJS.start Demo.Math_pow 1 (Demo.engine Demo.still)))
  = [requestAnimationFrame 1; cancelAnimationFrame 1].
Proof.
  destruct (start_stop Demo.Math_pow (Demo.engine Demo.still) 1 1)
    as (_ & _ & _ & H).
  destruct (H live_demo eq_refl) as (_ & F & _). exact F.
Defined.

(** *** updateConfig, whole *)

Section UpdateConfig.

Lemma circle_or_square_stored (shape : AvatarShape) :
  circle_or_square (Some shape) = true.
Proof. destruct shape; reflexivity. Qed.

Lemma settings_fields (e : Engine) c d i w h bw bh :
  settings e = (c, d, i, (w, h, bw, bh)) ->
  config e = c /\ backgroundDirty e = d /\ backgroundImageElement e = i
  /\ canvas_width e = w /\ canvas_height e = h
  /\ backgroundCanvas_width e = bw /\ backgroundCanvas_height e = bh.
Proof.
  unfold settings. intro H. injection H. intros. now repeat split.
Qed.

Lemma settings_resize (w : Q) (h : option Q) (e : Engine) :
  settings (GlastarJS.resize w h e)
  = (set_size w w (config e), true, backgroundImageElement e, (w, w, w, w)).
Proof.
  unfold GlastarJS.resize. rewrite circle_or_square_stored. reflexivity.
Qed.

Lemma settings_loadBackgroundImage (e : Engine) :
  settings (GlastarJS.loadBackgroundImage e)
  = (config e, backgroundDirty e, imageFor (backgroundImage (config e)),
     (canvas_width e, canvas_height e, backgroundCanvas_width e,
      backgroundCanvas_height e)).
Proof.
  unfold GlastarJS.loadBackgroundImage, imageFor.
  destruct (backgroundImage (config e)) as [[|a u]|]; reflexivity.
Qed.

(** What [updateConfig] does to the configuration, the dirty flag, the image
    element and the surfaces. *)
Lemma settings_updateConfig (patch : Partial.t) (e : Engine) :
  settings (GlastarJS.updateConfig patch e)
  = let m := GlastarJS.mergeConfig (config e) patch in
    ((if resizes patch then set_size (width m) (width m) m else m),
     (GlastarJS.hasBackgroundKey patch || resizes patch || backgroundDirty e),
     (match Partial.backgroundImage patch with
      | Some (Some url) => imageFor (Some url)
      | _ => backgroundImageElement e
      end),
     ((if resizes patch then width m else canvas_width e),
      (if resizes patch then width m else canvas_height e),
      (if resizes patch then width m else backgroundCanvas_width e),
      (if resizes patch then width m else backgroundCanvas_height e))).
Proof.
  unfold GlastarJS.updateConfig, resizes. cbv zeta.
  set (m := GlastarJS.mergeConfig (config e) patch).
  set (r := JS.has (Partial.width patch) || JS.has (Partial.height patch)).
  set (e2 := if GlastarJS.hasBackgroundKey patch then _ else _).
  assert (H2 : settings e2
                = (m, (GlastarJS.hasBackgroundKey patch || backgroundDirty e),
                   backgroundImageElement e,
                   (canvas_width e, canvas_height e, backgroundCanvas_width e,
                    backgroundCanvas_height e))).
  { unfold e2. destruct (GlastarJS.hasBackgroundKey patch); reflexivity. }
  set (e3 := if r then _ else e2).
  assert (H3 : settings e3
                = ((if r then set_size (width m) (width m) m else m),
                   (GlastarJS.hasBackgroundKey patch || r
                    || backgroundDirty e),
                   backgroundImageElement e,
                   ((if r then width m else canvas_width e),
                    (if r then width m else canvas_height e),
                    (if r then width m else backgroundCanvas_width e),
                    (if r then width m else backgroundCanvas_height e)))).
  { unfold e3. apply settings_fields in H2.
    destruct H2 as (C2 & D2 & I2 & W2 & Hh2 & B2 & Bh2).
    destruct r.
    - pose proof (settings_resize (width (config e2))
                    (Some (height (config e2))) e2) as R.
      apply settings_fields in R.
      destruct R as (Rc & Rd & Ri & Rw & Rh & Rb & Rbh).
      unfold settings.
      cbn [config backgroundDirty backgroundImageElement canvas_width
           canvas_height backgroundCanvas_width backgroundCanvas_height
           set_backgroundDirty].
      rewrite Rc, Ri, Rw, Rh, Rb, Rbh, C2, I2.
      now rewrite orb_true_r.
    - unfold settings. rewrite C2, D2, I2, W2, Hh2, B2, Bh2.
      now rewrite orb_false_r. }
  destruct (Partial.backgroundImage patch) as [[url|]|] eqn:I;
    try exact H3.
  rewrite settings_loadBackgroundImage.
  apply settings_fields in H3.
  destruct H3 as (C3 & D3 & I3 & W3 & Hh3 & B3 & Bh3).
  rewrite C3, D3, W3, Hh3, B3, Bh3.
  assert (U : backgroundImage
                (if r then set_size (width m) (width m) m else m) = Some url).
  { destruct r; unfold m; cbn; now rewrite I. }
  rewrite U. reflexivity.
Qed.

Lemma config_updateConfig (patch : Partial.t) (e : Engine) :
  config (GlastarJS.updateConfig patch e)
  = if resizes patch
    then set_size (width (GlastarJS.mergeConfig (config e) patch))
           (width (GlastarJS.mergeConfig (config e) patch))
           (GlastarJS.mergeConfig (config e) patch)
    else GlastarJS.mergeConfig (config e) patch.
Proof.
  pose proof (settings_updateConfig patch e) as H. cbv zeta in H.
  apply settings_fields in H. apply H.
Qed.

Lemma spread_idempotent {A : Type} (x : A) (patch : option A) :
  JS.spread (JS.spread x patch) patch = JS.spread x patch.
Proof. destruct patch; reflexivity. Qed.

Lemma or_str_idempotent (x : option string) (d : string) :
  JS.or_str x (JS.or_str x d) = JS.or_str x d.
Proof. destruct x as [[|a s]|]; reflexivity. Qed.

Lemma mergeGradient_idempotent (patch : option Partial.Gradient)
    (g : Gradient) :
  GlastarJS.mergeGradient patch (GlastarJS.mergeGradient patch g)
  = GlastarJS.mergeGradient patch g.
Proof.
  destruct patch as [[c ed a]|]; [|reflexivity].
  unfold GlastarJS.mergeGradient. cbn.
  rewrite !or_str_idempotent. destruct a; reflexivity.
Qed.

Lemma mergeConfig_idempotent (c : Config) (patch : Partial.t) :
  GlastarJS.mergeConfig (GlastarJS.mergeConfig c patch) patch
  = GlastarJS.mergeConfig c patch.
Proof.
  unfold GlastarJS.mergeConfig. cbn.
  rewrite !spread_idempotent, mergeGradient_idempotent. reflexivity.
Qed.

(** X7. [updateConfig({})] changes nothing at all, and applying the same patch a
    second time leaves the stored configuration as the first application
    left it. *)
Theorem updateConfig_neutral_and_idempotent :
  forall (e : Engine) (patch : Partial.t),
    GlastarJS.updateConfig Partial.empty e = e
    /\ config (GlastarJS.updateConfig patch (GlastarJS.updateConfig patch e))
       = config (GlastarJS.updateConfig patch e).
Proof.
  intros e patch. split.
  - destruct e as [c ? ? ? ? ? ? ? ? ? ? ? ? ? ? ? ? ? ? ? ? ? ? ? ? ? ? ? ?].
    destruct c. reflexivity.
  - rewrite (config_updateConfig patch (GlastarJS.updateConfig patch e)).
    rewrite (config_updateConfig patch e).
    destruct (resizes patch).
    + set (m := GlastarJS.mergeConfig (config e) patch).
      assert (W : width (GlastarJS.mergeConfig
                           (set_size (width m) (width m) m) patch)
                  = width m).
      { unfold m, GlastarJS.mergeConfig. cbn. apply spread_idempotent. }
      rewrite W.
      transitivity (set_size (width m) (width m)
                      (GlastarJS.mergeConfig m patch)).
      * reflexivity.
      * unfold m. now rewrite mergeConfig_idempotent.
    + apply mergeConfig_idempotent.
Qed.

(** X8. The image element follows the patch: a non-empty URL installs a fresh
    element with both handlers attached; the empty string drops the element;
    an explicit [undefined] clears the stored URL but leaves the element in
    place; a patch without the key leaves both alone.  When the load fails,
    the handler drops the element and warns once. *)
Theorem updateConfig_image :
  forall (e : Engine) (patch : Partial.t),
    (forall a u,
        Partial.backgroundImage patch = Some (Some (String a u)) ->
        backgroundImage (config (GlastarJS.updateConfig patch e))
        = Some (String a u)
        /\ backgroundImageElement (GlastarJS.updateConfig patch e)
           = Some {| src := String a u; onload := true; onerror := true;
                     complete := false |}
        /\ backgroundImageElement
             (onerror_handler (GlastarJS.updateConfig patch e)) = None
        /\ console (onerror_handler (GlastarJS.updateConfig patch e))
           = console (GlastarJS.updateConfig patch e)
             ++ ["Failed to load background image:"%string])
    /\ (Partial.backgroundImage patch = Some (Some EmptyString) ->
        backgroundImageElement (GlastarJS.updateConfig patch e) = None)
    /\ (Partial.backgroundImage patch = Some None ->
        backgroundImage (config (GlastarJS.updateConfig patch e)) = None
        /\ backgroundImageElement (GlastarJS.updateConfig patch e)
           = backgroundImageElement e)
    /\ (Partial.backgroundImage patch = None ->
        backgroundImage (config (GlastarJS.updateConfig patch e))
        = backgroundImage (config e)
        /\ backgroundImageElement (GlastarJS.updateConfig patch e)
           = backgroundImageElement e).
Proof.
  intros e patch.
  pose proof (settings_updateConfig patch e) as H. cbv zeta in H.
  apply settings_fields in H. destruct H as (C & _ & I & _).
  assert (B : backgroundImage (config (GlastarJS.updateConfig patch e))
              = JS.spread (backgroundImage (config e))
                  (Partial.backgroundImage patch)).
  { rewrite C. destruct (resizes patch); reflexivity. }
  split; [|split; [|split]].
  - intros a u P. rewrite P in I, B. cbn in I, B.
    split; [exact B|]. split; [exact I|].
    unfold onerror_handler. rewrite I. cbn. split; reflexivity.
  - intro P. rewrite P in I. exact I.
  - intro P. rewrite P in I, B. split; [exact B | exact I].
  - intro P. rewrite P in I, B. split; [exact B | exact I].
Qed.

End UpdateConfig.

Lemma updateConfig_image_witness :
  backgroundImageElement
    (GlastarJS.updateConfig Demo.picture (Demo.engine Partial.empty))
  = Some {| src := "a.png"; onload := true; onerror := true;
            complete := false |}
  /\ backgroundImageElement
       (GlastarJS.updateConfig Demo.cleared
          (GlastarJS.updateConfig Demo.picture (Demo.engine Partial.empty)))
     = Some {| src := "a.png"; onload := true; onerror := true;
               complete := false |}
  /\ backgroundImage
       (config
          (GlastarJS.updateConfig Demo.cleared
             (GlastarJS.updateConfig Demo.picture
                (Demo.engine Partial.empty))))
     = None.
Proof.
  destruct (updateConfig_image (Demo.engine Partial.empty) Demo.picture)
    as (H1 & _).
  destruct (H1 _ _ eq_refl) as (_ & E1 & _).
  destruct (updateConfig_image
              (GlastarJS.updateConfig Demo.picture (Demo.engine Partial.empty))
              Demo.cleared)
    as (_ & _ & H3 & _).
  destruct (H3 eq_refl) as (C3 & E3).
  split; [exact E1|]. split; [|exact C3].
  rewrite E3. exact E1.
Defined.

(** *** The surfaces and the dirty flag *)

Section Surfaces.

Variable Math_pow : Q -> Q -> Q.

Local Abbreviation render := (GlastarJS.render Math_pow).
Local Abbreviation drawAvatar := (GlastarJS.drawAvatar Math_pow).

(** X9. [updateConfig] sets the dirty flag exactly when the patch has a
    background key, a width or a height, and never clears it; it draws
    nothing itself, and the frame that follows a dirtying patch redraws the
    background. *)
Theorem updateConfig_marks_dirty :
  forall (e : Engine) (patch : Partial.t) (level : Q),
    backgroundDirty (GlastarJS.updateConfig patch e)
    = GlastarJS.hasBackgroundKey patch || resizes patch || backgroundDirty e
    /\ ctx (GlastarJS.updateConfig patch e) = ctx e
    /\ (GlastarJS.hasBackgroundKey patch || resizes patch = true ->
        backgrounds (ctx (drawAvatar level (GlastarJS.updateConfig patch e)))
        = S (backgrounds (ctx e))).
Proof.
  intros e patch level.
  pose proof (settings_updateConfig patch e) as H. cbv zeta in H.
  apply settings_fields in H. destruct H as (_ & D & _).
  destruct (husk_updateConfig patch e) as [K _].
  assert (X : ctx (GlastarJS.updateConfig patch e) = ctx e).
  { unfold husk in K. injection K. intros. assumption. }
  split; [exact D|]. split; [exact X|].
  intro P. rewrite P in D. cbn [orb] in D.
  destruct (drawAvatar_background Math_pow level
              (GlastarJS.updateConfig patch e)) as [_ B].
  replace (GlastarJS.backgroundNeedsRedraw (GlastarJS.updateConfig patch e))
    with true in B.
  - destruct B as [B _]. now rewrite B, X.
  - symmetry. apply backgroundNeedsRedraw_iff. now left.
Qed.








End Surfaces.

Lemma updateConfig_marks_dirty_witness :
  backgrounds
    (ctx (GlastarJS.drawAvatar Demo.Math_pow 0
            (GlastarJS.updateConfig Demo.picture
               (GlastarJS.drawAvatar Demo.Math_pow 0
                  (Demo.engine Demo.still)))))
  = 2%nat.
Proof.
  destruct (updateConfig_marks_dirty Demo.Math_pow
              (GlastarJS.drawAvatar Demo.Math_pow 0 (Demo.engine Demo.still))
              Demo.picture 0) as (_ & _ & H).
  rewrite H; reflexivity.
Defined.


(** *** The state machine *)

Lemma easeInOutCubic_wd (t t' : Q) :
  t == t' -> GlastarJS.easeInOutCubic t == GlastarJS.easeInOutCubic t'.
Proof.
  intro H.
  destruct (Qlt_le_dec t 0.5) as [L | L].
  - rewrite (easeInOutCubic_low t L).
    rewrite (easeInOutCubic_low t') by (rewrite <- H; exact L).
    now rewrite H.
  - rewrite (easeInOutCubic_high t L).
    rewrite (easeInOutCubic_high t') by (rewrite <- H; exact L).
    now rewrite H.
Qed.


Section StateMachine.

Variable Math_pow : Q -> Q -> Q.

Local Abbreviation render := (GlastarJS.render Math_pow).
Local Abbreviation drawAvatar := (GlastarJS.drawAvatar Math_pow).

(** A frame in which the configured state differs from the target begins a
    transition. *)
Lemma updateStateTransition_begin (e : Engine) :
  avatarState (config e) <> targetState e ->
  targetState (GlastarJS.updateStateTransition e) = avatarState (config e)
  /\ currentState (GlastarJS.updateStateTransition e) = targetState e
  /\ stateTransitionProgress (GlastarJS.updateStateTransition e) == 0
  /\ stateTransitionStartTime (GlastarJS.updateStateTransition e) = clock e
  /\ textureNeedsUpdate (GlastarJS.updateStateTransition e) = true.
Proof.
  intro N. apply AvatarState_eqb_neq in N.
  unfold GlastarJS.updateStateTransition. cbv zeta. rewrite N. cbn [negb].
  destruct e. read_fields. rewrite Z.sub_diag.
  change (JS.ltb 0 1) with true. cbv iota.
  replace (Qeq_bool
             (GlastarJS.easeInOutCubic
                (Qmin 1 (inject_Z 0 / stateTransitionDuration))) 1)
    with false by reflexivity.
  repeat split.
Qed.

(** A frame without a new transition, 500 ms or more after the start of the
    one in progress, completes it. *)
Lemma updateStateTransition_complete (e : Engine) :
  avatarState (config e) = targetState e ->
  stateTransitionProgress e < 1 ->
  (stateTransitionStartTime e + 500 <= clock e)%Z ->
  targetState (GlastarJS.updateStateTransition e) = targetState e
  /\ currentState (GlastarJS.updateStateTransition e) = targetState e
  /\ stateTransitionProgress (GlastarJS.updateStateTransition e) == 1.
Proof.
  intros S L T.
  assert (R : rawProgress (stateTransitionStartTime e) (clock e) == 1).
  { unfold rawProgress, stateTransitionDuration. apply Q.min_l.
    apply Qle_shift_div_l; [reflexivity|].
    rewrite Qmult_1_l. change 500 with (inject_Z 500).
    rewrite <- Zle_Qle. lia. }
  assert (P : GlastarJS.easeInOutCubic
                (rawProgress (stateTransitionStartTime e) (clock e)) == 1).
  { rewrite (easeInOutCubic_wd _ 1 R). reflexivity. }
  pose proof P as B. apply Qeq_bool_iff in B.
  apply ltb_lt in L. unfold rawProgress in *.
  unfold GlastarJS.updateStateTransition. cbv zeta.
  rewrite S, AvatarState_eqb_refl. cbn [negb]. rewrite L.
  destruct e. read_fields. read_fields_in B. read_fields_in P.
  rewrite B. repeat split. exact P.
Qed.

Lemma updateStateTransition_target (e : Engine) :
  targetState (GlastarJS.updateStateTransition e) = avatarState (config e).
Proof.
  destruct (AvatarState_eqb (avatarState (config e)) (targetState e)) eqn:N.
  - apply AvatarState_eqb_eq in N. rewrite N.
    unfold GlastarJS.updateStateTransition. cbv zeta.
    rewrite N, AvatarState_eqb_refl. cbn [negb].
    split_tests; reflexivity.
  - apply AvatarState_eqb_neq in N.
    now apply updateStateTransition_begin.
Qed.

Lemma updateStateTransition_settled_inv (e : Engine) :
  settled_inv e -> settled_inv (GlastarJS.updateStateTransition e).
Proof.
  unfold settled_inv, GlastarJS.updateStateTransition. cbv zeta.
  intro H. destruct e. read_fields. read_fields_in H.
  split_tests; read_fields; intro P; try reflexivity;
    try (now apply H); try (discriminate P);
    apply Qeq_bool_iff in P; congruence.
Qed.

Lemma states_fields (e e' : Engine) :
  states e' = states e -> settled_inv e -> settled_inv e'.
Proof.
  unfold states, settled_inv. intro H. injection H as -> -> ->. exact id.
Qed.

Lemma core_states (e e' : Engine) :
  core e' = core e -> states e' = states e.
Proof.
  intro H. apply core_fields in H.
  destruct H as (_ & _ & _ & C & T & P & _).
  unfold states. now rewrite C, T, P.
Qed.

Lemma render_settled_inv (level : Q) (e : Engine) :
  settled_inv e -> settled_inv (render level e).
Proof.
  intro S.
  destruct (core_render Math_pow level e) as [H | (a & _ & H)];
    apply core_states in H.
  - now apply (states_fields e).
  - apply (states_fields (GlastarJS.updateStateTransition e)).
    + exact H.
    + now apply updateStateTransition_settled_inv.
Qed.

Lemma states_updateConfig (patch : Partial.t) (e : Engine) :
  states (GlastarJS.updateConfig patch e) = states e.
Proof.
  unfold GlastarJS.updateConfig, GlastarJS.resize,
    GlastarJS.loadBackgroundImage.
  cbv zeta. split_tests; reflexivity.
Qed.

Lemma states_dispose (e : Engine) : states (GlastarJS.dispose e) = states e.
Proof.
  unfold GlastarJS.dispose, GlastarJS.stop. cbv zeta.
  split_tests; reflexivity.
Qed.

Lemma step_settled_inv (e : Engine) (c : Call) :
  settled_inv e -> settled_inv (step Math_pow e c).
Proof.
  intro S. destruct c; cbn [step].
  - apply (states_fields e); [apply states_updateConfig | exact S].
  - exact S.
  - exact S.
  - unfold GlastarJS.start. destruct (animationId e);
      [exact S | now apply render_settled_inv].
  - unfold GlastarJS.stop. destruct (animationId e); exact S.
  - apply (states_fields e); [apply states_dispose | exact S].
  - exact S.
  - now apply render_settled_inv.
  - unfold onload_handler. destruct (backgroundImageElement e); exact S.
  - unfold onerror_handler. destruct (backgroundImageElement e) as [i|];
      [destruct (onerror i)|]; exact S.
Qed.

Lemma reachable_settled_inv (e : Engine) :
  reachable Math_pow e -> settled_inv e.
Proof.
  induction 1 as [env options e H | e c _ IH].
  - destruct (constructor_state _ _ _ H) as (_ & _ & _ & C & T & _).
    intros _. now rewrite C, T.
  - now apply step_settled_inv.
Qed.

(** The states after a frame of a live engine are those
    [updateStateTransition] leaves. *)
Lemma render_live_states (level : Q) (e : Engine) :
  live e ->
  states (render level e) = states (GlastarJS.updateStateTransition e)
  /\ stateTransitionStartTime (render level e)
     = stateTransitionStartTime (GlastarJS.updateStateTransition e).
Proof.
  intros [P D]. rewrite (render_phases Math_pow).
  destruct (program e); [|now elim P]. rewrite D. cbn [orb].
  generalize (match audioAnalyzer e with Some _ => level | None => 0 end).
  intro a.
  pose proof (present_core (drawAvatar a e)) as H1.
  pose proof (core_drawAvatar Math_pow a e) as H2.
  rewrite H2 in H1. split.
  - now apply core_states in H1.
  - apply core_fields in H1.
    now destruct H1 as (_ & _ & _ & _ & _ & _ & -> & _).
Qed.

(** X12. The state machine of the avatar.  In an engine a host can hold, no
    transition in progress means the current state is the target state.
    After a frame of a live engine the target is the configured state.  A
    frame that finds the configured state changed begins a transition from
    the previous target, at progress [0], timed from that frame.  A frame
    500 ms or more after the start of a transition, the configured state
    unchanged, completes it. *)
Theorem state_machine :
  forall (e : Engine) (level : Q),
    reachable Math_pow e ->
    live e ->
    let r := render level e in
    settled_inv e
    /\ settled_inv r
    /\ targetState r = avatarState (config e)
    /\ (avatarState (config e) <> targetState e ->
        currentState r = targetState e
        /\ stateTransitionProgress r == 0
        /\ stateTransitionStartTime r = clock e)
    /\ (avatarState (config e) = targetState e ->
        (stateTransitionStartTime e + 500 <= clock e)%Z ->
        stateTransitionProgress r == 1
        /\ currentState r = targetState e).
Proof.
  intros e level R L r. subst r.
  pose proof (reachable_settled_inv e R) as S.
  destruct (render_live_states level e L) as [H Hs].
  unfold states in H. injection H as Hc Ht Hp.
  split; [exact S|]. split; [now apply render_settled_inv|].
  split; [rewrite Ht; apply updateStateTransition_target|].
  split.
  - intro N. rewrite Hc, Hp, Hs.
    destruct (updateStateTransition_begin e N) as (_ & C & P & St & _).
    now repeat split.
  - intros E T. rewrite Hc, Hp.
    destruct (Qlt_le_dec (stateTransitionProgress e) 1) as [Lt | Ge].
    + destruct (updateStateTransition_complete e E Lt T) as (_ & C & P).
      now split.
    + destruct (updateStateTransition_cases e)
        as [(N & _) | [(_ & Lt & _) | (_ & _ & _ & P)]].
      * now elim N.
      * exfalso. apply (Qlt_not_le _ _ Lt Ge).
      * pose proof (transition_inv_range e (reachable_inv Math_pow e R))
          as [_ Le].
        assert (P1 : stateTransitionProgress e == 1)
          by (apply Qle_antisym; assumption).
        rewrite P. split; [exact P1|].
        rewrite <- (S P1).
        unfold GlastarJS.updateStateTransition. cbv zeta.
        rewrite E, AvatarState_eqb_refl. cbn [negb].
        apply ltb_ge in Ge. now rewrite Ge.
Qed.

End StateMachine.

(** 400 ms after the session, 500 ms and more after the transition to
    listening began, the next frame completes it. *)
Lemma state_machine_witness :
  stateTransitionProgress
    (GlastarJS.render Demo.Math_pow 0
       (run Demo.Math_pow (Demo.session ++ [elapse 400])
          (Demo.engine Demo.still))) == 1
  /\ currentState
       (GlastarJS.render Demo.Math_pow 0
          (run Demo.Math_pow (Demo.session ++ [elapse 400])
             (Demo.engine Demo.still))) = listening.
Proof.
  destruct (state_machine Demo.Math_pow
              (run Demo.Math_pow (Demo.session ++ [elapse 400])
                 (Demo.engine Demo.still)) 0)
    as (_ & _ & _ & _ & H).
  - apply demo_reachable.
  - split; [vm_compute; discriminate | vm_compute; reflexivity].
  - apply H; [vm_compute; reflexivity | vm_compute; discriminate].
Defined.

(** *** The drawing *)

Section Drawing.

Variable Math_pow : Q -> Q -> Q.

Local Abbreviation render := (GlastarJS.render Math_pow).
Local Abbreviation drawAvatar := (GlastarJS.drawAvatar Math_pow).
Local Abbreviation drawAvatarState := (GlastarJS.drawAvatarState Math_pow).
Local Abbreviation drawSpeakingAvatar :=
  (GlastarJS.drawSpeakingAvatar Math_pow).

Lemma drawSpeakingAvatar_fields (cx cy base op : Q) (e : Engine) :
  let size :=
    base + smoothedAudioLevel e * (base * avatarExpansion (config e) - base) in
  let opacity :=
    if avatarFadeWithAudio (config e)
    then Qmax 0.0 (Qmin 1.0 (Math_pow (smoothedAudioLevel e * 8.0) 0.3))
    else 1.0 in
  let r := drawSpeakingAvatar cx cy base op e in
  ctx r = ctx e ++ [avatarCircle cx cy size (opacity * op)]
  /\ lastAvatarSize r = size
  /\ textureNeedsUpdate r
     = (JS.ltb 0.5 (Qabs (size - lastAvatarSize e))
        || JS.ltb 0.01 (Qabs (opacity - 1.0))
        || textureNeedsUpdate e).
Proof.
  unfold GlastarJS.drawSpeakingAvatar, GlastarJS.drawAvatarCircle, ctx_call.
  cbv zeta. project.
  destruct (JS.ltb 0.5 _ || JS.ltb 0.01 _); repeat split.
Qed.












Lemma ctx_present (e : Engine) : ctx (present e) = ctx e.
Proof. unfold present. cbv zeta. split_tests; reflexivity. Qed.








(** *** The texture upload *)

Lemma avatarCircles_app (l l' : list CtxCall) :
  avatarCircles (l ++ l') = (avatarCircles l + avatarCircles l')%nat.
Proof.
  induction l as [|c l IH]; [reflexivity|].
  destruct c; cbn; rewrite IH; reflexivity.
Qed.

Lemma target_core (e e' : Engine) :
  core e' = core e -> targetState e' = targetState e.
Proof.
  intro H. apply core_fields in H.
  now destruct H as (_ & _ & _ & _ & -> & _).
Qed.

Lemma texture_drawAvatarState_animated cx cy size w h state opacity
    (e : Engine) :
  state <> speaking ->
  textureNeedsUpdate (drawAvatarState cx cy size w h state opacity e) = true.
Proof. intro N. destruct state; [now elim N | reflexivity | reflexivity]. Qed.

Lemma texture_drawLayers_animated (w h : Q) (e : Engine) :
  targetState e <> speaking ->
  textureNeedsUpdate (drawLayers Math_pow w h e) = true.
Proof.
  intro N. unfold drawLayers. cbv zeta.
  destruct (Qeq_bool (stateTransitionProgress e) 1).
  - now apply texture_drawAvatarState_animated.
  - change (textureNeedsUpdate (ctx_call restore ?x))
      with (textureNeedsUpdate x).
    apply texture_drawAvatarState_animated.
    destruct (negb _);
      repeat first [ rewrite (target_core _ _ (core_ctx_call _ _))
                   | rewrite (target_core _ _
                                (core_drawAvatarState _ _ _ _ _ _ _ _ _)) ];
      exact N.
Qed.

Lemma render_live (level : Q) (e : Engine) :
  live e ->
  render level e
  = present
      (drawAvatar
         (match audioAnalyzer e with Some _ => level | None => 0 end) e).
Proof.
  intros [P D]. rewrite (render_phases Math_pow).
  destruct (program e); [|now elim P]. now rewrite D.
Qed.

Lemma uploads_render (level : Q) (e : Engine) :
  live e ->
  uploads (gl (render level e))
  = (uploads (gl e)
     + if textureNeedsUpdate
            (drawAvatar
               (match audioAnalyzer e with Some _ => level | None => 0 end) e)
       then 1 else 0)%nat.
Proof.
  intro L. rewrite (render_live level e L). destruct L as [_ D].
  set (a := match audioAnalyzer e with Some _ => level | None => 0 end).
  destruct (drawAvatar_shell Math_pow a e) as (Sg & _).
  destruct (drawAvatar_config Math_pow a e) as (_ & Cd). rewrite D in Cd.
  destruct (present_live _ Cd) as (_ & _ & _ & _ & Up & _).
  now rewrite Up, Sg.
Qed.

(** X15. In the listening and the thinking state every frame uploads the
    texture: the glass keeps animating although nothing, or only the
    border, is drawn. *)
Theorem animated_states_upload_every_frame :
  forall (e : Engine) (level : Q),
    live e ->
    avatarState (config e) <> speaking ->
    uploads (gl (render level e)) = S (uploads (gl e)).
Proof.
  intros e level L N. rewrite (uploads_render level e L).
  set (a := match audioAnalyzer e with Some _ => level | None => 0 end).
  rewrite (drawAvatar_phases Math_pow).
  rewrite texture_drawLayers_animated; [lia|].
  rewrite (target_core _ _ (core_redrawBackground _ _ _)).
  rewrite updateStateTransition_advanceThinking.
  change (targetState (GlastarJS.updateStateTransition e) <> speaking).
  now rewrite updateStateTransition_target.
Qed.

(** The frame of an engine settled in the speaking state, the background
    not due. *)
Lemma drawAvatar_speaking (level : Q) (e : Engine) :
  avatarState (config e) = speaking ->
  targetState e = speaking ->
  stateTransitionProgress e == 1 ->
  GlastarJS.backgroundNeedsRedraw e = false ->
  drawAvatar level e
  = drawSpeakingAvatar (backgroundCanvas_width e / 2)
      (backgroundCanvas_height e / 2) (avatarSize (config e)) 1.0
      (smooth level (advanceThinking e)).
Proof.
  intros S T P B.
  rewrite (drawAvatar_phases Math_pow), updateStateTransition_advanceThinking.
  rewrite updateStateTransition_settled by (rewrite ?T; assumption).
  unfold redrawBackground.
  change (GlastarJS.backgroundNeedsRedraw (smooth level (advanceThinking e)))
    with (GlastarJS.backgroundNeedsRedraw e).
  rewrite B. unfold drawLayers. cbv zeta.
  change (stateTransitionProgress (smooth level (advanceThinking e)))
    with (stateTransitionProgress e).
  change (targetState (smooth level (advanceThinking e)))
    with (targetState e).
  apply Qeq_bool_iff in P. rewrite P, T. reflexivity.
Qed.

Lemma lastAvatarSize_present (e : Engine) :
  lastAvatarSize (present e) = lastAvatarSize e
  /\ dirt (present e) = dirt e.
Proof. unfold present. cbv zeta. split_tests; split; reflexivity. Qed.

(** X16. A frame of an engine settled in the speaking state, the background
    static and the avatar not fading, uploads the texture exactly when
    the radius of the avatar moved by more than half a pixel; and the
    next frame finds the engine settled as this one did. *)
Theorem speaking_upload_follows_radius :
  forall (e : Engine) (level : Q),
    live e ->
    avatarState (config e) = speaking ->
    targetState e = speaking ->
    stateTransitionProgress e == 1 ->
    GlastarJS.backgroundNeedsRedraw e = false ->
    avatarFadeWithAudio (config e) = false ->
    textureNeedsUpdate e = false ->
    let r := render level e in
    uploads (gl r)
    = (uploads (gl e)
       + if JS.ltb 0.5 (Qabs (lastAvatarSize r - lastAvatarSize e))
         then 1 else 0)%nat
    /\ avatarCircles (ctx r) = S (avatarCircles (ctx e))
    /\ targetState r = speaking
    /\ stateTransitionProgress r == 1
    /\ GlastarJS.backgroundNeedsRedraw r = false
    /\ textureNeedsUpdate r = false.
Proof.
  intros e level L S T P B F U r. subst r.
  rewrite (uploads_render level e L), (render_live level e L).
  set (a := match audioAnalyzer e with Some _ => level | None => 0 end).
  destruct (lastAvatarSize_present (drawAvatar a e)) as [-> Dp].
  rewrite ctx_present.
  pose proof (present_core (drawAvatar a e)) as Cp.
  pose proof (core_drawAvatar Math_pow a e) as Cd.
  rewrite <- Cp in Cd. apply core_fields in Cd.
  destruct Cd as (Cc & _ & _ & _ & Ct & Cq & _).
  rewrite updateStateTransition_settled in Cc, Ct, Cq
    by (rewrite ?T; assumption).
  change (config (present (drawAvatar a e)) = config e) in Cc.
  change (targetState (present (drawAvatar a e)) = targetState e) in Ct.
  change (stateTransitionProgress (present (drawAvatar a e))
          = stateTransitionProgress e) in Cq.
  assert (X : GlastarJS.backgroundNeedsRedraw (present (drawAvatar a e))
              = false).
  { rewrite <- B. apply backgroundNeedsRedraw_ext; [|exact Cc].
    rewrite Dp.
    destruct (drawAvatar_background Math_pow a e) as [_ D].
    rewrite B in D. apply D. }
  assert (Y : textureNeedsUpdate (present (drawAvatar a e)) = false).
  { destruct (drawAvatar_config Math_pow a e) as (_ & Di).
    destruct L as [_ D]. rewrite D in Di.
    now destruct (present_live _ Di) as (_ & _ & -> & _). }
  rewrite Ct, Cq. clear Cp Cc Ct Cq Dp.
  rewrite (drawAvatar_speaking a e S T P B) in *.
  destruct (drawSpeakingAvatar_fields (backgroundCanvas_width e / 2)
              (backgroundCanvas_height e / 2) (avatarSize (config e)) 1.0
              (smooth a (advanceThinking e))) as (C & Ls & Tx).
  cbv zeta in C, Ls, Tx.
  change (avatarFadeWithAudio (config (smooth a (advanceThinking e))))
    with (avatarFadeWithAudio (config e)) in Tx.
  change (textureNeedsUpdate (smooth a (advanceThinking e)))
    with (textureNeedsUpdate e) in Tx.
  change (lastAvatarSize (smooth a (advanceThinking e)))
    with (lastAvatarSize e) in Tx.
  rewrite F, U in Tx. rewrite <- Ls in Tx.
  change (JS.ltb 0.01 (Qabs (1.0 - 1.0))) with false in Tx.
  rewrite !orb_false_r in Tx. rewrite Tx, C.
  split; [reflexivity|].
  split.
  { change (ctx (smooth a (advanceThinking e))) with (ctx e).
    rewrite avatarCircles_app. cbn [avatarCircles]. lia. }
  now repeat split.
Qed.

End Drawing.



(** A frame of the settled listening engine uploads the texture. *)
Lemma animated_states_upload_every_frame_witness :
  uploads (gl (GlastarJS.render Demo.Math_pow 0 Demo.listener))
  = S (uploads (gl Demo.listener)).
Proof.
  apply animated_states_upload_every_frame.
  - split; [vm_compute; discriminate | vm_compute; reflexivity].
  - vm_compute. discriminate.
Defined.

(** The second frame of the silent demo engine uploads nothing. *)
Lemma speaking_upload_follows_radius_witness :
  uploads
    (gl (GlastarJS.render Demo.Math_pow 0
           (GlastarJS.render Demo.Math_pow 0 (Demo.engine Demo.still))))
  = uploads (gl (GlastarJS.render Demo.Math_pow 0 (Demo.engine Demo.still))).
Proof.
  destruct (speaking_upload_follows_radius Demo.Math_pow
              (GlastarJS.render Demo.Math_pow 0 (Demo.engine Demo.still)) 0)
    as (Up & _).
  - split; [vm_compute; discriminate | vm_compute; reflexivity].
  - vm_compute. reflexivity.
  - vm_compute. reflexivity.
  - vm_compute. reflexivity.
  - vm_compute. reflexivity.
  - vm_compute. reflexivity.
  - vm_compute. reflexivity.
  - rewrite Up. vm_compute. reflexivity.
Defined.

(** *** The strokes *)

Lemma rem_range (x y : Q) :
  0 < y ->
  let r := Num.rem x y in
  (if JS.ltb r 0 then 0 <= r + y /\ r + y < y else 0 <= r /\ r < y).
Proof.
  intros Y r.
  assert (E : x == y * (x / y)) by (field; lra).
  assert (R : r == y * (x / y - inject_Z (Num.trunc (x / y)))).
  { unfold r, Num.rem. rewrite E at 1. ring. }
  set (q := x / y) in *.
  assert (B : -1 < q - inject_Z (Num.trunc q) < 1).
  { unfold Num.trunc. destruct (JS.ltb q 0) eqn:N.
    - apply ltb_lt in N.
      pose proof (Qle_ceiling q). pose proof (Qceiling_lt q) as H1.
      unfold Z.sub in H1. rewrite inject_Z_plus, inject_Z_opp in H1.
      change (inject_Z 1) with 1 in H1. split; lra.
    - pose proof (Qfloor_le q). pose proof (Qlt_floor q) as H1.
      rewrite inject_Z_plus in H1. change (inject_Z 1) with 1 in H1.
      split; lra. }
  set (d := q - inject_Z (Num.trunc q)) in *.
  destruct B as [B1 B2].
  destruct (JS.ltb r 0) eqn:N.
  - apply ltb_lt in N. rewrite R in *. split; nra.
  - apply ltb_ge in N. rewrite R in *. split; nra.
Qed.

Lemma position_on_border (width height pos : Q) :
  20 < width -> 20 < height ->
  on_border width height (Canvas.getPositionOnRect width height pos).
Proof.
  intros W H. unfold Canvas.getPositionOnRect. cbv zeta.
  set (per := (width - 10 * 2 + (height - 10 * 2)) * 2).
  assert (P : 0 < per) by (unfold per; lra).
  pose proof (rem_range pos per P) as R. cbv zeta in R.
  set (p := if JS.ltb (Num.rem pos per) 0 then _ else _).
  assert (Hp : 0 <= p /\ p < per).
  { unfold p. destruct (JS.ltb (Num.rem pos per) 0); exact R. }
  clearbody p. clear R. destruct Hp as [P0 P1]. unfold per in P1.
  destruct (JS.ltb p (width - 10 * 2)) eqn:T1.
  { apply ltb_lt in T1. left. split; [split; lra | left; reflexivity]. }
  apply ltb_ge in T1.
  destruct (JS.ltb (p - (width - 10 * 2)) (height - 10 * 2)) eqn:T2.
  { apply ltb_lt in T2. right. split; [right; reflexivity | split; lra]. }
  apply ltb_ge in T2.
  destruct (JS.ltb (p - (width - 10 * 2) - (height - 10 * 2))
              (width - 10 * 2)) eqn:T3.
  { apply ltb_lt in T3. left. split; [split; lra | right; reflexivity]. }
  apply ltb_ge in T3.
  right. split; [left; reflexivity | split; lra].
Qed.

Lemma rem_small (x y : Q) : 0 <= x -> x < y -> Num.rem x y == x.
Proof.
  intros X Y. unfold Num.rem, Num.trunc.
  assert (Q0 : 0 <= x / y) by (apply Qle_shift_div_l; lra).
  assert (Q1 : x / y < 1) by (apply Qlt_shift_div_r; lra).
  replace (JS.ltb (x / y) 0) with false
    by (symmetry; now apply ltb_ge).
  assert (F : Qfloor (x / y) = 0%Z).
  { pose proof (Qfloor_le (x / y)) as L. pose proof (Qlt_floor (x / y)) as U.
    assert (L' : inject_Z (Qfloor (x / y)) < inject_Z 1)
      by (apply (Qle_lt_trans _ (x / y)); assumption).
    assert (U' : inject_Z 0 < inject_Z (Qfloor (x / y) + 1))
      by (apply (Qle_lt_trans _ (x / y)); assumption).
    rewrite <- Zlt_Qlt in L', U'. lia. }
  rewrite F. change (inject_Z 0) with 0. ring.
Qed.

(** X17. A position on the perimeter is mapped to a point on the rectangle 10
    pixels inside the canvas, whatever its sign and size; the positions
    from [0] to the width of the rectangle run along the top edge from the
    top left corner. *)
Theorem getPositionOnRect_on_border :
  forall width height pos : Q,
    20 < width -> 20 < height ->
    on_border width height (Canvas.getPositionOnRect width height pos)
    /\ (0 <= pos -> pos < width - 20 ->
        fst (Canvas.getPositionOnRect width height pos) == 10 + pos
        /\ snd (Canvas.getPositionOnRect width height pos) == 10).
Proof.
  intros width height pos W H.
  split; [now apply position_on_border|].
  intros P0 P1. unfold Canvas.getPositionOnRect. cbv zeta.
  set (per := (width - 10 * 2 + (height - 10 * 2)) * 2).
  assert (R : Num.rem pos per == pos)
    by (apply rem_small; [exact P0 | unfold per; lra]).
  replace (JS.ltb (Num.rem pos per) 0) with false
    by (symmetry; apply ltb_ge; rewrite R; exact P0).
  replace (JS.ltb (Num.rem pos per) (width - 10 * 2)) with true
    by (symmetry; apply ltb_lt; rewrite R; lra).
  cbn [fst snd]. rewrite R. split; reflexivity.
Qed.

Lemma strokes_app (l l' : list Canvas.Op) :
  strokes (l ++ l') = (strokes l + strokes l')%nat.
Proof.
  induction l as [|c l IH]; [reflexivity|].
  destruct c; cbn; rewrite IH; reflexivity.
Qed.

Lemma strokes_flat_map {A : Type} (f : A -> list Canvas.Op) (l : list A) :
  (forall x, strokes (f x) = 1%nat) ->
  strokes (flat_map f l) = List.length l.
Proof.
  intro H. induction l as [|x l IH]; [reflexivity|].
  cbn [flat_map List.length]. now rewrite strokes_app, H, IH.
Qed.

Lemma strokes_lineTo {A : Type} (f : A -> Q * Q) (l : list A) :
  strokes (map (fun x => Canvas.lineTo (fst (f x)) (snd (f x))) l) = 0%nat.
Proof. induction l as [|x l IH]; [reflexivity | exact IH]. Qed.

Lemma round_range (x scale : Q) :
  0 <= x <= 1 -> 0 <= scale ->
  (0 <= Num.round (x * scale) <= Num.round scale)%Z.
Proof.
  intros [X0 X1] S. unfold Num.round. split.
  - change 0%Z with (Qfloor 0). apply Qfloor_resp_le. nra.
  - apply Qfloor_resp_le. nra.
Qed.

Lemma hex2_byte (n : Z) :
  (0 <= n <= 255)%Z -> hex2 (Num.padStart2 (Num.toString16 n)) = true.
Proof.
  intro H.
  assert (A : forallb
                (fun k => hex2 (Num.padStart2 (Num.toString16 (Z.of_nat k))))
                (seq 0 256) = true) by (vm_compute; reflexivity).
  rewrite forallb_forall in A.
  specialize (A (Z.to_nat n)). rewrite Z2Nat.id in A by lia.
  apply A, in_seq. lia.
Qed.

Lemma alpha_hex2 (opacity scale : Q) :
  0 <= opacity <= 1 -> 0 <= scale <= 255 ->
  hex2 (Canvas.alpha opacity scale) = true.
Proof.
  intros O [S0 S1]. unfold Canvas.alpha. apply hex2_byte.
  pose proof (round_range opacity scale O S0) as [R0 R1].
  assert (R2 : (Num.round scale <= Num.round 255)%Z)
    by (apply Qfloor_resp_le; lra).
  change (Num.round 255) with 255%Z in R2. lia.
Qed.

Lemma hex2_negative (n : Z) :
  (n < 0)%Z -> hex2 (Num.padStart2 (Num.toString16 n)) = false.
Proof.
  intro H. destruct n as [|p|p]; try lia.
  unfold Num.toString16.
  cbn [Z.to_hex_int HexadecimalString.NilZero.string_of_int].
  destruct (HexadecimalString.NilZero.string_of_uint (Pos.to_hex_uint p))
    as [|a [|b r]];
    reflexivity.
Qed.

Lemma append_inj (s a b : string) :
  (s ++ a)%string = (s ++ b)%string -> a = b.
Proof.
  induction s as [|c s IH]; cbn; [trivial|].
  intro H. injection H as H. now apply IH.
Qed.

(** X19. The gradient of the avatar circle.  For an opacity in [[0,1]] its
    three stops are the avatar colour followed by a two digit hexadecimal
    alpha, the centre at least as opaque as the edge; full opacity gives
    [ff] and [80].  A negative opacity that rounds below zero gives a
    centre stop that is no colour. *)
Theorem avatar_circle_gradient :
  forall (color : string) (cx cy size opacity : Q),
    (0 <= opacity <= 1 ->
     Forall (styled color) (Canvas.drawAvatarCircle color cx cy size opacity)
     /\ (0 <= Num.round (opacity * 128) <= Num.round (opacity * 255))%Z
     /\ (Num.round (opacity * 255) <= 255)%Z)
    /\ (opacity == 1 ->
        Canvas.alpha opacity 255 = "ff"%string
        /\ Canvas.alpha opacity 128 = "80"%string)
    /\ (opacity * 255 + 0.5 < 0 ->
        ~ with_alpha color (color ++ Canvas.alpha opacity 255)).
Proof.
  intros color cx cy size opacity. split; [|split].
  - intros O. split; [|split].
    + unfold Canvas.drawAvatarCircle. cbv zeta.
      repeat constructor; cbn [styled].
      * eexists. split; [reflexivity|]. apply alpha_hex2; [exact O|].
        split; discriminate.
      * eexists. split; [reflexivity|]. apply alpha_hex2; [exact O|].
        split; discriminate.
      * exists "00"%string. split; reflexivity.
    + split; [apply (round_range opacity 128 O); discriminate|].
      apply Qfloor_resp_le. destruct O. nra.
    + apply (round_range opacity 255 O). discriminate.
  - intro E. unfold Canvas.alpha, Num.round.
    rewrite (Qfloor_comp (opacity * 255 + 0.5) (255 + 0.5))
      by (rewrite E; ring).
    rewrite (Qfloor_comp (opacity * 128 + 0.5) (128 + 0.5))
      by (rewrite E; ring).
    split; reflexivity.
  - intros N [a [E A]]. apply append_inj in E. subst a.
    unfold Canvas.alpha in A. rewrite hex2_negative in A; [discriminate|].
    unfold Num.round.
    assert (L : inject_Z (Qfloor (opacity * 255 + 0.5)) < inject_Z 0)
      by (apply (Qle_lt_trans _ (opacity * 255 + 0.5));
          [apply Qfloor_le | exact N]).
    now rewrite <- Zlt_Qlt in L.
Qed.

Lemma downto0_range (n : nat) (i : Q) :
  In i (Canvas.downto0 n) -> 0 <= i <= inject_Z (Z.of_nat n).
Proof.
  unfold Canvas.downto0. rewrite in_map_iff.
  intros (k & <- & K). rewrite <- in_rev, in_seq in K.
  split; [change 0 with (inject_Z 0)|]; rewrite <- Zle_Qle; lia.
Qed.

(** X18. The thinking border of the square avatar: eleven strokes and a glow,
    every point of them on the rectangle 10 pixels inside the canvas; for
    a transition opacity in [[0,1]] every stroke colour is the avatar colour
    followed by a two digit hexadecimal alpha. *)
Theorem thinking_border_follows_the_edge :
  forall (color : string) (width height transitionOpacity : Q) (time : Z),
    20 < width -> 20 < height ->
    let calls :=
      Canvas.drawThinkingBorderSquare color width height transitionOpacity
        time in
    Forall (follows_border width height) calls
    /\ strokes calls = 11%nat
    /\ (0 <= transitionOpacity <= 1 -> Forall (styled color) calls).
Proof.
  intros color width height op time W H calls. subst calls.
  unfold Canvas.drawThinkingBorderSquare. cbv zeta.
  split; [|split].
  - apply Forall_app. split; [repeat constructor|].
    apply Forall_app. split.
    + apply Forall_flat_map, Forall_forall. intros i _. cbn [app].
      do 3 (apply Forall_cons; [exact I|]).
      apply Forall_cons.
      { cbn [follows_border]. rewrite <- surjective_pairing.
        now apply position_on_border. }
      apply Forall_app. split; [|repeat constructor].
      apply Forall_map, Forall_forall. intros j _. cbn [follows_border].
      rewrite <- surjective_pairing. now apply position_on_border.
    + do 4 (apply Forall_cons; [exact I|]).
      apply Forall_cons; [|repeat constructor].
      cbn [follows_border]. rewrite <- surjective_pairing.
      now apply position_on_border.
  - rewrite !strokes_app, strokes_flat_map.
    + reflexivity.
    + intro i. cbn [app strokes]. rewrite strokes_app, strokes_lineTo.
      reflexivity.
  - intros [O0 O1].
    apply Forall_app. split; [repeat constructor|].
    apply Forall_app. split; [|repeat constructor].
    apply Forall_flat_map, Forall_forall. intros i Hi.
    apply downto0_range in Hi. change (inject_Z (Z.of_nat 10)) with 10 in Hi.
    cbn [app]. apply Forall_cons.
    + cbn [styled]. eexists. split; [reflexivity|].
      apply alpha_hex2; [|split; discriminate].
      assert (E : 1.0 - i / 10 * 0.7 == 1 - i * (7 # 100)) by field.
      rewrite E. destruct Hi. split; nra.
    + do 3 (apply Forall_cons; [exact I|]).
      apply Forall_app. split; [|repeat constructor].
      apply Forall_map, Forall_forall. intros j _. exact I.
Qed.

(** *** The analyzer *)

Lemma amplitude_square (b : Byte.byte) :
  0 <= Analyzer.amplitude b * Analyzer.amplitude b <= 1.
Proof.
  unfold Analyzer.amplitude.
  pose proof (Byte.to_N_bounded b) as B.
  assert (L : 0 <= inject_Z (Z.of_N (Byte.to_N b))).
  { change 0 with (inject_Z 0). rewrite <- Zle_Qle. lia. }
  assert (U : inject_Z (Z.of_N (Byte.to_N b)) <= 255).
  { change 255 with (inject_Z 255). rewrite <- Zle_Qle. lia. }
  set (x := inject_Z (Z.of_N (Byte.to_N b))) in *.
  assert (E : (x - 128) / 128 == (x - 128) * (1 # 128)) by field.
  rewrite E. set (y := (x - 128) * (1 # 128)).
  assert (Y : -1 <= y <= 1) by (unfold y; split; lra).
  assert (S : 0 <= (1 - y) * (1 + y)) by (apply Qmult_le_0_compat; lra).
  split; [|lra].
  destruct (Qlt_le_dec y 0).
  - setoid_replace (y * y) with ((- y) * (- y)) by ring.
    apply Qmult_le_0_compat; lra.
  - now apply Qmult_le_0_compat.
Qed.

Lemma sum_squares_range (l : list Byte.byte) (acc : Q) :
  acc
  <= fold_left (fun sum b => sum + Analyzer.amplitude b * Analyzer.amplitude b)
       l acc
  <= acc + inject_Z (Z.of_nat (List.length l)).
Proof.
  revert acc. induction l as [|b l IH]; intro acc.
  - cbn [fold_left List.length]. change (inject_Z (Z.of_nat 0)) with 0.
    split; lra.
  - cbn [fold_left List.length]. rewrite Nat2Z.inj_succ.
    unfold Z.succ. rewrite inject_Z_plus. change (inject_Z 1) with 1.
    destruct (IH (acc + Analyzer.amplitude b * Analyzer.amplitude b))
      as [L U].
    destruct (amplitude_square b). split; lra.
Qed.

Lemma meanSquare_range (data : list Byte.byte) : 0 <= meanSquare data <= 1.
Proof.
  unfold meanSquare.
  set (n := Nat.min (List.length data) 1024).
  pose proof (sum_squares_range (firstn n data) 0) as [L U].
  assert (N : List.length (firstn n data) = n).
  { rewrite length_firstn. unfold n. lia. }
  rewrite N, Qplus_0_l in U.
  destruct n as [|n].
  - cbn [firstn fold_left]. split; discriminate.
  - assert (P : 0 < inject_Z (Z.of_nat (S n))).
    { change 0 with (inject_Z 0). rewrite <- Zlt_Qlt. lia. }
    split.
    + apply Qle_shift_div_l; [exact P|]. now rewrite Qmult_0_l.
    + apply Qle_shift_div_r; [exact P|]. now rewrite Qmult_1_l.
Qed.

Section AnalyzerProperties.

Variable Math_sqrt : Q -> Q.

Hypothesis Math_sqrt_nonneg : forall x : Q, 0 <= x -> 0 <= Math_sqrt x.

Local Abbreviation getAudioData := (Analyzer.getAudioData Math_sqrt).

(** X20. The level the analyzer reports is in [[0,1]]: it is twice the root of
    a mean square that is itself in [[0,1]], capped at [1]; so it is a
    sample the smoothing of the engine keeps in range.  Only the first
    1024 bytes are read. *)
Theorem getAudioData_level :
  forall data : list Byte.byte,
    data <> [] ->
    0 <= meanSquare data <= 1
    /\ Analyzer.level (getAudioData data)
       = Qmin (Math_sqrt (meanSquare data) * 2) 1
    /\ 0 <= Analyzer.level (getAudioData data) <= 1
    /\ sample_ok (tick (Analyzer.level (getAudioData data)))
    /\ (forall more : list Byte.byte,
          List.length data = 1024%nat ->
          Analyzer.level (getAudioData (data ++ more))
          = Analyzer.level (getAudioData data)).
Proof.
  intros data _.
  pose proof (meanSquare_range data) as M.
  assert (R : 0 <= Qmin (Math_sqrt (meanSquare data) * 2) 1 <= 1).
  { split; [|apply Q.le_min_r].
    apply Q.min_glb; [|discriminate].
    pose proof (Math_sqrt_nonneg _ (proj1 M)). lra. }
  split; [exact M|]. split; [reflexivity|].
  split; [exact R|]. split; [exact R|].
  intros more L. unfold Analyzer.getAudioData, Analyzer.level. cbv zeta.
  rewrite length_app, L.
  replace (Nat.min (1024 + List.length more) 1024) with 1024%nat by lia.
  replace (Nat.min 1024 1024) with 1024%nat by reflexivity.
  rewrite firstn_app, L, Nat.sub_diag. cbn [firstn].
  now rewrite app_nil_r.
Qed.

End AnalyzerProperties.

(** A position before the start of the perimeter, on a 100 pixel canvas. *)
Lemma getPositionOnRect_on_border_witness :
  on_border 100 100 (Canvas.getPositionOnRect 100 100 (-10)).
Proof.
  apply (getPositionOnRect_on_border 100 100 (-10)); reflexivity.
Defined.

Lemma thinking_border_follows_the_edge_witness :
  strokes (Canvas.drawThinkingBorderSquare "#4A90E2" 100 100 1 160)
  = 11%nat.
Proof.
  apply (thinking_border_follows_the_edge "#4A90E2" 100 100 1 160);
    reflexivity.
Defined.

(** Two bytes, one at rest and one at the top of the range, with the
    identity standing in for the square root. *)
Lemma getAudioData_level_witness :
  0 <= Analyzer.level
         (Analyzer.getAudioData (fun x => x) [Byte.x80; Byte.xff])
  <= 1.
Proof.
  apply (getAudioData_level (fun x => x) (fun x H => H)
           [Byte.x80; Byte.xff]).
  discriminate.
Defined.

(** *** Frames without an audio stream *)

Section NoStream.

Variable Math_pow : Q -> Q -> Q.

Local Abbreviation render := (GlastarJS.render Math_pow).



End NoStream.

